(** * ixbrlparse: a shallow embedding of [ixbrlparse/core.py]

    The parser walks an element tree produced by an external tree
    library, resolves contexts and units into dictionaries keyed by id,
    extracts non-numeric and numeric facts, and exports flat rows.

    Python dictionaries that are used as maps are [gmap]s; dictionary
    literals whose key order is the column order of an exported row are
    association lists.  Exceptions are modelled by [result]; methods that
    mutate the parser object are state transformers over [Parser] that
    keep the state reached when the exception was raised. *)

From Stdlib Require Import Ascii String QArith Qpower.
From stdpp Require Import base option list strings gmap fin_maps pretty.

Local Open Scope string_scope.
Local Open Scope list_scope.

Infix "+++" := String.append (at level 60, right associativity).

(** ** Python strings *)

Module PyStr.

(** [str.isspace] on the code points below 256, the characters a
    string of the model holds: the white space of ASCII, the
    separators U+001C to U+001F, U+0085 and U+00A0.  Python counts as
    white space also U+1680, U+2000 to U+200A, U+2028, U+2029, U+202F,
    U+205F and U+3000, which are outside the model's strings. *)
Definition isspace (c : ascii) : bool :=
  let n := nat_of_ascii c in
  ((9 <=? n)%nat && (n <=? 13)%nat) || ((28 <=? n)%nat && (n <=? 32)%nat)
  || (n =? 133)%nat || (n =? 160)%nat.

Fixpoint lstrip (s : string) : string :=
  match s with
  | String c r => if isspace c then lstrip r else s
  | EmptyString => EmptyString
  end.

Fixpoint rev_onto (s acc : string) : string :=
  match s with
  | String c r => rev_onto r (String c acc)
  | EmptyString => acc
  end.

Definition rev (s : string) : string := rev_onto s EmptyString.

Definition rstrip (s : string) : string := rev (lstrip (rev s)).

(** [s.strip()] *)
Definition strip (s : string) : string := rstrip (lstrip s).

(** [s.replace(c, "")] for a one-character [c]. *)
Fixpoint remove_char (c : ascii) (s : string) : string :=
  match s with
  | String d r =>
      if Ascii.eqb c d then remove_char c r else String d (remove_char c r)
  | EmptyString => EmptyString
  end.

(** [s.split(c)] for a one-character separator. *)
Fixpoint split_on (c : ascii) (s : string) : list string :=
  match s with
  | EmptyString => [EmptyString]
  | String d r =>
      if Ascii.eqb c d then EmptyString :: split_on c r
      else match split_on c r with
           | w :: ws => String d w :: ws
           | [] => [String d EmptyString]
           end
  end.

(** [sep.join(l)] *)
Fixpoint join (sep : string) (l : list string) : string :=
  match l with
  | [] => EmptyString
  | [w] => w
  | w :: ws => w +++ sep +++ join sep ws
  end.

(** [c in s] for a one-character [c]. *)
Fixpoint contains_char (c : ascii) (s : string) : bool :=
  match s with
  | String d r => Ascii.eqb c d || contains_char c r
  | EmptyString => false
  end.

(** [s.startswith(p)] *)
Definition startswith (p s : string) : bool := String.prefix p s.

(** Truth value of a string: non-empty. *)
Definition truthy (s : string) : bool :=
  match s with EmptyString => false | _ => true end.

End PyStr.

(** ** The element tree of the external tree library

    A tag has a name, an attribute dictionary and contents that are
    either text or tags, in document order.  The document object itself
    is a tag whose contents are the top-level nodes. *)

#[warnings="-register-all"]
Inductive Tag : Type :=
  mkTag { name : string;
          attrs : gmap string string;
          contents : list (string + Tag) }.

(** What a search is given: one spelling or a collection of spellings. *)
Inductive name_filter : Type :=
| Spelling (s : string)
| AnyOf (l : list string).

(** All tags strictly below [t], in document order. *)
Fixpoint descendants (t : Tag) : list Tag :=
  (fix go (l : list (string + Tag)) : list Tag :=
     match l with
     | [] => []
     | inl _ :: r => go r
     | inr c :: r => c :: descendants c ++ go r
     end) (contents t).

(** [t.text]: all text below [t], concatenated in document order. *)
Fixpoint text (t : Tag) : string :=
  (fix go (l : list (string + Tag)) : string :=
     match l with
     | [] => EmptyString
     | inl s :: r => s +++ go r
     | inr c :: r => text c +++ go r
     end) (contents t).

(** [t[k]] raises [KeyError] when absent, [t.get(k)] gives [None]. *)
Definition get (t : Tag) (k : string) : option string := attrs t !! k.

(** Truth value of [t.get(k)]: present and non-empty. *)
Definition get_truthy (t : Tag) (k : string) : bool :=
  match get t k with
  | Some v => PyStr.truthy v
  | None => false
  end.

(** ** Exceptions and results *)

Inductive exn : Type :=
| KeyError (key : string)
| AttributeError (msg : string)
| Exception_ (msg : string)
| FormatError (raw : string) (format : option string)
| MissingAttribute (key : string).

Inductive result (A : Type) : Type :=
| Ok (a : A)
| Raise (e : exn).
Arguments Ok {A} a.
Arguments Raise {A} e.

#[global] Instance result_ret : MRet result := fun A a => Ok a.
#[global] Instance result_bind : MBind result := fun A B k r =>
  match r with
  | Ok a => k a
  | Raise e => Raise e
  end.

(** [d[k]] on an attribute dictionary. *)
Definition getitem (t : Tag) (k : string) : result string :=
  match get t k with
  | Some v => Ok v
  | None => Raise (KeyError k)
  end.

(** ** The records of [ixbrlparse.components] *)

Record date : Type := mkDate { year : nat; month : nat; day : nat }.

(** Modelled from the spec: class [ixbrlContext] of
    [ixbrlparse/components.py] is not part of the sources at hand; the
    record has the fields the spec's data model lists and [core.py] and
    its tests read ([id], [entity], [segments], [instant], [startdate],
    [enddate]).  A segment member is the dictionary [_get_contexts]
    builds. *)
Record ixbrlContext : Type := mkContext {
  context_id : string;
  entity_scheme : option string;
  entity_identifier : option string;
  segments : option (list (gmap string string));
  instant : option date;
  startdate : option date;
  enddate : option date }.

(** The Python values that flow through fact construction and export. *)
Inductive pyval : Type :=
| VNone
| VStr (s : string)
| VNum (q : Q)
| VList (l : list string)
| VContext (c : ixbrlContext).

(** Modelled from the spec: class [ixbrlNonNumeric] of
    [ixbrlparse/components.py]; fields as in the spec's data model, with
    the names [to_table] reads ([schema], [name], [context], [value]). *)
Record ixbrlNonNumeric : Type := mkNonNumeric {
  nn_schema : string;
  nn_name : string;
  nn_context : pyval;
  nn_format : option string;
  nn_value : string }.

(** Modelled from the spec: class [ixbrlNumeric] of
    [ixbrlparse/components.py]; fields as in the spec's data model, with
    the names [to_table] and the tests read. *)
Record ixbrlNumeric : Type := mkNumeric {
  num_schema : string;
  num_name : string;
  num_context : pyval;
  num_unit : option string;
  num_text : string;
  num_format : option string;
  num_sign : string;
  num_scale : Z;
  num_decimals : option string;
  num_value : Q }.

(** The keyword arguments [_get_contexts] passes to [ixbrlContext]. *)
Record context_kwargs : Type := mkContextKw {
  kw_id : string;
  kw_scheme : option string;
  kw_identifier : option string;
  kw_segments : option (list (gmap string string));
  kw_instant : option string;
  kw_startdate : option string;
  kw_enddate : option string }.

(** The keyword arguments [_get_nonnumeric] passes to [ixbrlNonNumeric]. *)
Record nonnumeric_kwargs : Type := mkNonNumericKw {
  kw_context : pyval;
  kw_name : string;
  kw_format_ : option string;
  kw_value : string }.

(** ** The parser object *)

Inductive parser_class : Type := IXBRLParser | XBRLParser.

(** An attribute that has not been assigned yet is [None] at the outer
    level; [errors] is assigned by [__init__]. *)
Record Parser : Type := mkParser {
  cls : parser_class;
  soup : Tag;
  raise_on_error : bool;
  errors : list (exn * Tag);
  schema : option (option string);
  namespaces : option (gmap string (list string));
  contexts : option (gmap string ixbrlContext);
  units : option (gmap string (option string));
  nonnumeric : option (list ixbrlNonNumeric);
  numeric : option (list ixbrlNumeric) }.

(** [IXBRLParser.__init__] *)
Definition Parser_init (c : parser_class) (sp : Tag) (roe : bool) : Parser :=
  mkParser c sp roe [] None None None None None None.

Definition set_errors (v : list (exn * Tag)) (p : Parser) : Parser :=
  mkParser (cls p) (soup p) (raise_on_error p) v (schema p) (namespaces p)
    (contexts p) (units p) (nonnumeric p) (numeric p).
Definition set_schema (v : option string) (p : Parser) : Parser :=
  mkParser (cls p) (soup p) (raise_on_error p) (errors p) (Some v)
    (namespaces p) (contexts p) (units p) (nonnumeric p) (numeric p).
Definition set_namespaces (v : gmap string (list string)) (p : Parser)
  : Parser :=
  mkParser (cls p) (soup p) (raise_on_error p) (errors p) (schema p) (Some v)
    (contexts p) (units p) (nonnumeric p) (numeric p).
Definition set_contexts (v : gmap string ixbrlContext) (p : Parser) : Parser :=
  mkParser (cls p) (soup p) (raise_on_error p) (errors p) (schema p)
    (namespaces p) (Some v) (units p) (nonnumeric p) (numeric p).
Definition set_units (v : gmap string (option string)) (p : Parser) : Parser :=
  mkParser (cls p) (soup p) (raise_on_error p) (errors p) (schema p)
    (namespaces p) (contexts p) (Some v) (nonnumeric p) (numeric p).
Definition set_nonnumeric (v : list ixbrlNonNumeric) (p : Parser) : Parser :=
  mkParser (cls p) (soup p) (raise_on_error p) (errors p) (schema p)
    (namespaces p) (contexts p) (units p) (Some v) (numeric p).
Definition set_numeric (v : list ixbrlNumeric) (p : Parser) : Parser :=
  mkParser (cls p) (soup p) (raise_on_error p) (errors p) (schema p)
    (namespaces p) (contexts p) (units p) (nonnumeric p) (Some v).

(** Reading an attribute of the parser object that was never assigned. *)
Definition getattr {A} (field : string) (o : option A) : result A :=
  match o with
  | Some a => Ok a
  | None => Raise (AttributeError field)
  end.

(** How a method call on the parser ends; the parser it leaves behind is
    kept in both cases. *)
Inductive outcome : Type :=
| Returned
| Raised (e : exn).

Definition method : Type := Parser -> Parser * outcome.

(** Sequencing of statements: an exception skips what follows. *)
Definition seq (m1 m2 : method) : method :=
  fun p =>
    match m1 p with
    | (p', Returned) => m2 p'
    | (p', Raised e) => (p', Raised e)
    end.

(** A [for] loop whose body may raise. *)
Fixpoint for_each {A} (body : A -> method) (l : list A) : method :=
  fun p =>
    match l with
    | [] => (p, Returned)
    | x :: r =>
        match body x p with
        | (p', Returned) => for_each body r p'
        | (p', Raised e) => (p', Raised e)
        end
    end.

(** [self.contexts.get(ref, ref)]: the context when the id is known, the
    reference itself otherwise. *)
Definition resolve_context (cs : gmap string ixbrlContext) (ref : string)
  : pyval :=
  match cs !! ref with
  | Some c => VContext c
  | None => VStr ref
  end.

(** [self.units.get(ref, ref)]: a known unit maps to its measure, which
    may be [None]. *)
Definition resolve_unit (us : gmap string (option string)) (ref : string)
  : pyval :=
  match us !! ref with
  | Some (Some m) => VStr m
  | Some None => VNone
  | None => VStr ref
  end.

(** [{"tag": x.name, "value": x.text.strip(), **x.attrs}] *)
Definition segment_member (x : Tag) : gmap string string :=
  attrs x ∪ <["tag" := name x]> {["value" := PyStr.strip (text x)]}.

Definition root_element (c : parser_class) : string :=
  match c with
  | IXBRLParser => "html"
  | XBRLParser => "xbrl"
  end.

(** [k.startswith("xmlns") or ":" in k] *)
Definition is_namespace_key (k : string) : bool :=
  PyStr.startswith "xmlns" k || PyStr.contains_char ":" k.

(** The loop of [_get_schema] over the attributes of the root element. *)
Definition root_namespaces (root : Tag) : gmap string (list string) :=
  foldl (fun ns kv =>
           if is_namespace_key kv.1
           then <[kv.1 := PyStr.split_on " " kv.2]> ns
           else ns)
        ∅ (map_to_list (attrs root)).

(** [self.errors.append({"error": e, "element": s})], then [raise] under
    the raise-on-error policy. *)
Definition record_error (e : exn) (s : Tag) : method :=
  fun p =>
    (set_errors (errors p ++ [(e, s)]) p,
     if raise_on_error p then Raised e else Returned).

(** The guards of the bare-format fact loops: [True] means [continue]. *)
Definition skip_numeric (s : Tag) : bool :=
  negb (get_truthy s "contextRef") || negb (get_truthy s "unitRef").

Definition skip_nonnumeric (s : Tag) : bool :=
  negb (get_truthy s "contextRef") || get_truthy s "unitRef".

(** ** Vocabulary of the statements *)

(** An element carries a reference when the attribute is there and is
    not empty. *)
Definition carries (s : Tag) (k : string) : Prop :=
  ∃ v, get s k = Some v ∧ v ≠ "".

(** How the construction of one fact candidate ends: a fact, an
    exception inside the guarded constructor call, or an exception while
    the [element] dictionary is built, outside it. *)
Inductive attempt (F : Type) : Type :=
| Built (f : F)
| Failed (e : exn)
| Escaped (e : exn).
Arguments Built {F} f.
Arguments Failed {F} e.
Arguments Escaped {F} e.

Definition attempt_of {E F} (element : result E) (new : E -> result F)
  : attempt F :=
  match element with
  | Raise e => Escaped e
  | Ok el =>
      match new el with
      | Ok f => Built f
      | Raise e => Failed e
      end
  end.

(** What a fact loop makes of a sequence of attempts: the facts it
    appends, the errors it appends and how it ends. *)
Fixpoint replay {F} (roe : bool) (l : list (Tag * attempt F))
  : list F * list (exn * Tag) * outcome :=
  match l with
  | [] => ([], [], Returned)
  | (s, Built f) :: r =>
      let '(fs, es, o) := replay roe r in (f :: fs, es, o)
  | (s, Failed e) :: r =>
      if roe then ([], [(e, s)], Raised e)
      else let '(fs, es, o) := replay roe r in (fs, (e, s) :: es, o)
  | (s, Escaped e) :: r => ([], [], Raised e)
  end.

(** A method leaves a field of the parser as it was. *)
Definition preserves {A} (field : Parser -> A) (m : method) : Prop :=
  ∀ p, field (m p).1 = field p.

(** A property of the parser that a method maintains. *)
Definition maintains (I : Parser -> Prop) (m : method) : Prop :=
  ∀ p, I p → I (m p).1.

(** What a loop that stores one entry per element makes of a map: it
    stops at the first element whose entry raises. *)
Fixpoint store_entries {V} (entry : Tag -> result (string * V))
  (l : list Tag) (m : gmap string V) : gmap string V * outcome :=
  match l with
  | [] => (m, Returned)
  | s :: r =>
      match entry s with
      | Ok (i, v) => store_entries entry r (<[i := v]> m)
      | Raise e => (m, Raised e)
      end
  end.

(** Everything but the fact lists and the error list is as it was. *)
Definition same_resources (p q : Parser) : Prop :=
  cls q = cls p ∧ soup q = soup p ∧ raise_on_error q = raise_on_error p
  ∧ schema q = schema p ∧ namespaces q = namespaces p
  ∧ contexts q = contexts p ∧ units q = units p.

Section Core.

(** The tree library decides which tags a search for given spellings
    matches; the constructors of [ixbrlparse.components] are not part
    of the sources at hand and may raise. *)
Variable tag_matches : name_filter -> Tag -> bool.
Variable new_ixbrlContext : context_kwargs -> result ixbrlContext.
Variable new_ixbrlNonNumeric : nonnumeric_kwargs -> result ixbrlNonNumeric.
Variable new_ixbrlNumeric : gmap string pyval -> result ixbrlNumeric.

(** [t.find_all(f)] and [t.find(f)] *)
Definition find_all (f : name_filter) (t : Tag) : list Tag :=
  List.filter (tag_matches f) (descendants t).

Definition find (f : name_filter) (t : Tag) : option Tag :=
  head (find_all f t).

(** [s.find(names).text.strip() if s.find(names) else None]; a tag that
    was found counts as true whatever it contains. *)
Definition find_text (names : list string) (s : Tag) : option string :=
  (fun t => PyStr.strip (text t)) <$> find (AnyOf names) s.

Definition _get_schema : method :=
  fun p =>
    match find (AnyOf ["link:schemaRef"; "schemaRef"]) (soup p) with
    | None => (p, Raised (AttributeError "get"))
    | Some ref =>
        let p1 := set_namespaces ∅ (set_schema (get ref "xlink:href") p) in
        match find (Spelling (root_element (cls p))) (soup p) with
        | None => (p1, Raised (AttributeError "attrs"))
        | Some root => (set_namespaces (root_namespaces root) p1, Returned)
        end
    end.

Definition _get_context_elements (c : parser_class) (sp : Tag)
  : result (list Tag) :=
  match c with
  | IXBRLParser =>
      match find (AnyOf ["ix:resources"; "resources"]) sp with
      | Some resources =>
          Ok (find_all (AnyOf ["xbrli:context"; "context"]) resources)
      | None => Raise (AttributeError "find_all")
      end
  | XBRLParser => Ok (find_all (AnyOf ["xbrli:context"; "context"]) sp)
  end.

(** The dictionary literal of [_get_contexts], evaluated entry by
    entry. *)
Definition context_kwargs_of (s : Tag) : result context_kwargs :=
  i ← getitem s "id";
  scheme ← match find (AnyOf ["xbrli:identifier"; "identifier"]) s with
           | Some e => v ← getitem e "scheme"; Ok (Some (PyStr.strip v))
           | None => Ok None
           end;
  Ok (mkContextKw i scheme
        (find_text ["xbrli:identifier"; "identifier"] s)
        (match find (AnyOf ["xbrli:segment"; "segment"]) s with
         | Some g => Some (segment_member <$> descendants g)
         | None => None
         end)
        (find_text ["xbrli:instant"; "instant"] s)
        (find_text ["xbrli:startDate"; "startDate"] s)
        (find_text ["xbrli:endDate"; "endDate"] s)).

(** One iteration of [_get_contexts]: the constructor runs before the
    subscript target is evaluated. *)
Definition add_context (s : Tag) : method :=
  fun p =>
    match (kw ← context_kwargs_of s;
           c ← new_ixbrlContext kw;
           cs ← getattr "contexts" (contexts p);
           i ← getitem s "id";
           Ok (<[i := c]> cs)) with
    | Ok cs' => (set_contexts cs' p, Returned)
    | Raise e => (p, Raised e)
    end.

Definition _get_contexts : method :=
  fun p =>
    let p0 := set_contexts ∅ p in
    match _get_context_elements (cls p) (soup p) with
    | Ok elems => for_each add_context elems p0
    | Raise e => (p0, Raised e)
    end.

(** The key and the context one iteration of [_get_contexts]
    stores. *)
Definition context_entry (s : Tag) : result (string * ixbrlContext) :=
  kw ← context_kwargs_of s;
  c ← new_ixbrlContext kw;
  Ok (kw_id kw, c).

Definition _get_unit_elements (c : parser_class) (sp : Tag)
  : result (list Tag) :=
  match c with
  | IXBRLParser =>
      match find (AnyOf ["ix:resources"; "resources"]) sp with
      | Some resources =>
          Ok (find_all (AnyOf ["xbrli:unit"; "unit"]) resources)
      | None => Raise (AttributeError "find_all")
      end
  | XBRLParser => Ok (find_all (AnyOf ["xbrli:unit"; "unit"]) sp)
  end.

Definition add_unit (s : Tag) : method :=
  fun p =>
    match (let m := find_text ["xbrli:measure"; "measure"] s in
           us ← getattr "units" (units p);
           i ← getitem s "id";
           Ok (<[i := m]> us)) with
    | Ok us' => (set_units us' p, Returned)
    | Raise e => (p, Raised e)
    end.

Definition _get_units : method :=
  fun p =>
    let p0 := set_units ∅ p in
    match _get_unit_elements (cls p) (soup p) with
    | Ok elems => for_each add_unit elems p0
    | Raise e => (p0, Raised e)
    end.

(** The key and the measure one iteration of [_get_units] stores. *)
Definition unit_entry (s : Tag) : result (string * option string) :=
  i ← getitem s "id";
  Ok (i, find_text ["xbrli:measure"; "measure"] s).

(** [XBRLParser._get_elements] *)
Definition _get_elements (p : Parser) : result (list Tag) :=
  match find (Spelling (root_element (cls p))) (soup p) with
  | Some root => Ok (descendants root)
  | None => Raise (AttributeError "find_all")
  end.

(** The [element] dictionary of the non-numeric loops; the name is the
    [name] attribute under the inline format and the tag name under
    the bare format. *)
Definition nonnumeric_element (c : parser_class) (s : Tag) (p : Parser)
  : result nonnumeric_kwargs :=
  cs ← getattr "contexts" (contexts p);
  ref ← getitem s "contextRef";
  n ← match c with
      | IXBRLParser => getitem s "name"
      | XBRLParser => Ok (name s)
      end;
  Ok (mkNonNumericKw (resolve_context cs ref) n (get s "format")
        (PyStr.remove_char "010"%char (PyStr.strip (text s)))).

(** The body of the non-numeric loops after the guard: the dictionary
    is built outside the [try], the constructor call is inside. *)
Definition add_nonnumeric (c : parser_class) (s : Tag) : method :=
  fun p =>
    match nonnumeric_element c s p with
    | Raise e => (p, Raised e)
    | Ok element =>
        match (l ← getattr "nonnumeric" (nonnumeric p);
               f ← new_ixbrlNonNumeric element;
               Ok (l ++ [f])) with
        | Ok l' => (set_nonnumeric l' p, Returned)
        | Raise e => record_error e s p
        end
    end.

(** The [element] dictionary of the numeric loops: the attributes of
    the tag are merged last, over the entries written before them. *)
Definition numeric_element (c : parser_class) (s : Tag) (p : Parser)
  : result (gmap string pyval) :=
  cs ← getattr "contexts" (contexts p);
  cref ← getitem s "contextRef";
  us ← getattr "units" (units p);
  uref ← getitem s "unitRef";
  let base : gmap string pyval :=
    <["text" := VStr (text s)]>
      (<["context" := resolve_context cs cref]>
         {["unit" := resolve_unit us uref]}) in
  Ok ((VStr <$> attrs s) ∪
      match c with
      | IXBRLParser => base
      | XBRLParser => <["name" := VStr (name s)]> base
      end).

Definition add_numeric (c : parser_class) (s : Tag) : method :=
  fun p =>
    match numeric_element c s p with
    | Raise e => (p, Raised e)
    | Ok element =>
        match (l ← getattr "numeric" (numeric p);
               f ← new_ixbrlNumeric element;
               Ok (l ++ [f])) with
        | Ok l' => (set_numeric l' p, Returned)
        | Raise e => record_error e s p
        end
    end.

(** One iteration of the bare-format loops: the guard, then the body
    shared with the inline format. *)
Definition xbrl_nonnumeric_step (s : Tag) : method :=
  fun p =>
    if skip_nonnumeric s then (p, Returned)
    else add_nonnumeric XBRLParser s p.

Definition xbrl_numeric_step (s : Tag) : method :=
  fun p =>
    if skip_numeric s then (p, Returned)
    else add_numeric XBRLParser s p.

Definition _get_nonnumeric : method :=
  fun p =>
    let p0 := set_nonnumeric [] p in
    match cls p with
    | IXBRLParser =>
        for_each (add_nonnumeric IXBRLParser)
          (find_all (AnyOf ["nonNumeric"]) (soup p)) p0
    | XBRLParser =>
        match _get_elements p with
        | Ok els => for_each xbrl_nonnumeric_step els p0
        | Raise e => (p0, Raised e)
        end
    end.

Definition _get_numeric : method :=
  fun p =>
    let p0 := set_numeric [] p in
    match cls p with
    | IXBRLParser =>
        for_each (add_numeric IXBRLParser)
          (find_all (AnyOf ["nonFraction"]) (soup p)) p0
    | XBRLParser =>
        match _get_elements p with
        | Ok els => for_each xbrl_numeric_step els p0
        | Raise e => (p0, Raised e)
        end
    end.

(** The elements that reach fact construction in each loop: the fact
    candidates. *)
Definition nonnumeric_candidates (p : Parser) : result (list Tag) :=
  match cls p with
  | IXBRLParser => Ok (find_all (AnyOf ["nonNumeric"]) (soup p))
  | XBRLParser =>
      els ← _get_elements p;
      Ok (List.filter (fun s => negb (skip_nonnumeric s)) els)
  end.

Definition numeric_candidates (p : Parser) : result (list Tag) :=
  match cls p with
  | IXBRLParser => Ok (find_all (AnyOf ["nonFraction"]) (soup p))
  | XBRLParser =>
      els ← _get_elements p;
      Ok (List.filter (fun s => negb (skip_numeric s)) els)
  end.

(** How the construction of candidate [s] ends when the parser is
    [p]. *)
Definition nonnumeric_attempt (p : Parser) (s : Tag)
  : attempt ixbrlNonNumeric :=
  attempt_of (nonnumeric_element (cls p) s p) new_ixbrlNonNumeric.

Definition numeric_attempt (p : Parser) (s : Tag) : attempt ixbrlNumeric :=
  attempt_of (numeric_element (cls p) s p) new_ixbrlNumeric.

(** ** The document object *)

Definition FILETYPE_IXBRL : string := "ixbrl".
Definition FILETYPE_XBRL : string := "xbrl".

(** [IXBRL._get_parser]: the file type and the parser it creates. *)
Definition _get_parser (sp : Tag) (roe : bool) : result (string * Parser) :=
  match find (Spelling "html") sp with
  | Some _ => Ok (FILETYPE_IXBRL, Parser_init IXBRLParser sp roe)
  | None =>
      match find (Spelling "xbrl") sp with
      | Some _ => Ok (FILETYPE_XBRL, Parser_init XBRLParser sp roe)
      | None => Raise (Exception_ "Filetype not recognised")
      end
  end.

(** The five extraction calls of [IXBRL.__init__], in order. *)
Definition extract : method :=
  seq _get_schema
    (seq _get_contexts (seq _get_units (seq _get_nonnumeric _get_numeric))).

(** [IXBRL.__init__]: no parser exists when classification fails;
    otherwise the parser is left as the extraction calls left it. *)
Definition IXBRL_init (sp : Tag) (roe : bool)
  : option (string * Parser) * outcome :=
  match _get_parser sp roe with
  | Raise e => (None, Raised e)
  | Ok (ft, p) =>
      let '(p', o) := extract p in (Some (ft, p'), o)
  end.

End Core.

(** ** Export to rows *)

(** The elements of [self.nonnumeric + self.numeric]. *)
Inductive fact : Type :=
| NonNumeric (f : ixbrlNonNumeric)
| Numeric (f : ixbrlNumeric).

Definition fact_context (v : fact) : pyval :=
  match v with
  | NonNumeric f => nn_context f
  | Numeric f => num_context f
  end.

Definition fact_schema (v : fact) : string :=
  match v with
  | NonNumeric f => nn_schema f
  | Numeric f => num_schema f
  end.

Definition fact_name (v : fact) : string :=
  match v with
  | NonNumeric f => nn_name f
  | Numeric f => num_name f
  end.

Definition fact_value (v : fact) : pyval :=
  match v with
  | NonNumeric f => VStr (nn_value f)
  | Numeric f => VNum (num_value f)
  end.

(** [v.unit if hasattr(v, "unit") else None] *)
Definition fact_unit (v : fact) : pyval :=
  match v with
  | NonNumeric _ => VNone
  | Numeric f => from_option VStr VNone (num_unit f)
  end.

(** A dictionary literal whose key order matters: assignment keeps the
    position of a key that is already there. *)
Definition pydict : Type := list (string * pyval).

Fixpoint dict_set (k : string) (v : pyval) (d : pydict) : pydict :=
  match d with
  | [] => [(k, v)]
  | (k', v') :: r =>
      if String.eqb k k' then (k, v) :: r else (k', v') :: dict_set k v r
  end.

Fixpoint dict_get (k : string) (d : pydict) : option pyval :=
  match d with
  | [] => None
  | (k', v) :: r => if String.eqb k k' then Some v else dict_get k r
  end.

(** [{**d, **e}] *)
Definition dict_update (d e : pydict) : pydict :=
  foldl (fun acc kv => dict_set kv.1 kv.2 acc) d e.

(** [str(d)] for a date: ISO format. *)
Definition zfill (w : nat) (s : string) : string :=
  string_of_list_ascii (replicate (w - String.length s) "0"%char) +++ s.

Definition date_str (d : date) : string :=
  zfill 4 (pretty (year d)) +++ "-" +++ zfill 2 (pretty (month d))
    +++ "-" +++ zfill 2 (pretty (day d)).

(** [str(x) if x else None] *)
Definition date_cell (o : option date) : pyval :=
  from_option (fun d => VStr (date_str d)) VNone o.

(** ["{}".format(x)] for a string or [None]. *)
Definition format_value (o : option string) : string := default "None" o.

(** ["{} {} {}".format(s.get("tag", ""), s.get("dimension"),
    s.get("value")).strip()] *)
Definition segment_label (s : gmap string string) : string :=
  PyStr.strip (default "" (s !! "tag") +++ " "
               +++ format_value (s !! "dimension") +++ " "
               +++ format_value (s !! "value")).

(** The dictionary comprehension over [enumerate(v.context.segments)]. *)
Definition segment_columns (l : list (gmap string string)) : pydict :=
  dict_update []
    (imap (fun i s => ("segment:" +++ pretty i, VStr (segment_label s))) l).

(** The truth value of [v.context.segments]: a non-empty list. *)
Definition row_segments (c : ixbrlContext) : pydict :=
  match segments c with
  | Some (s :: r) => segment_columns (s :: r)
  | Some [] | None => [("segment:0", VStr "")]
  end.

(** One iteration of the loop of [to_table]. *)
Definition table_row (p : Parser) (v : fact) : result pydict :=
  match fact_context v with
  | VContext c =>
      let segs := row_segments c in
      ns ← getattr "namespaces" (namespaces p);
      Ok (dict_update
            [("schema",
              VStr (PyStr.join " "
                      (default [fact_schema v]
                         (ns !! ("xmlns:" +++ fact_schema v)))));
             ("name", VStr (fact_name v));
             ("value", fact_value v);
             ("unit", fact_unit v);
             ("instant", date_cell (instant c));
             ("startdate", date_cell (startdate c));
             ("enddate", date_cell (enddate c))]
            segs)
  | _ => Raise (AttributeError "segments")
  end.

(** The facts [to_table] selects. *)
Definition table_values (p : Parser) (fields : string) : result (list fact) :=
  if String.eqb fields "nonnumeric" then
    l ← getattr "nonnumeric" (nonnumeric p); Ok (map NonNumeric l)
  else if String.eqb fields "numeric" then
    l ← getattr "numeric" (numeric p); Ok (map Numeric l)
  else
    l ← getattr "nonnumeric" (nonnumeric p);
    k ← getattr "numeric" (numeric p);
    Ok (map NonNumeric l ++ map Numeric k).

(** [IXBRL.to_table]; attribute reads go through to the parser. *)
Definition to_table (p : Parser) (fields : string) : result (list pydict) :=
  values ← table_values p fields;
  mapM (table_row p) values.

(** A cell of a row is a scalar or [None]. *)
Definition scalar_or_none (v : pyval) : bool :=
  match v with
  | VNone | VStr _ | VNum _ => true
  | VList _ | VContext _ => false
  end.

Definition segment_keys (row : pydict) : list string :=
  List.filter (PyStr.startswith "segment:") row.*1.

(** A row as tabular consumers expect it from fact [v]: scalar cells, a
    segment column, and just an empty [segment:0] when the context of
    [v] has no segment members. *)
Definition flat_row (p : Parser) (v : fact) (row : pydict) : Prop :=
  table_row p v = Ok row
  ∧ Forall (fun kv => scalar_or_none kv.2 = true) row
  ∧ segment_keys row ≠ []
  ∧ ∀ c, fact_context v = VContext c →
         segments c = None ∨ segments c = Some [] →
         segment_keys row = ["segment:0"]
         ∧ dict_get "segment:0" row = Some (VStr "").

(** ** The constructors of [ixbrlparse.components], from the spec *)

Module Components.

(** Modelled from the spec: the transformation rules of the numeric
    normalizer in [ixbrlparse/components.py], which is not part of the
    sources at hand: the fixed-zero family and the four
    grouping/decimal conventions. *)
Inductive convention : Type :=
| FixedZero
| DotDecimalCommaGroup
| CommaDecimalDotGroup
| SpaceGroupDotDecimal
| NoSeparators.

Definition grouping (c : convention) : option ascii :=
  match c with
  | DotDecimalCommaGroup => Some ","%char
  | CommaDecimalDotGroup => Some "."%char
  | SpaceGroupDotDecimal => Some " "%char
  | FixedZero | NoSeparators => None
  end.

Definition decimal_marker (c : convention) : option ascii :=
  match c with
  | DotDecimalCommaGroup | SpaceGroupDotDecimal => Some "."%char
  | CommaDecimalDotGroup => Some ","%char
  | FixedZero | NoSeparators => None
  end.

Definition digit_of (c : ascii) : option N :=
  let n := N_of_ascii c in
  if ((48 <=? n) && (n <=? 57))%N then Some (n - 48)%N else None.

Fixpoint digits_value (acc : N) (s : string) : option N :=
  match s with
  | EmptyString => Some acc
  | String c r =>
      match digit_of c with
      | Some d => digits_value (10 * acc + d)%N r
      | None => None
      end
  end.

(** A non-empty run of digits. *)
Definition parse_digits (s : string) : option N :=
  if PyStr.truthy s then digits_value 0%N s else None.

(** Step 1 of the normalizer: trim whitespace and embedded newlines. *)
Definition trim (raw : string) : string :=
  PyStr.remove_char "010"%char (PyStr.strip raw).

(** Modelled from the spec: step 3 of the normalizer.  The grouping
    separator is stripped and the rest is read as digits with at most
    one decimal marker; the magnitude is an exact rational. *)
Definition parse_magnitude (c : convention) (t : string) : option Q :=
  let t := from_option (fun g => PyStr.remove_char g t) t (grouping c) in
  match from_option (fun d => PyStr.split_on d t) [t] (decimal_marker c) with
  | [i] => n ← parse_digits i; Some (Z.of_N n # 1)
  | [i; f] =>
      n ← parse_digits (i +++ f);
      Some (Z.of_N n # Z.to_pos (10 ^ Z.of_nat (String.length f)))
  | _ => None
  end.

(** Step 4: a marker of ["-"] negates, any other leaves the magnitude
    as it is. *)
Definition apply_sign (sign : string) (m : Q) : Q :=
  if String.eqb sign "-" then (- m)%Q else m.

(** Step 5: multiply by ten to the scale. *)
Definition apply_scale (scale : Z) (q : Q) : Q :=
  (q * (10 # 1) ^ scale)%Q.

(** Integer text: an optional minus sign and digits. *)
Definition parse_int (s : string) : option Z :=
  match s with
  | String "-"%char r => n ← parse_digits r; Some (- Z.of_N n)%Z
  | _ => n ← parse_digits s; Some (Z.of_N n)
  end.

(** Namespace prefix and local name of a qualified name; a name with
    no prefix belongs to the schema ["unknown"]. *)
Definition split_name (n : string) : string * string :=
  match PyStr.split_on ":" n with
  | p :: (l :: r) => (p, PyStr.join ":" (l :: r))
  | _ => ("unknown", n)
  end.

(** Date text [YYYY-MM-DD]; anything else is unparsable. *)
Definition parse_date (s : string) : option date :=
  match PyStr.split_on "-" s with
  | [y; m; d] =>
      y ← parse_digits y; m ← parse_digits m; d ← parse_digits d;
      Some (mkDate (N.to_nat y) (N.to_nat m) (N.to_nat d))
  | _ => None
  end.

Definition str_entry (element : gmap string pyval) (k : string)
  : option string :=
  match element !! k with
  | Some (VStr s) => Some s
  | _ => None
  end.

(** Modelled from the spec: the constructor of [ixbrlContext]; an
    unparsable period date leaves its field null. *)
Definition new_ixbrlContext (kw : context_kwargs) : result ixbrlContext :=
  Ok (mkContext (kw_id kw) (kw_scheme kw) (kw_identifier kw)
        (kw_segments kw)
        (kw_instant kw ≫= parse_date)
        (kw_startdate kw ≫= parse_date)
        (kw_enddate kw ≫= parse_date)).

(** Modelled from the spec: the constructor of [ixbrlNonNumeric]. *)
Definition new_ixbrlNonNumeric (kw : nonnumeric_kwargs)
  : result ixbrlNonNumeric :=
  let '(prefix, local) := split_name (kw_name kw) in
  Ok (mkNonNumeric prefix local (kw_context kw) (kw_format_ kw)
        (kw_value kw)).

Section Normalizer.

(** The registry of format codes: which rule a format code (or its
    absence) selects, if any. *)
Variable registry : option string -> option convention.

(** Steps 1 to 3: the magnitude before sign and scale; the fixed-zero
    family ignores the text. *)
Definition magnitude (raw : string) (format : option string)
  : result Q :=
  match registry format with
  | Some FixedZero => Ok 0%Q
  | Some c =>
      match parse_magnitude c (trim raw) with
      | Some m => Ok m
      | None => Raise (FormatError raw format)
      end
  | None => Raise (FormatError raw format)
  end.

(** Modelled from the spec: the numeric normalizer, a function of raw
    text, format code, sign marker and scale.  The fixed-zero family
    gives [0] whatever the other inputs are. *)
Definition parse_value (raw : string) (format : option string)
  (sign : string) (scale : Z) : result Q :=
  match registry format with
  | Some FixedZero => Ok 0%Q
  | _ =>
      m ← magnitude raw format;
      Ok (apply_scale scale (apply_sign sign m))
  end.

(** The value of a fact is what the normalizer gives for its text,
    format code, sign marker and scale. *)
Definition normalized (f : ixbrlNumeric) : Prop :=
  parse_value (num_text f) (num_format f) (num_sign f) (num_scale f)
  = Ok (num_value f).

(** Modelled from the spec: the constructor of [ixbrlNumeric], from
    the [element] dictionary of [_get_numeric]: name, context, unit,
    raw text and the attributes [format], [sign], [scale] (default
    [0]) and [decimals]; the value is what the normalizer gives. *)
Definition new_ixbrlNumeric (element : gmap string pyval)
  : result ixbrlNumeric :=
  let '(prefix, local) := split_name (default "" (str_entry element "name")) in
  let raw := default "" (str_entry element "text") in
  let format := str_entry element "format" in
  let sign := default "" (str_entry element "sign") in
  scale ← match str_entry element "scale" with
          | Some s =>
              match parse_int s with
              | Some z => Ok z
              | None => Raise (FormatError raw format)
              end
          | None => Ok 0%Z
          end;
  value ← parse_value raw format sign scale;
  Ok (mkNumeric prefix local (default VNone (element !! "context"))
        (str_entry element "unit") raw format sign scale
        (str_entry element "decimals") value).

End Normalizer.

End Components.

(** ** A tree library and a registry for the examples *)

(** A spelling matches a tag by its full name or by its name without
    the namespace prefix. *)
Definition spelling_matches (sp : string) (t : Tag) : bool :=
  String.eqb sp (name t) || String.eqb sp (Components.split_name (name t)).2.

Definition name_matches (f : name_filter) (t : Tag) : bool :=
  match f with
  | Spelling sp => spelling_matches sp t
  | AnyOf l => existsb (fun sp => spelling_matches sp t) l
  end.

Definition example_registry (format : option string)
  : option Components.convention :=
  match format with
  | None => Some Components.NoSeparators
  | Some f =>
      if String.eqb f "ixt:numdotdecimal"
      then Some Components.DotDecimalCommaGroup
      else if String.eqb f "ixt:numcommadecimal"
      then Some Components.CommaDecimalDotGroup
      else if String.eqb f "ixt:numspacedot"
      then Some Components.SpaceGroupDotDecimal
      else if String.eqb f "ixt:zerodash"
      then Some Components.FixedZero
      else None
  end.

(** ** Example documents *)

Definition elem (n : string) (a : list (string * string))
  (c : list (string + Tag)) : Tag :=
  mkTag n (list_to_map a) c.

Definition document (c : list (string + Tag)) : Tag := elem "[document]" [] c.

Definition ctx_c1 : Tag :=
  elem "xbrli:context" [("id", "c1")]
    [inr (elem "xbrli:entity" []
            [inr (elem "xbrli:identifier" [("scheme", "http://example.org/")]
                    [inl "00000001"])]);
     inr (elem "xbrli:period" []
            [inr (elem "xbrli:startDate" [] [inl "2020-01-01"]);
             inr (elem "xbrli:endDate" [] [inl "2020-12-31"])])].

(** A second definition of [c1], with an instant period. *)
Definition ctx_c1_again : Tag :=
  elem "xbrli:context" [("id", "c1")]
    [inr (elem "xbrli:period" []
            [inr (elem "xbrli:instant" [] [inl "2021-06-30"])])].

(** A context with one segment member. *)
Definition ctx_c2 : Tag :=
  elem "xbrli:context" [("id", "c2")]
    [inr (elem "xbrli:entity" []
            [inr (elem "xbrli:identifier" [("scheme", "http://example.org/")]
                    [inl "00000001"]);
             inr (elem "xbrli:segment" []
                    [inr (elem "xbrldi:explicitMember"
                            [("dimension", "uk-bus:AccountsTypeDimension")]
                            [inl "uk-bus:FullAccounts"])])]);
     inr (elem "xbrli:period" []
            [inr (elem "xbrli:instant" [] [inl "2020-12-31"])])].

(** A context element with no [id] attribute. *)
Definition ctx_no_id : Tag :=
  elem "xbrli:context" []
    [inr (elem "xbrli:period" []
            [inr (elem "xbrli:instant" [] [inl "2020-12-31"])])].

Definition unit_u1 : Tag :=
  elem "xbrli:unit" [("id", "u1")]
    [inr (elem "xbrli:measure" [] [inl "iso4217:GBP"])].

Definition unit_u1_again : Tag :=
  elem "xbrli:unit" [("id", "u1")]
    [inr (elem "xbrli:measure" [] [inl "xbrli:shares"])].

Definition schema_ref : Tag :=
  elem "link:schemaRef" [("xlink:href", "http://example.org/schema.xsd")] [].

Definition fact_name_text : Tag :=
  elem "ix:nonNumeric" [("name", "bus:EntityName"); ("contextRef", "c1")]
    [inl "ACME LIMITED"].

Definition fact_revenue (sign : string) : Tag :=
  elem "ix:nonFraction"
    [("name", "core:Revenue"); ("contextRef", "c1"); ("unitRef", "u1");
     ("format", "ixt:numdotdecimal"); ("scale", "3"); ("sign", sign)]
    [inl "1,234"].

Definition fact_costs : Tag :=
  elem "ix:nonFraction"
    [("name", "core:Costs"); ("contextRef", "c1"); ("unitRef", "u1");
     ("format", "ixt:numdotdecimal")]
    [inl "200"].

(** A text fact with no [contextRef] attribute. *)
Definition fact_text_no_context : Tag :=
  elem "ix:nonNumeric" [("name", "bus:EntityName")] [inl "ACME LIMITED"].

(** A numeric fact with no [contextRef] attribute. *)
Definition fact_no_context : Tag :=
  elem "ix:nonFraction"
    [("name", "core:Assets"); ("unitRef", "u1");
     ("format", "ixt:numdotdecimal")]
    [inl "10"].

(** A numeric fact whose format code is not in the registry. *)
Definition fact_bad_format : Tag :=
  elem "ix:nonFraction"
    [("name", "core:Assets"); ("contextRef", "c1"); ("unitRef", "u1");
     ("format", "ixt:numwordsen")]
    [inl "ten"].

(** A numeric fact that refers to ids no definition has. *)
Definition fact_dangling : Tag :=
  elem "ix:nonFraction"
    [("name", "core:Equity"); ("contextRef", "c9"); ("unitRef", "u9");
     ("format", "ixt:numdotdecimal")]
    [inl "5"].

(** A numeric fact that has an attribute named [context]. *)
Definition fact_shadowed : Tag :=
  elem "ix:nonFraction"
    [("name", "core:Equity"); ("contextRef", "c9"); ("unitRef", "u1");
     ("context", "elsewhere"); ("format", "ixt:numdotdecimal")]
    [inl "5"].

(** An inline document: resources and facts under [html]. *)
Definition inline_document (resources facts : list Tag) : Tag :=
  document
    [inr (elem "html" [("xmlns:ix", "http://www.xbrl.org/2013/inlineXBRL")]
            [inr (elem "head" []
                    [inr (elem "ix:header" []
                            [inr (elem "ix:references" [] [inr schema_ref]);
                             inr (elem "ix:resources" [] (inr <$> resources))])]);
             inr (elem "body" [] (inr <$> facts))])].

(** A bare document: everything under [xbrl]. *)
Definition bare_document (children : list Tag) : Tag :=
  document
    [inr (elem "xbrl" [("xmlns", "http://www.xbrl.org/2003/instance")]
            (inr schema_ref :: (inr <$> children)))].

Definition example_init (sp : Tag) (roe : bool)
  : option (string * Parser) * outcome :=
  IXBRL_init name_matches Components.new_ixbrlContext
    Components.new_ixbrlNonNumeric
    (Components.new_ixbrlNumeric example_registry) sp roe.

(** The example instances of the extraction calls. *)
Definition example_get_contexts : method :=
  _get_contexts name_matches Components.new_ixbrlContext.

Definition example_get_nonnumeric : method :=
  _get_nonnumeric name_matches Components.new_ixbrlNonNumeric.

Definition example_get_numeric : method :=
  _get_numeric name_matches (Components.new_ixbrlNumeric example_registry).

(** The parser after schema, contexts and units were read. *)
Definition example_resources (c : parser_class) (sp : Tag) (roe : bool)
  : Parser :=
  (seq (_get_schema name_matches)
     (seq example_get_contexts (_get_units name_matches))
     (Parser_init c sp roe)).1.

(** The parser after the non-numeric facts were read as well. *)
Definition example_before_numeric (c : parser_class) (sp : Tag) (roe : bool)
  : Parser :=
  (example_get_nonnumeric (example_resources c sp roe)).1.

(** The parser a parse leaves, whether it raised or not. *)
Definition example_parsed (sp : Tag) (roe : bool) : Parser :=
  match example_init sp roe with
  | (Some (_, p), _) => p
  | (None, _) => Parser_init IXBRLParser sp roe
  end.

Definition rows_of (r : result (list pydict)) : list pydict :=
  match r with
  | Ok rows => rows
  | Raise _ => []
  end.

(** Scenario A and B: one context, one unit, a text fact and two
    numeric facts. *)
Definition doc_plain : Tag :=
  inline_document [ctx_c1; ctx_c2; unit_u1]
    [fact_name_text; fact_revenue ""; fact_revenue "-"; fact_costs].

(** One numeric fact with an unknown format code amid two valid ones. *)
Definition doc_bad_format : Tag :=
  inline_document [ctx_c1; unit_u1]
    [fact_name_text; fact_revenue ""; fact_bad_format; fact_costs].

(** A text fact with no context reference after a valid numeric fact. *)
Definition doc_text_missing_reference : Tag :=
  inline_document [ctx_c1; unit_u1]
    [fact_revenue ""; fact_text_no_context; fact_costs].

(** One numeric fact with no context reference amid two valid ones. *)
Definition doc_missing_reference : Tag :=
  inline_document [ctx_c1; unit_u1]
    [fact_name_text; fact_revenue ""; fact_no_context; fact_costs].

(** A context element with no id between two that have one. *)
Definition doc_context_without_id : Tag :=
  inline_document [ctx_c1; ctx_no_id; ctx_c2; unit_u1] [fact_name_text].

(** Two definitions of context [c1] and of unit [u1]. *)
Definition doc_duplicates : Tag :=
  inline_document [ctx_c1; unit_u1; ctx_c1_again; unit_u1_again] [].

(** Facts whose references no definition has. *)
Definition doc_dangling : Tag :=
  inline_document [ctx_c1; unit_u1] [fact_name_text; fact_dangling].

Definition doc_shadowed : Tag :=
  inline_document [ctx_c1; unit_u1] [fact_shadowed].

(** A document with neither root marker. *)
Definition doc_unrecognised : Tag :=
  document [inr (elem "report" [] [inr ctx_c1; inr fact_costs])].

(** A bare document: a text fact, a numeric fact, and an element that is
    no fact. *)
Definition bare_text : Tag :=
  elem "EntityName" [("contextRef", "c1")] [inl "ACME LIMITED"].

Definition bare_number : Tag :=
  elem "CashBankInHand" [("contextRef", "c1"); ("unitRef", "u1")] [inl "1"].

Definition bare_other : Tag :=
  elem "note" [("unitRef", "u1")] [inl "not a fact"].

Definition doc_bare : Tag :=
  bare_document [ctx_c1; unit_u1; bare_text; bare_number; bare_other].


(** The parsers the examples below start from. *)
Definition parser_bad_format (roe : bool) : Parser :=
  example_before_numeric IXBRLParser doc_bad_format roe.

Definition parser_dangling : Parser :=
  example_before_numeric IXBRLParser doc_dangling false.

Definition parser_shadowed : Parser :=
  example_before_numeric IXBRLParser doc_shadowed false.

Definition parser_plain : Parser :=
  example_before_numeric IXBRLParser doc_plain false.

(** The value Scenario B expects. *)
Definition revenue_negative : ixbrlNumeric :=
  mkNumeric "core" "Revenue"
    (VContext
       (mkContext "c1" (Some "http://example.org/") (Some "00000001") None
          None (Some (mkDate 2020 1 1)) (Some (mkDate 2020 12 31))))
    (Some "iso4217:GBP") "1,234" (Some "ixt:numdotdecimal") "-" 3 None
    (-1234000 # 1).


(** ** Export to a nested structure *)

Section ToJson.

(** The serializers of [ixbrlparse.components] ([to_json] of a context
    and of the two kinds of fact) are not part of the sources at hand;
    they give a value of some type [J] or raise. *)
Variable J : Type.
Variable context_to_json : ixbrlContext -> result J.
Variable nonnumeric_to_json : ixbrlNonNumeric -> result J.
Variable numeric_to_json : ixbrlNumeric -> result J.

(** The dictionary [IXBRL.to_json] returns, one field per key. *)
Record json_document : Type := mkJson {
  json_schema : option string;
  json_namespaces : gmap string (list string);
  json_contexts : gmap string J;
  json_units : gmap string (option string);
  json_nonnumeric : list J;
  json_numeric : list J;
  json_errors : nat }.

(** [{c: ct.to_json() for c, ct in self.contexts.items()}]; the map
    keeps no insertion order, so when several contexts fail to serialize
    the exception is that of the first one in the map's own order. *)
Definition contexts_to_json (cs : gmap string ixbrlContext)
  : result (gmap string J) :=
  entries ← mapM (fun kv => j ← context_to_json kv.2; Ok (kv.1, j))
               (map_to_list cs);
  Ok (list_to_map entries).

(** [IXBRL.to_json]: the entries are evaluated in the order of the
    dictionary literal; attribute reads go through to the parser. *)
Definition to_json (p : Parser) : result json_document :=
  sch ← getattr "schema" (schema p);
  ns ← getattr "namespaces" (namespaces p);
  cs ← getattr "contexts" (contexts p);
  jcs ← contexts_to_json cs;
  us ← getattr "units" (units p);
  nn ← getattr "nonnumeric" (nonnumeric p);
  jnn ← mapM nonnumeric_to_json nn;
  nu ← getattr "numeric" (numeric p);
  jnu ← mapM numeric_to_json nu;
  Ok (mkJson sch ns jcs us jnn jnu (length (errors p))).

End ToJson.

(** ** More vocabulary *)

(** The facts and the error pairs a loop that collects errors gets from
    its candidates, in candidate order. *)
Definition built_facts {F} (att : Tag -> attempt F) (l : list Tag) : list F :=
  omap (fun s => match att s with Built f => Some f | _ => None end) l.

Definition failed_pairs {F} (att : Tag -> attempt F) (l : list Tag)
  : list (exn * Tag) :=
  omap (fun s => match att s with Failed e => Some (e, s) | _ => None end) l.

(** The columns every row starts with. *)
Definition fixed_columns : list string :=
  ["schema"; "name"; "value"; "unit"; "instant"; "startdate"; "enddate"].

(** The column of segment member number [i]. *)
Definition segment_column (i : nat) (s : gmap string string)
  : string * pyval :=
  ("segment:" +++ pretty i, VStr (segment_label s)).

(** The ids of a list of elements that have one. *)
Definition element_ids (l : list Tag) : list string :=
  omap (fun t => get t "id") l.


(** The text begins with a whitespace character. *)
Definition starts_with_space (s : string) : bool :=
  match s with
  | String c _ => PyStr.isspace c
  | EmptyString => false
  end.


(** ** More example documents *)

(** An inline document whose root declares the prefix of its facts. *)
Definition html_namespaced : Tag :=
  elem "html"
    [("xmlns:ix", "http://www.xbrl.org/2013/inlineXBRL");
     ("xmlns:core", "http://example.org/core http://example.org/c2");
     ("lang", "en")]
    [inr (elem "head" []
            [inr schema_ref;
             inr (elem "ix:resources" []
                    [inr ctx_c1; inr ctx_c2; inr unit_u1])]);
     inr (elem "body" [] [inr fact_name_text; inr fact_costs])].

Definition doc_namespaced : Tag := document [inr html_namespaced].

(** A unit element with no [id] attribute. *)
Definition unit_no_id : Tag :=
  elem "xbrli:unit" [] [inr (elem "xbrli:measure" [] [inl "xbrli:pure"])].

Definition doc_unit_without_id : Tag :=
  inline_document [ctx_c1; unit_u1; unit_no_id; unit_u1_again] [].

(** A context whose identifier has no [scheme] attribute. *)
Definition identifier_no_scheme : Tag :=
  elem "xbrli:identifier" [] [inl "00000001"].

Definition ctx_no_scheme : Tag :=
  elem "xbrli:context" [("id", "c3")]
    [inr (elem "xbrli:entity" [] [inr identifier_no_scheme])].

Definition doc_identifier_without_scheme : Tag :=
  inline_document [ctx_c1; ctx_no_scheme; ctx_c2] [].

(** An inline document with no resources element. *)
Definition html_without_resources : Tag :=
  elem "html" [] [inr schema_ref; inr (elem "body" [] [inr fact_costs])].

Definition doc_without_resources : Tag :=
  document [inr html_without_resources].

(** A document with no schema reference. *)
Definition doc_without_schema : Tag :=
  document [inr (elem "html" [] [inr (elem "ix:resources" [] [])])].

(** A text fact whose text has surrounding whitespace and a newline. *)
Definition fact_padded : Tag :=
  elem "ix:nonNumeric" [("name", "bus:Address"); ("contextRef", "c1")]
    [inl "
   1 High Street
   Anytown  "].

(** The segment member of context [c2], the context record it gives and
    a fact with that context. *)
Definition member_c2 : Tag :=
  elem "xbrldi:explicitMember"
    [("dimension", "uk-bus:AccountsTypeDimension")]
    [inl "uk-bus:FullAccounts"].

Definition context_c2 : ixbrlContext :=
  mkContext "c2" (Some "http://example.org/") (Some "00000001")
    (Some [segment_member member_c2]) (Some (mkDate 2020 12 31)) None None.

Definition entity_fact : fact :=
  NonNumeric (mkNonNumeric "core" "EntityName" (VContext context_c2) None
                "ACME").

Definition row_of (r : result pydict) : pydict :=
  match r with
  | Ok row => row
  | Raise _ => []
  end.

(** Serializers for the examples: a context as its id, a fact as its
    name. *)
Definition example_to_json (p : Parser) : result (json_document string) :=
  to_json string (fun c => Ok (context_id c)) (fun f => Ok (nn_name f))
    (fun f => Ok (num_name f)) p.


(** The record of context [c1], and what the padded text fact is built
    with. *)
Definition context_c1 : ixbrlContext :=
  mkContext "c1" (Some "http://example.org/") (Some "00000001") None None
    (Some (mkDate 2020 1 1)) (Some (mkDate 2020 12 31)).

Definition padded_kwargs : nonnumeric_kwargs :=
  mkNonNumericKw (VContext context_c1) "bus:Address" None
    "1 High Street   Anytown".

(** The segment container of context [c2] and the keyword arguments the
    context gives. *)
Definition segment_c2 : Tag := elem "xbrli:segment" [] [inr member_c2].

Definition kwargs_c2 : context_kwargs :=
  mkContextKw "c2" (Some "http://example.org/") (Some "00000001")
    (Some [segment_member member_c2]) (Some "2020-12-31") None None.

Definition element_of (r : result (gmap string pyval)) : gmap string pyval :=
  match r with
  | Ok el => el
  | Raise _ => ∅
  end.

(** The nested export of the document with one failing numeric fact. *)
Definition example_json : json_document string :=
  match example_to_json (example_parsed doc_bad_format false) with
  | Ok j => j
  | Raise _ => mkJson string None ∅ ∅ ∅ [] [] 0
  end.

(** The root element of the bare example document. *)
Definition root_bare : Tag :=
  default doc_bare (find name_matches (Spelling "xbrl") doc_bare).


(** * Properties *)

Lemma for_each_maintains {A} (I : Parser -> Prop) (body : A -> method) l :
  (∀ x, maintains I (body x)) → maintains I (for_each body l).
Proof.
  intros Hbody. induction l as [|x l IH]; intros p Hp; simpl; [done|].
  specialize (Hbody x p Hp).
  destruct (body x p) as [p' [|e]]; simpl in *; [by apply IH | done].
Qed.

Lemma for_each_preserves {A B} (field : Parser -> B) (body : A -> method) l :
  (∀ x, preserves field (body x)) → preserves field (for_each body l).
Proof.
  intros Hbody p.
  apply (for_each_maintains (fun q => field q = field p)); [|done].
  intros x q Hq. by rewrite Hbody.
Qed.

Lemma get_truthy_carries s k : get_truthy s k = true ↔ carries s k.
Proof.
  unfold get_truthy, carries. destruct (get s k) as [v|].
  - destruct v; simpl; split.
    + discriminate.
    + intros (v & [= <-] & Hv). done.
    + intros _. eexists. split; [done | discriminate].
    + done.
  - split; [discriminate | intros (v & ? & _); discriminate].
Qed.

Lemma get_truthy_not_carries s k : get_truthy s k = false ↔ ¬ carries s k.
Proof.
  rewrite <- get_truthy_carries. destruct (get_truthy s k); naive_solver.
Qed.

Section Properties.

Variable tag_matches : name_filter -> Tag -> bool.
Variable new_ixbrlContext : context_kwargs -> result ixbrlContext.
Variable new_ixbrlNonNumeric : nonnumeric_kwargs -> result ixbrlNonNumeric.
Variable new_ixbrlNumeric : gmap string pyval -> result ixbrlNumeric.

Local Abbreviation find := (find tag_matches).
Local Abbreviation find_all := (find_all tag_matches).
Local Abbreviation _get_parser := (_get_parser tag_matches).
Local Abbreviation _get_schema := (_get_schema tag_matches).
Local Abbreviation _get_contexts := (_get_contexts tag_matches new_ixbrlContext).
Local Abbreviation _get_units := (_get_units tag_matches).
Local Abbreviation _get_nonnumeric :=
  (_get_nonnumeric tag_matches new_ixbrlNonNumeric).
Local Abbreviation _get_numeric := (_get_numeric tag_matches new_ixbrlNumeric).
Local Abbreviation add_nonnumeric := (add_nonnumeric new_ixbrlNonNumeric).
Local Abbreviation add_numeric := (add_numeric new_ixbrlNumeric).
Local Abbreviation IXBRL_init :=
  (IXBRL_init tag_matches new_ixbrlContext new_ixbrlNonNumeric
     new_ixbrlNumeric).

(** A search finds something exactly when some tag below matches. *)
Lemma find_is_Some f t :
  is_Some (find f t) ↔ ∃ d, d ∈ descendants t ∧ tag_matches f d = true.
Proof.
  unfold find, find_all.
  induction (descendants t) as [|d l IH]; simpl.
  - split; [by intros [? [=]] | intros (d & Hd & _); by inversion Hd].
  - destruct (tag_matches f d) eqn:Hm; simpl.
    + split; [intros _; exists d; split; [left | done] | by eexists].
    + rewrite IH. split.
      * intros (x & Hx & Hfx). exists x. split; [by right | done].
      * intros (x & Hx & Hfx). inversion Hx; subst; [congruence|].
        by exists x.
Qed.

Lemma find_None f t :
  find f t = None ↔ ∀ d, d ∈ descendants t → tag_matches f d = false.
Proof.
  rewrite eq_None_not_Some, find_is_Some. split.
  - intros H d Hd. destruct (tag_matches f d) eqn:E; [|done].
    destruct H. by exists d.
  - intros H (d & Hd & Hm). rewrite (H d Hd) in Hm. done.
Qed.

(** C5: classification looks for the inline root marker first and
    selects the inline grammar when a tag anywhere in the tree matches
    it; otherwise it looks for the bare root marker and selects the
    bare grammar; when neither is there it raises, whatever the error
    policy is, and no parser is created. *)
Theorem get_parser_classification (sp : Tag) :
  ((∃ d, d ∈ descendants sp ∧ tag_matches (Spelling "html") d = true) →
   ∀ roe, _get_parser sp roe
          = Ok (FILETYPE_IXBRL, Parser_init IXBRLParser sp roe))
  ∧ ((∀ d, d ∈ descendants sp → tag_matches (Spelling "html") d = false) →
     (∃ d, d ∈ descendants sp ∧ tag_matches (Spelling "xbrl") d = true) →
     ∀ roe, _get_parser sp roe
            = Ok (FILETYPE_XBRL, Parser_init XBRLParser sp roe))
  ∧ ((∀ d, d ∈ descendants sp → tag_matches (Spelling "html") d = false) →
     (∀ d, d ∈ descendants sp → tag_matches (Spelling "xbrl") d = false) →
     ∀ roe, _get_parser sp roe = Raise (Exception_ "Filetype not recognised")
            ∧ IXBRL_init sp roe
              = (None, Raised (Exception_ "Filetype not recognised"))).
Proof.
  unfold IXBRL_init, _get_parser.
  split; [|split].
  - intros H roe. apply find_is_Some in H as [r ->]. done.
  - intros Hh Hx roe. apply find_None in Hh as ->.
    apply find_is_Some in Hx as [r ->]. done.
  - intros Hh Hx roe. apply find_None in Hh as ->.
    apply find_None in Hx as ->. done.
Qed.

(** *** What the fact loops leave alone *)

Lemma add_numeric_resources c s q :
  maintains (same_resources q) (add_numeric c s).
Proof.
  intros p Hp. unfold add_numeric.
  destruct (numeric_element c s p) as [el|e]; simpl; [|done].
  destruct (numeric p) as [l|]; simpl; [|done].
  by destruct (new_ixbrlNumeric el).
Qed.

Lemma add_nonnumeric_resources c s q :
  maintains (same_resources q) (add_nonnumeric c s).
Proof.
  intros p Hp. unfold add_nonnumeric.
  destruct (nonnumeric_element c s p) as [el|e]; simpl; [|done].
  destruct (nonnumeric p) as [l|]; simpl; [|done].
  by destruct (new_ixbrlNonNumeric el).
Qed.

Lemma add_numeric_nonnumeric c s : preserves nonnumeric (add_numeric c s).
Proof.
  intros p. unfold add_numeric.
  destruct (numeric_element c s p) as [el|e]; simpl; [|done].
  destruct (numeric p) as [l|]; simpl; [|done].
  by destruct (new_ixbrlNumeric el).
Qed.

Lemma xbrl_numeric_step_resources s q :
  maintains (same_resources q) (xbrl_numeric_step new_ixbrlNumeric s).
Proof.
  intros p Hp. unfold xbrl_numeric_step.
  destruct (skip_numeric s); [done | by apply add_numeric_resources].
Qed.

Lemma xbrl_nonnumeric_step_resources s q :
  maintains (same_resources q) (xbrl_nonnumeric_step new_ixbrlNonNumeric s).
Proof.
  intros p Hp. unfold xbrl_nonnumeric_step.
  destruct (skip_nonnumeric s); [done | by apply add_nonnumeric_resources].
Qed.

Lemma get_numeric_resources p : same_resources p (_get_numeric p).1.
Proof.
  unfold _get_numeric. destruct (cls p) eqn:Hc.
  - apply (for_each_maintains (same_resources p));
      [intros s; apply add_numeric_resources | done].
  - destruct (_get_elements tag_matches p); [|done].
    apply (for_each_maintains (same_resources p));
      [intros s; apply xbrl_numeric_step_resources | done].
Qed.

Lemma get_nonnumeric_resources p : same_resources p (_get_nonnumeric p).1.
Proof.
  unfold _get_nonnumeric. destruct (cls p) eqn:Hc.
  - apply (for_each_maintains (same_resources p));
      [intros s; apply add_nonnumeric_resources | done].
  - destruct (_get_elements tag_matches p); [|done].
    apply (for_each_maintains (same_resources p));
      [intros s; apply xbrl_nonnumeric_step_resources | done].
Qed.

Lemma get_numeric_nonnumeric : preserves nonnumeric _get_numeric.
Proof.
  intros p. unfold _get_numeric. destruct (cls p).
  - by rewrite for_each_preserves by apply add_numeric_nonnumeric.
  - destruct (_get_elements tag_matches p); [|done].
    rewrite for_each_preserves; [done|].
    intros s q. unfold xbrl_numeric_step.
    destruct (skip_numeric s); [done | apply add_numeric_nonnumeric].
Qed.

(** *** The fact loops as a replay of the candidates' attempts *)

Lemma numeric_element_same c s p q :
  contexts q = contexts p → units q = units p →
  numeric_element c s q = numeric_element c s p.
Proof. unfold numeric_element. by intros -> ->. Qed.

Lemma nonnumeric_element_same c s p q :
  contexts q = contexts p →
  nonnumeric_element c s q = nonnumeric_element c s p.
Proof. unfold nonnumeric_element. by intros ->. Qed.

Lemma add_numeric_attempt c s p acc :
  numeric p = Some acc →
  add_numeric c s p =
  match attempt_of (numeric_element c s p) new_ixbrlNumeric with
  | Built f => (set_numeric (acc ++ [f]) p, Returned)
  | Failed e => record_error e s p
  | Escaped e => (p, Raised e)
  end.
Proof.
  intros Hacc. unfold add_numeric, attempt_of. rewrite Hacc.
  destruct (numeric_element c s p) as [el|e]; simpl; [|done].
  by destruct (new_ixbrlNumeric el).
Qed.

Lemma add_nonnumeric_attempt c s p acc :
  nonnumeric p = Some acc →
  add_nonnumeric c s p =
  match attempt_of (nonnumeric_element c s p) new_ixbrlNonNumeric with
  | Built f => (set_nonnumeric (acc ++ [f]) p, Returned)
  | Failed e => record_error e s p
  | Escaped e => (p, Raised e)
  end.
Proof.
  intros Hacc. unfold add_nonnumeric, attempt_of. rewrite Hacc.
  destruct (nonnumeric_element c s p) as [el|e]; simpl; [|done].
  by destruct (new_ixbrlNonNumeric el).
Qed.

Lemma numeric_loop_from c p0 l p acc :
  contexts p = contexts p0 → units p = units p0 →
  numeric p = Some acc →
  for_each (add_numeric c) l p =
  let '(fs, es, o) :=
    replay (raise_on_error p)
      (map (fun s => (s, attempt_of (numeric_element c s p0)
                           new_ixbrlNumeric)) l) in
  (set_errors (errors p ++ es) (set_numeric (acc ++ fs) p), o).
Proof.
  revert p acc. induction l as [|s l IH]; intros p acc Hc Hu Hacc.
  - simpl. rewrite !app_nil_r. destruct p; simpl in *. by subst.
  - cbn [for_each map replay]. rewrite (add_numeric_attempt _ _ _ acc Hacc).
    rewrite (numeric_element_same c s p0 p Hc Hu).
    destruct (attempt_of _ _) as [f|e|e] eqn:Ha.
    + rewrite (IH _ (acc ++ [f])) by done. simpl.
      destruct (replay _ _) as [[fs es] o].
      unfold set_errors, set_numeric. simpl. by rewrite <- app_assoc.
    + unfold record_error. destruct (raise_on_error p) eqn:Hroe.
      * rewrite app_nil_r. unfold set_errors, set_numeric; simpl.
        by rewrite Hacc.
      * rewrite (IH _ acc) by done. simpl. rewrite Hroe.
        destruct (replay _ _) as [[fs es] o].
        unfold set_errors, set_numeric. simpl. by rewrite <- app_assoc.
    + rewrite !app_nil_r. destruct p; simpl in *. by subst.
Qed.

Lemma nonnumeric_loop_from c p0 l p acc :
  contexts p = contexts p0 →
  nonnumeric p = Some acc →
  for_each (add_nonnumeric c) l p =
  let '(fs, es, o) :=
    replay (raise_on_error p)
      (map (fun s => (s, attempt_of (nonnumeric_element c s p0)
                           new_ixbrlNonNumeric)) l) in
  (set_errors (errors p ++ es) (set_nonnumeric (acc ++ fs) p), o).
Proof.
  revert p acc. induction l as [|s l IH]; intros p acc Hc Hacc.
  - simpl. rewrite !app_nil_r. destruct p; simpl in *. by subst.
  - cbn [for_each map replay].
    rewrite (add_nonnumeric_attempt _ _ _ acc Hacc).
    rewrite (nonnumeric_element_same c s p0 p Hc).
    destruct (attempt_of _ _) as [f|e|e] eqn:Ha.
    + rewrite (IH _ (acc ++ [f])) by done. simpl.
      destruct (replay _ _) as [[fs es] o].
      unfold set_errors, set_nonnumeric. simpl. by rewrite <- app_assoc.
    + unfold record_error. destruct (raise_on_error p) eqn:Hroe.
      * rewrite app_nil_r. unfold set_errors, set_nonnumeric; simpl.
        by rewrite Hacc.
      * rewrite (IH _ acc) by done. simpl. rewrite Hroe.
        destruct (replay _ _) as [[fs es] o].
        unfold set_errors, set_nonnumeric. simpl. by rewrite <- app_assoc.
    + rewrite !app_nil_r. destruct p; simpl in *. by subst.
Qed.

(** The guard of a bare-format loop selects the candidates. *)
Lemma for_each_guard (skip : Tag -> bool) (body : Tag -> method) l p :
  for_each (fun s q => if skip s then (q, Returned) else body s q) l p
  = for_each body (List.filter (fun s => negb (skip s)) l) p.
Proof.
  revert p. induction l as [|s l IH]; intros p; simpl; [done|].
  destruct (skip s); simpl; [apply IH|].
  destruct (body s p) as [p' [|e]]; [apply IH | done].
Qed.

(** [_get_numeric] replays the attempts of its candidates. *)
Lemma get_numeric_replay p cands :
  numeric_candidates tag_matches p = Ok cands →
  _get_numeric p =
  let '(fs, es, o) :=
    replay (raise_on_error p)
      (map (fun s => (s, numeric_attempt new_ixbrlNumeric p s)) cands) in
  (set_errors (errors p ++ es) (set_numeric fs p), o).
Proof.
  unfold numeric_candidates, _get_numeric, numeric_attempt.
  destruct (cls p) eqn:Hcls.
  - intros [= <-].
    by rewrite (numeric_loop_from _ p _ _ []).
  - destruct (_get_elements tag_matches p) as [els|e]; [|done].
    intros [= <-]. unfold xbrl_numeric_step.
    rewrite (for_each_guard skip_numeric (add_numeric XBRLParser)).
    by rewrite (numeric_loop_from _ p _ _ []).
Qed.

Lemma get_nonnumeric_replay p cands :
  nonnumeric_candidates tag_matches p = Ok cands →
  _get_nonnumeric p =
  let '(fs, es, o) :=
    replay (raise_on_error p)
      (map (fun s => (s, nonnumeric_attempt new_ixbrlNonNumeric p s))
         cands) in
  (set_errors (errors p ++ es) (set_nonnumeric fs p), o).
Proof.
  unfold nonnumeric_candidates, _get_nonnumeric, nonnumeric_attempt.
  destruct (cls p) eqn:Hcls.
  - intros [= <-].
    by rewrite (nonnumeric_loop_from _ p _ _ []).
  - destruct (_get_elements tag_matches p) as [els|e]; [|done].
    intros [= <-]. unfold xbrl_nonnumeric_step.
    rewrite (for_each_guard skip_nonnumeric (add_nonnumeric XBRLParser)).
    by rewrite (nonnumeric_loop_from _ p _ _ []).
Qed.

(** *** Replays of well-behaved candidates *)

Lemma replay_built {F} roe (l : list (Tag * attempt F)) :
  Forall (fun x => ∃ f, x.2 = Built f) l →
  ∃ fs, replay roe l = (fs, [], Returned) ∧ length fs = length l.
Proof.
  induction 1 as [|[s a] l [f Hf] _ (fs & IH & Hlen)]; simpl in *.
  - by exists [].
  - subst a. rewrite IH. exists (f :: fs). by rewrite <- Hlen.
Qed.

Lemma replay_app {F} roe (l1 l2 : list (Tag * attempt F)) :
  replay roe (l1 ++ l2) =
  match replay roe l1 with
  | (fs1, es1, Returned) =>
      let '(fs2, es2, o) := replay roe l2 in (fs1 ++ fs2, es1 ++ es2, o)
  | r => r
  end.
Proof.
  induction l1 as [|[s [f|e|e]] l1 IH]; simpl.
  - by destruct (replay roe l2) as [[fs2 es2] o].
  - rewrite IH. destruct (replay roe l1) as [[fs1 es1] [|e1]]; [|done].
    by destruct (replay roe l2) as [[fs2 es2] o].
  - destruct roe; [done|]. rewrite IH.
    destruct (replay false l1) as [[fs1 es1] [|e1]]; [|done].
    by destruct (replay false l2) as [[fs2 es2] o].
  - done.
Qed.

(** One failing constructor call between candidates that are all
    built, when errors are collected. *)
Lemma replay_collect_one {F} (att : Tag -> attempt F) l1 s l2 e :
  Forall (fun t => ∃ f, att t = Built f) (l1 ++ l2) →
  att s = Failed e →
  ∃ fs, replay false (map (fun t => (t, att t)) (l1 ++ s :: l2))
        = (fs, [(e, s)], Returned)
        ∧ length fs = length (l1 ++ l2).
Proof.
  intros [H1 H2]%Forall_app Hs.
  destruct (replay_built false (map (fun t => (t, att t)) l1))
    as (fs1 & E1 & L1); [by apply Forall_map|].
  destruct (replay_built false (map (fun t => (t, att t)) l2))
    as (fs2 & E2 & L2); [by apply Forall_map|].
  rewrite map_app, replay_app, E1. cbn [map replay]. rewrite Hs, E2.
  exists (fs1 ++ fs2). split; [done|].
  rewrite !length_app, L1, L2, !length_map. done.
Qed.

(** The same failure when errors are raised: the loop stops there. *)
Lemma replay_raise_one {F} (att : Tag -> attempt F) l1 s l2 e :
  Forall (fun t => ∃ f, att t = Built f) l1 →
  att s = Failed e →
  ∃ fs, replay true (map (fun t => (t, att t)) (l1 ++ s :: l2))
        = (fs, [(e, s)], Raised e)
        ∧ length fs = length l1.
Proof.
  intros H1 Hs.
  destruct (replay_built true (map (fun t => (t, att t)) l1))
    as (fs1 & E1 & L1); [by apply Forall_map|].
  rewrite map_app, replay_app, E1. cbn [map replay]. rewrite Hs.
  exists fs1. rewrite app_nil_r, length_map in *. done.
Qed.

(** C1 (amended): a candidate whose constructor call fails is recorded
    as the pair of the error and the element; the error then
    propagates under the raise-on-error policy, and under the
    collect-on-error policy the candidate is skipped and the loop goes
    on, so that one failing constructor call amid otherwise valid
    candidates leaves as many facts as there are valid candidates and
    one recorded error.  A candidate with no [contextRef] attribute
    never reaches the constructor: the lookup raises [KeyError] under
    either policy and nothing is recorded. *)
Theorem construction_failure_recorded :
  (∀ c s p acc el e,
      numeric p = Some acc →
      numeric_element c s p = Ok el → new_ixbrlNumeric el = Raise e →
      add_numeric c s p
      = (set_errors (errors p ++ [(e, s)]) p,
         if raise_on_error p then Raised e else Returned))
  ∧ (∀ c s p acc el e,
      nonnumeric p = Some acc →
      nonnumeric_element c s p = Ok el → new_ixbrlNonNumeric el = Raise e →
      add_nonnumeric c s p
      = (set_errors (errors p ++ [(e, s)]) p,
         if raise_on_error p then Raised e else Returned))
  ∧ (∀ p l1 s l2 e,
      raise_on_error p = false →
      numeric_candidates tag_matches p = Ok (l1 ++ s :: l2) →
      Forall (fun t => ∃ f, numeric_attempt new_ixbrlNumeric p t = Built f)
        (l1 ++ l2) →
      numeric_attempt new_ixbrlNumeric p s = Failed e →
      ∃ fs, _get_numeric p
            = (set_errors (errors p ++ [(e, s)]) (set_numeric fs p),
               Returned)
            ∧ length fs = length (l1 ++ l2))
  ∧ (∀ p l1 s l2 e,
      raise_on_error p = false →
      nonnumeric_candidates tag_matches p = Ok (l1 ++ s :: l2) →
      Forall (fun t => ∃ f, nonnumeric_attempt new_ixbrlNonNumeric p t
                            = Built f) (l1 ++ l2) →
      nonnumeric_attempt new_ixbrlNonNumeric p s = Failed e →
      ∃ fs, _get_nonnumeric p
            = (set_errors (errors p ++ [(e, s)]) (set_nonnumeric fs p),
               Returned)
            ∧ length fs = length (l1 ++ l2))
  ∧ (∀ p l1 s l2 e,
      raise_on_error p = true →
      numeric_candidates tag_matches p = Ok (l1 ++ s :: l2) →
      Forall (fun t => ∃ f, numeric_attempt new_ixbrlNumeric p t = Built f)
        l1 →
      numeric_attempt new_ixbrlNumeric p s = Failed e →
      ∃ fs, _get_numeric p
            = (set_errors (errors p ++ [(e, s)]) (set_numeric fs p),
               Raised e)
            ∧ length fs = length l1)
  ∧ (∀ p l1 s l2 e,
      raise_on_error p = true →
      nonnumeric_candidates tag_matches p = Ok (l1 ++ s :: l2) →
      Forall (fun t => ∃ f, nonnumeric_attempt new_ixbrlNonNumeric p t
                            = Built f) l1 →
      nonnumeric_attempt new_ixbrlNonNumeric p s = Failed e →
      ∃ fs, _get_nonnumeric p
            = (set_errors (errors p ++ [(e, s)]) (set_nonnumeric fs p),
               Raised e)
            ∧ length fs = length l1)
  ∧ (∀ c s p,
      is_Some (contexts p) → get s "contextRef" = None →
      add_numeric c s p = (p, Raised (KeyError "contextRef"))
      ∧ add_nonnumeric c s p = (p, Raised (KeyError "contextRef"))).
Proof.
  repeat apply conj.
  - intros c s p acc el e Hacc Hel He.
    rewrite (add_numeric_attempt _ _ _ acc Hacc). unfold attempt_of.
    by rewrite Hel, He.
  - intros c s p acc el e Hacc Hel He.
    rewrite (add_nonnumeric_attempt _ _ _ acc Hacc). unfold attempt_of.
    by rewrite Hel, He.
  - intros p l1 s l2 e Hroe Hc Hall Hs.
    rewrite (get_numeric_replay _ _ Hc), Hroe.
    destruct (replay_collect_one _ l1 s l2 e Hall Hs) as (fs & -> & Hlen).
    by exists fs.
  - intros p l1 s l2 e Hroe Hc Hall Hs.
    rewrite (get_nonnumeric_replay _ _ Hc), Hroe.
    destruct (replay_collect_one _ l1 s l2 e Hall Hs) as (fs & -> & Hlen).
    by exists fs.
  - intros p l1 s l2 e Hroe Hc Hall Hs.
    rewrite (get_numeric_replay _ _ Hc), Hroe.
    destruct (replay_raise_one _ l1 s l2 e Hall Hs) as (fs & -> & Hlen).
    by exists fs.
  - intros p l1 s l2 e Hroe Hc Hall Hs.
    rewrite (get_nonnumeric_replay _ _ Hc), Hroe.
    destruct (replay_raise_one _ l1 s l2 e Hall Hs) as (fs & -> & Hlen).
    by exists fs.
  - intros c s p [cs Hcs] Hs.
    unfold add_numeric, add_nonnumeric, numeric_element,
      nonnumeric_element, getitem.
    by rewrite Hcs, Hs.
Qed.

(** *** The references a fact is built with *)

Lemma numeric_element_entries c s p cs us r u :
  contexts p = Some cs → units p = Some us →
  get s "contextRef" = Some r → get s "unitRef" = Some u →
  ∃ el, numeric_element c s p = Ok el
        ∧ (attrs s !! "context" = None →
           el !! "context" = Some (resolve_context cs r))
        ∧ (attrs s !! "unit" = None →
           el !! "unit" = Some (resolve_unit us u)).
Proof.
  intros Hcs Hus Hr Hu. unfold numeric_element, getitem.
  rewrite Hcs, Hus, Hr, Hu. simpl. eexists. split; [done|].
  split; intros Hfree; (rewrite lookup_union_r; [|by rewrite lookup_fmap, Hfree]);
    destruct c; by simplify_map_eq.
Qed.

Lemma nonnumeric_element_context c s p cs r :
  contexts p = Some cs → get s "contextRef" = Some r →
  (c = IXBRLParser → is_Some (get s "name")) →
  ∃ kw, nonnumeric_element c s p = Ok kw
        ∧ kw_context kw = resolve_context cs r.
Proof.
  intros Hcs Hr Hname. unfold nonnumeric_element, getitem.
  rewrite Hcs, Hr. simpl. destruct c.
  - destruct Hname as [n ->]; [done|]. by eexists.
  - by eexists.
Qed.

(** C4 (amended): the context reference of a candidate, and the unit
    reference of a numeric candidate, is looked up in the contexts map
    (units map); the entry the constructor receives is the context
    (the unit's measure) when the id is known and the reference string
    itself when it is not, and the fact the constructor returns is
    appended either way.  For numeric candidates this holds when the
    element has no attribute of its own named [context] (or [unit]):
    the element's attributes are merged over these entries. *)
Theorem reference_resolved_or_raw :
  (∀ c s p cs r acc,
      contexts p = Some cs → nonnumeric p = Some acc →
      get s "contextRef" = Some r →
      (c = IXBRLParser → is_Some (get s "name")) →
      ∃ kw, nonnumeric_element c s p = Ok kw
            ∧ kw_context kw = match cs !! r with
                              | Some ctx => VContext ctx
                              | None => VStr r
                              end
            ∧ ∀ f, new_ixbrlNonNumeric kw = Ok f →
                   add_nonnumeric c s p
                   = (set_nonnumeric (acc ++ [f]) p, Returned))
  ∧ (∀ c s p cs us r u acc,
      contexts p = Some cs → units p = Some us → numeric p = Some acc →
      get s "contextRef" = Some r → get s "unitRef" = Some u →
      ∃ el, numeric_element c s p = Ok el
            ∧ (attrs s !! "context" = None →
               el !! "context" = Some match cs !! r with
                                      | Some ctx => VContext ctx
                                      | None => VStr r
                                      end)
            ∧ (attrs s !! "unit" = None →
               el !! "unit" = Some match us !! u with
                                   | Some (Some m) => VStr m
                                   | Some None => VNone
                                   | None => VStr u
                                   end)
            ∧ ∀ f, new_ixbrlNumeric el = Ok f →
                   add_numeric c s p
                   = (set_numeric (acc ++ [f]) p, Returned)).
Proof.
  split.
  - intros c s p cs r acc Hcs Hacc Hr Hname.
    destruct (nonnumeric_element_context c s p cs r Hcs Hr Hname)
      as (kw & Hkw & Hctx).
    exists kw. repeat split; [done..|].
    intros f Hf. rewrite (add_nonnumeric_attempt _ _ _ acc Hacc).
    unfold attempt_of. by rewrite Hkw, Hf.
  - intros c s p cs us r u acc Hcs Hus Hacc Hr Hu.
    destruct (numeric_element_entries c s p cs us r u Hcs Hus Hr Hu)
      as (el & Hel & Hctx & Hunit).
    exists el. repeat split; [done..|].
    intros f Hf. rewrite (add_numeric_attempt _ _ _ acc Hacc).
    unfold attempt_of. by rewrite Hel, Hf.
Qed.

(** *** Classification under the bare format *)

Lemma filter_ext_bool {A} (f g : A -> bool) l :
  (∀ x, f x = g x) → List.filter f l = List.filter g l.
Proof.
  intros H. induction l as [|x l IH]; simpl; [done|].
  by rewrite H, IH.
Qed.

(** C6: under the bare format an element that carries both a context
    reference and a unit reference goes to numeric construction and is
    passed over by the non-numeric loop; one that carries a context
    reference and no unit reference goes to non-numeric construction
    and is passed over by the numeric loop; one that carries no context
    reference is passed over by both.  The two loops run over every
    element below the first [xbrl] element of the document, in document
    order, so each loop constructs from exactly the elements of its
    kind among them; with no [xbrl] element both loops raise. *)
Theorem bare_classification (s : Tag) (p : Parser) :
  (carries s "contextRef" → carries s "unitRef" →
   xbrl_numeric_step new_ixbrlNumeric s p = add_numeric XBRLParser s p
   ∧ xbrl_nonnumeric_step new_ixbrlNonNumeric s p = (p, Returned))
  ∧ (carries s "contextRef" → ¬ carries s "unitRef" →
     xbrl_nonnumeric_step new_ixbrlNonNumeric s p
     = add_nonnumeric XBRLParser s p
     ∧ xbrl_numeric_step new_ixbrlNumeric s p = (p, Returned))
  ∧ (¬ carries s "contextRef" →
     xbrl_numeric_step new_ixbrlNumeric s p = (p, Returned)
     ∧ xbrl_nonnumeric_step new_ixbrlNonNumeric s p = (p, Returned))
  ∧ (cls p = XBRLParser →
     ∀ root, find (Spelling "xbrl") (soup p) = Some root →
     _get_numeric p
     = for_each (add_numeric XBRLParser)
         (List.filter (fun t => get_truthy t "contextRef"
                                && get_truthy t "unitRef")
            (descendants root))
         (set_numeric [] p)
     ∧ _get_nonnumeric p
       = for_each (add_nonnumeric XBRLParser)
           (List.filter (fun t => get_truthy t "contextRef"
                                  && negb (get_truthy t "unitRef"))
              (descendants root))
           (set_nonnumeric [] p))
  ∧ (cls p = XBRLParser →
     find (Spelling "xbrl") (soup p) = None →
     _get_numeric p = (set_numeric [] p, Raised (AttributeError "find_all"))
     ∧ _get_nonnumeric p
       = (set_nonnumeric [] p, Raised (AttributeError "find_all"))).
Proof.
  unfold xbrl_numeric_step, xbrl_nonnumeric_step, skip_numeric,
    skip_nonnumeric.
  repeat apply conj.
  - intros Hc%get_truthy_carries Hu%get_truthy_carries.
    by rewrite Hc, Hu.
  - intros Hc%get_truthy_carries Hu%get_truthy_not_carries.
    by rewrite Hc, Hu.
  - intros Hc%get_truthy_not_carries. by rewrite Hc.
  - intros Hcls root Hroot.
    unfold _get_numeric, _get_nonnumeric, _get_elements.
    rewrite Hcls. simpl. rewrite Hroot.
    unfold xbrl_numeric_step, xbrl_nonnumeric_step.
    rewrite (for_each_guard skip_numeric (add_numeric XBRLParser)).
    rewrite (for_each_guard skip_nonnumeric (add_nonnumeric XBRLParser)).
    split; f_equal; apply filter_ext_bool; intros t;
      unfold skip_numeric, skip_nonnumeric;
      by destruct (get_truthy t "contextRef"), (get_truthy t "unitRef").
  - intros Hcls Hroot.
    unfold _get_numeric, _get_nonnumeric, _get_elements.
    rewrite Hcls. simpl. by rewrite Hroot.
Qed.

(** *** The contexts and units loops *)

Local Abbreviation context_entry :=
  (context_entry tag_matches new_ixbrlContext).
Local Abbreviation unit_entry := (unit_entry tag_matches).
Local Abbreviation add_context := (add_context tag_matches new_ixbrlContext).
Local Abbreviation add_unit := (add_unit tag_matches).

Lemma context_kwargs_id s kw :
  context_kwargs_of tag_matches s = Ok kw → get s "id" = Some (kw_id kw).
Proof.
  unfold context_kwargs_of, getitem. intros H.
  destruct (get s "id") as [i|]; simpl in H; [|done].
  match type of H with
  | context [mbind _ ?scheme] =>
      destruct scheme as [sch|e]; simpl in H; [|done]
  end.
  by injection H as <-.
Qed.

Lemma context_entry_id s i c :
  context_entry s = Ok (i, c) → get s "id" = Some i.
Proof.
  unfold context_entry. intros H.
  destruct (context_kwargs_of tag_matches s) as [kw|e] eqn:Hkw;
    simpl in H; [|done].
  destruct (new_ixbrlContext kw); simpl in H; [|done].
  injection H as <- <-. by apply context_kwargs_id.
Qed.

Lemma context_entry_no_id s :
  get s "id" = None → context_entry s = Raise (KeyError "id").
Proof.
  intros H. unfold context_entry, context_kwargs_of, getitem.
  by rewrite H.
Qed.

Lemma unit_entry_id s i m :
  unit_entry s = Ok (i, m) → get s "id" = Some i.
Proof.
  unfold unit_entry, getitem. destruct (get s "id"); simpl; [|done].
  by intros [= <- <-].
Qed.

Lemma add_context_entry s p cs :
  contexts p = Some cs →
  add_context s p =
  match context_entry s with
  | Ok (i, c) => (set_contexts (<[i := c]> cs) p, Returned)
  | Raise e => (p, Raised e)
  end.
Proof.
  intros Hcs. unfold add_context, context_entry.
  destruct (context_kwargs_of tag_matches s) as [kw|e] eqn:Hkw;
    simpl; [|done].
  destruct (new_ixbrlContext kw) as [c|e]; simpl; [|done].
  unfold getitem. by rewrite Hcs, (context_kwargs_id _ _ Hkw).
Qed.

Lemma add_unit_entry s p us :
  units p = Some us →
  add_unit s p =
  match unit_entry s with
  | Ok (i, m) => (set_units (<[i := m]> us) p, Returned)
  | Raise e => (p, Raised e)
  end.
Proof.
  intros Hus. unfold add_unit, unit_entry, getitem. rewrite Hus. simpl.
  by destruct (get s "id").
Qed.

Lemma contexts_loop l p cs :
  contexts p = Some cs →
  for_each add_context l p =
  let '(m, o) := store_entries context_entry l cs in (set_contexts m p, o).
Proof.
  revert p cs. induction l as [|s l IH]; intros p cs Hcs; simpl.
  - destruct p; simpl in *. by subst.
  - rewrite (add_context_entry _ _ _ Hcs).
    destruct (context_entry s) as [[i c]|e].
    + rewrite (IH _ (<[i := c]> cs)) by done.
      by destruct (store_entries _ _ _).
    + destruct p; simpl in *. by subst.
Qed.

Lemma units_loop l p us :
  units p = Some us →
  for_each add_unit l p =
  let '(m, o) := store_entries unit_entry l us in (set_units m p, o).
Proof.
  revert p us. induction l as [|s l IH]; intros p us Hus; simpl.
  - destruct p; simpl in *. by subst.
  - rewrite (add_unit_entry _ _ _ Hus).
    destruct (unit_entry s) as [[i m]|e].
    + rewrite (IH _ (<[i := m]> us)) by done.
      by destruct (store_entries _ _ _).
    + destruct p; simpl in *. by subst.
Qed.

(** When every entry is built the loop returns, and a key holds the
    entry of the last element that has it. *)
Lemma store_entries_last {V} (entry : Tag -> result (string * V))
  l1 s l2 i v m :
  Forall (fun t => ∃ x, entry t = Ok x) (l1 ++ s :: l2) →
  entry s = Ok (i, v) →
  Forall (fun t => ∀ x, entry t = Ok x → x.1 ≠ i) l2 →
  ∃ m', store_entries entry (l1 ++ s :: l2) m = (m', Returned)
        ∧ m' !! i = Some v.
Proof.
  intros Hall Hs Hl2. revert m.
  induction l1 as [|t l1 IH]; intros m; simpl.
  - rewrite Hs. apply Forall_cons in Hall as [_ Hall]. simpl in Hall.
    assert (Hi : <[i := v]> m !! i = Some v) by apply lookup_insert_eq.
    revert Hi. generalize (<[i := v]> m). clear m.
    induction l2 as [|t l2 IH2]; intros m Hi; simpl; [by exists m|].
    apply Forall_cons in Hall as [[[j w] Ht] Hall].
    apply Forall_cons in Hl2 as [Hne Hl2]. rewrite Ht.
    apply IH2; [done..|].
    rewrite lookup_insert_ne; [done|]. by apply (Hne (j, w)).
  - simpl in Hall. apply Forall_cons in Hall as [[[j w] Ht] Hall].
    rewrite Ht. by apply IH.
Qed.

(** An entry that raises ends the loop, with the keys of the elements
    before it at most. *)
Lemma store_entries_raise {V} (entry : Tag -> result (string * V))
  l1 s l2 e m :
  entry s = Raise e →
  ∃ m' e', store_entries entry (l1 ++ s :: l2) m = (m', Raised e')
           ∧ (Forall (fun t => ∃ x, entry t = Ok x) l1 → e' = e)
           ∧ ∀ i, is_Some (m' !! i) →
                  is_Some (m !! i)
                  ∨ ∃ t x, t ∈ l1 ∧ entry t = Ok x ∧ x.1 = i.
Proof.
  intros Hs. revert m. induction l1 as [|t l1 IH]; intros m; simpl.
  - rewrite Hs. exists m, e. repeat split; auto.
  - destruct (entry t) as [[j w]|e0] eqn:Ht.
    + destruct (IH (<[j := w]> m)) as (m' & e' & -> & He & Hdom).
      exists m', e'. repeat split; [|].
      * intros [_ H]%Forall_cons. by apply He.
      * intros i Hi. destruct (Hdom i Hi) as [Hm|(t' & x & Ht' & Hx & Hxi)].
        -- destruct (decide (j = i)) as [->|Hne].
           ++ right. exists t, (i, w). repeat split; [left | done].
           ++ left. by rewrite lookup_insert_ne in Hm.
        -- right. exists t', x. repeat split; [by right | done..].
    + exists m, e0. repeat split; [|auto].
      intros [[x Hx] _]%Forall_cons. congruence.
Qed.

(** C7: when every context definition (unit definition) of a document
    is built, the contexts map (units map) holds for an id the
    definition that comes last in document order among those with that
    id, whatever definitions with the same id come before it. *)
Theorem duplicate_ids_last_wins :
  (∀ p l1 s l2 i c,
      _get_context_elements tag_matches (cls p) (soup p)
      = Ok (l1 ++ s :: l2) →
      Forall (fun t => ∃ x, context_entry t = Ok x) (l1 ++ s :: l2) →
      context_entry s = Ok (i, c) →
      Forall (fun t => get t "id" ≠ Some i) l2 →
      ∃ p' cs, _get_contexts p = (p', Returned)
               ∧ contexts p' = Some cs ∧ cs !! i = Some c)
  ∧ (∀ p l1 s l2 i,
      _get_unit_elements tag_matches (cls p) (soup p)
      = Ok (l1 ++ s :: l2) →
      Forall (fun t => is_Some (get t "id")) (l1 ++ s :: l2) →
      get s "id" = Some i →
      Forall (fun t => get t "id" ≠ Some i) l2 →
      ∃ p' us, _get_units p = (p', Returned)
               ∧ units p' = Some us
               ∧ us !! i = Some (find_text tag_matches
                                   ["xbrli:measure"; "measure"] s)).
Proof.
  split.
  - intros p l1 s l2 i c Hel Hall Hs Hl2.
    unfold _get_contexts. rewrite Hel.
    rewrite (contexts_loop _ _ ∅) by done.
    destruct (store_entries_last context_entry l1 s l2 i c ∅ Hall Hs)
      as (m' & -> & Hm').
    + eapply Forall_impl; [exact Hl2|]. intros t Ht [j w] Hx <-.
      apply Ht. by apply context_entry_id in Hx.
    + by exists (set_contexts m' (set_contexts ∅ p)), m'.
  - intros p l1 s l2 i Hel Hall Hs Hl2.
    unfold _get_units. rewrite Hel.
    rewrite (units_loop _ _ ∅) by done.
    destruct (store_entries_last unit_entry l1 s l2 i
                (find_text tag_matches ["xbrli:measure"; "measure"] s) ∅)
      as (m' & -> & Hm').
    + eapply Forall_impl; [exact Hall|]. intros t [j Hj].
      unfold unit_entry, getitem. rewrite Hj. by eexists.
    + unfold unit_entry, getitem. by rewrite Hs.
    + eapply Forall_impl; [exact Hl2|]. intros t Ht [j w] Hx <-.
      apply Ht. by apply unit_entry_id in Hx.
    + by exists (set_units m' (set_units ∅ p)), m'.
Qed.

(** C3 (amended): a context element with no [id] attribute is not
    skipped.  Context resolution raises when it reaches it, under
    either error policy: the exception is [KeyError] for [id] when the
    context elements before it were built; no error is recorded; and
    the contexts map holds only ids of elements before it, so the
    context elements after it are not extracted. *)
Theorem context_without_id_raises p l1 s l2 :
  _get_context_elements tag_matches (cls p) (soup p) = Ok (l1 ++ s :: l2) →
  get s "id" = None →
  ∃ p' e cs,
    _get_contexts p = (p', Raised e)
    ∧ errors p' = errors p
    ∧ (Forall (fun t => ∃ x, context_entry t = Ok x) l1 →
       e = KeyError "id")
    ∧ contexts p' = Some cs
    ∧ ∀ i, is_Some (cs !! i) → ∃ t, t ∈ l1 ∧ get t "id" = Some i.
Proof.
  intros Hel Hs. unfold _get_contexts. rewrite Hel.
  rewrite (contexts_loop _ _ ∅) by done.
  destruct (store_entries_raise context_entry l1 s l2 (KeyError "id") ∅
              (context_entry_no_id s Hs)) as (m' & e' & -> & He & Hdom).
  exists (set_contexts m' (set_contexts ∅ p)), e', m'.
  repeat split; [done|].
  intros i Hi. destruct (Hdom i Hi) as [Hm|(t & [j c] & Ht & Hx & <-)].
  - rewrite lookup_empty in Hm. by destruct Hm.
  - exists t. split; [done|]. by apply context_entry_id in Hx.
Qed.

(** *** Rows *)

Lemma dict_set_key k v d : k ∈ (dict_set k v d).*1.
Proof.
  induction d as [|[k' v'] d IH]; simpl; [left|].
  destruct (String.eqb k k'); simpl; [left | by right].
Qed.

Lemma dict_set_keeps k v d k' : k' ∈ d.*1 → k' ∈ (dict_set k v d).*1.
Proof.
  induction d as [|[k0 v0] d IH]; simpl; [by inversion 1|].
  destruct (String.eqb k k0) eqn:E; simpl.
  - apply String.eqb_eq in E as ->. done.
  - inversion 1; subst; [left | right; by apply IH].
Qed.

Lemma dict_set_Forall (P : pyval -> Prop) k v d :
  P v → Forall (fun kv => P kv.2) d →
  Forall (fun kv => P kv.2) (dict_set k v d).
Proof.
  intros Hv. induction 1 as [|[k' v'] d Hx Hd IH]; simpl.
  - by repeat constructor.
  - destruct (String.eqb k k'); by constructor.
Qed.

Lemma dict_update_Forall (P : pyval -> Prop) d e :
  Forall (fun kv => P kv.2) d → Forall (fun kv => P kv.2) e →
  Forall (fun kv => P kv.2) (dict_update d e).
Proof.
  unfold dict_update. intros Hd He. revert d Hd.
  induction He as [|[k v] e Hv He IH]; intros d Hd; simpl; [done|].
  apply IH. by apply dict_set_Forall.
Qed.

Lemma dict_update_keeps d e k : k ∈ d.*1 → k ∈ (dict_update d e).*1.
Proof.
  unfold dict_update. revert d.
  induction e as [|[k' v'] e IH]; intros d Hk; simpl; [done|].
  apply IH. by apply dict_set_keeps.
Qed.

Lemma dict_update_keys d e k : k ∈ e.*1 → k ∈ (dict_update d e).*1.
Proof.
  unfold dict_update. revert d.
  induction e as [|[k' v'] e IH]; intros d; simpl; [by inversion 1|].
  inversion 1; subst.
  - apply (dict_update_keeps _ e). apply dict_set_key.
  - by apply IH.
Qed.

Lemma imap_Forall {A B} (P : B -> Prop) (f : nat -> A -> B) l :
  (∀ i x, P (f i x)) → Forall P (imap f l).
Proof.
  revert f. induction l as [|x l IH]; intros f Hf; simpl; [constructor|].
  constructor; [apply Hf|]. apply IH. intros i y. apply Hf.
Qed.

Lemma segment_columns_scalar l :
  Forall (fun kv => scalar_or_none kv.2 = true) (segment_columns l).
Proof.
  unfold segment_columns.
  apply (dict_update_Forall (fun v => scalar_or_none v = true));
    [constructor|].
  by apply imap_Forall.
Qed.

Lemma segment_columns_first s r : "segment:0" ∈ (segment_columns (s :: r)).*1.
Proof.
  unfold segment_columns, dict_update. simpl.
  apply (dict_update_keeps [_] _ "segment:0"). left.
Qed.

Lemma row_segments_scalar c :
  Forall (fun kv => scalar_or_none kv.2 = true) (row_segments c).
Proof.
  unfold row_segments. destruct (segments c) as [[|s r]|].
  - by repeat constructor.
  - apply segment_columns_scalar.
  - by repeat constructor.
Qed.

Lemma row_segments_first c : "segment:0" ∈ (row_segments c).*1.
Proof.
  unfold row_segments. destruct (segments c) as [[|s r]|].
  - left.
  - apply segment_columns_first.
  - left.
Qed.

Lemma segment_keys_nonempty row : "segment:0" ∈ row.*1 → segment_keys row ≠ [].
Proof.
  unfold segment_keys. intros Hin Hnil.
  assert (H : "segment:0" ∈ List.filter (PyStr.startswith "segment:") row.*1).
  { apply list_elem_of_In, filter_In. by rewrite <- list_elem_of_In. }
  rewrite Hnil in H. inversion H.
Qed.

Lemma fact_cells_scalar v :
  scalar_or_none (fact_value v) = true ∧ scalar_or_none (fact_unit v) = true.
Proof. destruct v as [f|f]; simpl; [done|]. by destruct (num_unit f). Qed.

Lemma date_cell_scalar o : scalar_or_none (date_cell o) = true.
Proof. by destruct o. Qed.

(** What one row of the table looks like. *)
Lemma table_row_flat p v row :
  table_row p v = Ok row →
  Forall (fun kv => scalar_or_none kv.2 = true) row
  ∧ segment_keys row ≠ []
  ∧ ∀ c, fact_context v = VContext c →
         segments c = None ∨ segments c = Some [] →
         segment_keys row = ["segment:0"]
         ∧ dict_get "segment:0" row = Some (VStr "").
Proof.
  unfold table_row.
  destruct (fact_context v) as [| | | |c]; try done.
  destruct (namespaces p) as [ns|]; simpl; [|done].
  intros [= <-]. split; [|split].
  - apply (dict_update_Forall (fun x => scalar_or_none x = true));
      [|apply row_segments_scalar].
    destruct (fact_cells_scalar v).
    repeat constructor; simpl; auto using date_cell_scalar.
  - apply segment_keys_nonempty, dict_update_keys, row_segments_first.
  - intros c' [= <-] Hseg. unfold row_segments.
    by destruct Hseg as [-> | ->].
Qed.

Lemma mapM_Ok {A B} (f : A -> result B) l k :
  mapM f l = Ok k → Forall2 (fun x y => f x = Ok y) l k.
Proof.
  revert k. induction l as [|x l IH]; intros k; simpl.
  - intros [= <-]. constructor.
  - destruct (f x) as [y|e] eqn:Hx; simpl; [|done].
    destruct (mapM f l) as [k'|e]; simpl; [|done].
    intros [= <-]. constructor; [done | by apply IH].
Qed.

(** C8: every row of [to_table] binds each of its columns to a scalar
    or to [None], never to a list or another nested value, and has at
    least one [segment:] column; the row of a fact whose context has no
    segment members has exactly the column [segment:0], bound to the
    empty string. *)
Theorem table_rows_flat p fields rows :
  to_table p fields = Ok rows →
  ∃ values,
    table_values p fields = Ok values ∧ Forall2 (flat_row p) values rows.
Proof.
  unfold to_table.
  destruct (table_values p fields) as [values|e]; simpl; [|done].
  intros H%mapM_Ok. exists values. split; [done|].
  eapply Forall2_impl; [exact H|]. intros v row Hrow.
  split; [done | by apply (table_row_flat p v row)].
Qed.

Lemma mapM_cons {A B} (f : A -> result B) x l :
  mapM f (x :: l) = y ← f x; k ← mapM f l; Ok (y :: k).
Proof. done. Qed.

Lemma table_row_context p v c ns :
  fact_context v = VContext c → namespaces p = Some ns →
  ∃ row, table_row p v = Ok row.
Proof. intros Hc Hns. unfold table_row. rewrite Hc, Hns. by eexists. Qed.

Lemma table_row_raw p v :
  (∀ c, fact_context v ≠ VContext c) →
  table_row p v = Raise (AttributeError "segments").
Proof.
  intros H. unfold table_row. destruct (fact_context v) as [| | | |c]; try done.
  by destruct (H c).
Qed.

(** C9: [to_table] gives one row per selected fact when every selected
    fact has a context record for its context; as soon as one of them
    holds the reference string instead, it raises an attribute error
    for [segments] and gives no rows at all. *)
Theorem to_table_needs_contexts p fields values :
  table_values p fields = Ok values →
  is_Some (namespaces p) →
  (Forall (fun v => ∃ c, fact_context v = VContext c) values →
   ∃ rows, to_table p fields = Ok rows ∧ length rows = length values)
  ∧ (Exists (fun v => ∃ r, fact_context v = VStr r) values →
     to_table p fields = Raise (AttributeError "segments")).
Proof.
  intros Hv [ns Hns]. unfold to_table. rewrite Hv. simpl. clear Hv. split.
  - induction 1 as [|v l [c Hc] _ (rows & IH & Hlen)].
    + by exists [].
    + destruct (table_row_context p v c ns Hc Hns) as [row Hrow].
      rewrite mapM_cons, Hrow, IH. simpl.
      eexists. split; [done|]. simpl. by rewrite Hlen.
  - induction 1 as [v l [r Hr]|v l _ IH]; rewrite mapM_cons.
    + rewrite table_row_raw; [done|]. by rewrite Hr.
    + destruct (fact_context v) as [| | | |c] eqn:Hc;
        try (rewrite table_row_raw; [done | by rewrite Hc]).
      destruct (table_row_context p v c ns Hc Hns) as [row ->].
      by rewrite IH.
Qed.

(** *** The order of extraction *)

Lemma get_schema_preserves {A} (field : Parser -> A) :
  (∀ v p, field (set_schema v p) = field p) →
  (∀ v p, field (set_namespaces v p) = field p) →
  preserves field _get_schema.
Proof.
  intros H1 H2 p. unfold _get_schema.
  destruct (find _ (soup p)) as [ref|]; [|done].
  destruct (find _ (soup p)) as [root|]; simpl; by rewrite ?H2, ?H1.
Qed.

Lemma get_contexts_preserves {A} (field : Parser -> A) :
  (∀ v p, field (set_contexts v p) = field p) →
  preserves field _get_contexts.
Proof.
  intros H p. unfold _get_contexts.
  destruct (_get_context_elements _ _ _) as [l|e]; simpl; [|apply H].
  rewrite for_each_preserves; [apply H|].
  intros s q. unfold add_context.
  match goal with |- context [match ?r with Ok _ => _ | Raise _ => _ end] =>
    destruct r end; simpl; [apply H | done].
Qed.

Lemma get_units_preserves {A} (field : Parser -> A) :
  (∀ v p, field (set_units v p) = field p) →
  preserves field _get_units.
Proof.
  intros H p. unfold _get_units.
  destruct (_get_unit_elements _ _ _) as [l|e]; simpl; [|apply H].
  rewrite for_each_preserves; [apply H|].
  intros s q. unfold add_unit.
  match goal with |- context [match ?r with Ok _ => _ | Raise _ => _ end] =>
    destruct r end; simpl; [apply H | done].
Qed.

Lemma get_nonnumeric_numeric : preserves numeric _get_nonnumeric.
Proof.
  assert (Hadd : ∀ c s, preserves numeric (add_nonnumeric c s)).
  { intros c s p. unfold add_nonnumeric.
    destruct (nonnumeric_element c s p) as [el|e]; simpl; [|done].
    destruct (nonnumeric p) as [l|]; simpl; [|done].
    by destruct (new_ixbrlNonNumeric el). }
  intros p. unfold _get_nonnumeric. destruct (cls p).
  - by rewrite for_each_preserves by apply Hadd.
  - destruct (_get_elements tag_matches p); [|done].
    rewrite for_each_preserves; [done|].
    intros s q. unfold xbrl_nonnumeric_step.
    destruct (skip_nonnumeric s); [done | apply Hadd].
Qed.

Lemma seq_Returned (m1 m2 : method) p p' :
  seq m1 m2 p = (p', Returned) →
  ∃ q, m1 p = (q, Returned) ∧ m2 q = (p', Returned).
Proof.
  unfold seq. destruct (m1 p) as [q [|e]]; [|done]. intros H. by exists q.
Qed.

(** The extraction calls before [_get_numeric]. *)
Lemma extract_numeric_last p :
  extract tag_matches new_ixbrlContext new_ixbrlNonNumeric new_ixbrlNumeric p
  = match seq _get_schema (seq _get_contexts (seq _get_units _get_nonnumeric))
            p with
    | (p4, Returned) => _get_numeric p4
    | (p', Raised e) => (p', Raised e)
    end.
Proof.
  unfold extract, seq.
  destruct (_get_schema p) as [p1 [|e]]; [|done].
  destruct (_get_contexts p1) as [p2 [|e]]; [|done].
  destruct (_get_units p2) as [p3 [|e]]; [|done].
  by destruct (_get_nonnumeric p3) as [p4 [|e]].
Qed.

Lemma get_schema_populates p p' :
  _get_schema p = (p', Returned) →
  is_Some (schema p') ∧ is_Some (namespaces p').
Proof.
  unfold _get_schema.
  destruct (find _ (soup p)) as [ref|]; [|done].
  destruct (find _ (soup p)) as [root|]; [|done].
  intros [= <-]. by split.
Qed.

Lemma get_contexts_populates p : is_Some (contexts (_get_contexts p).1).
Proof.
  unfold _get_contexts.
  destruct (_get_context_elements _ _ _) as [l|e]; simpl; [|done].
  apply (for_each_maintains (fun q => is_Some (contexts q))); [|done].
  intros s q Hq. unfold add_context.
  match goal with |- context [match ?r with Ok _ => _ | Raise _ => _ end] =>
    destruct r end; by simpl.
Qed.

Lemma get_units_populates p : is_Some (units (_get_units p).1).
Proof.
  unfold _get_units.
  destruct (_get_unit_elements _ _ _) as [l|e]; simpl; [|done].
  apply (for_each_maintains (fun q => is_Some (units q))); [|done].
  intros s q Hq. unfold add_unit.
  match goal with |- context [match ?r with Ok _ => _ | Raise _ => _ end] =>
    destruct r end; by simpl.
Qed.

(** A loop that returns under the raise-on-error policy has built
    every candidate. *)
Lemma replay_raise_returned {F} (l : list (Tag * attempt F)) fs es :
  replay true l = (fs, es, Returned) → es = [] ∧ length fs = length l.
Proof.
  revert fs es. induction l as [|[s [f|e|e]] l IH]; intros fs es; simpl.
  - by intros [= <- <-].
  - destruct (replay true l) as [[fs' es'] o].
    intros [= <- <- ->]. destruct (IH fs' es' eq_refl) as [-> Hlen].
    simpl. by rewrite Hlen.
  - done.
  - done.
Qed.

Lemma nonnumeric_candidates_same p q :
  cls q = cls p → soup q = soup p →
  nonnumeric_candidates tag_matches q = nonnumeric_candidates tag_matches p.
Proof.
  unfold nonnumeric_candidates, _get_elements. by intros -> ->.
Qed.

(** The calls before [_get_numeric] never assign the numeric list. *)
Lemma before_numeric_keeps_numeric :
  preserves numeric
    (seq _get_schema (seq _get_contexts (seq _get_units _get_nonnumeric))).
Proof.
  intros p. unfold seq.
  pose proof (get_schema_preserves numeric (fun _ _ => eq_refl)
                (fun _ _ => eq_refl) p) as F1.
  destruct (_get_schema p) as [p1 [|e]]; simpl in *; [|done].
  pose proof (get_contexts_preserves numeric (fun _ _ => eq_refl) p1) as F2.
  destruct (_get_contexts p1) as [p2 [|e]]; simpl in *; [|congruence].
  pose proof (get_units_preserves numeric (fun _ _ => eq_refl) p2) as F3.
  destruct (_get_units p2) as [p3 [|e]]; simpl in *; [|congruence].
  pose proof (get_nonnumeric_numeric p3) as F4.
  destruct (_get_nonnumeric p3) as [p4 [|e]]; simpl in *; congruence.
Qed.

(** [_get_numeric] assigns the numeric list, whatever its outcome. *)
Lemma get_numeric_assigns p : is_Some (numeric (_get_numeric p).1).
Proof.
  assert (Hadd : ∀ c s, maintains (fun q => is_Some (numeric q))
                          (add_numeric c s)).
  { intros c s q Hq. unfold add_numeric.
    destruct (numeric_element c s q) as [el|e]; simpl; [|done].
    destruct (numeric q) as [l|] eqn:Hl; simpl; [|by destruct Hq].
    destruct (new_ixbrlNumeric el); simpl; by rewrite ?Hl. }
  unfold _get_numeric. destruct (cls p).
  - apply (for_each_maintains (fun q => is_Some (numeric q)));
      [apply Hadd | done].
  - destruct (_get_elements tag_matches p); [|done].
    apply (for_each_maintains (fun q => is_Some (numeric q))); [|done].
    intros s q Hq. unfold xbrl_numeric_step.
    destruct (skip_numeric s); [done | by apply Hadd].
Qed.

(** C10: in every parse, under either error policy, the non-numeric
    facts are extracted before any numeric fact.  The parse is the
    calls [_get_schema], [_get_contexts], [_get_units] and
    [_get_nonnumeric] followed, when they have returned, by
    [_get_numeric]: whatever the outcome of the first four calls, no
    numeric list exists after them, and when one of them raises the
    parse ends there.  When they have returned, the schema reference,
    the namespace map, the contexts map, the units map and the
    non-numeric list are all assigned, under the raise-on-error policy
    the non-numeric list holds a fact for every non-numeric candidate,
    and [_get_numeric], whether it returns or raises, ends the parse
    with the numeric list assigned and with those five as they were
    before the call. *)
Theorem numeric_failure_keeps_earlier sp roe ft p0 p4 o4 :
  _get_parser sp roe = Ok (ft, p0) →
  seq _get_schema (seq _get_contexts (seq _get_units _get_nonnumeric)) p0
  = (p4, o4) →
  numeric p4 = None
  ∧ (∀ e, o4 = Raised e → IXBRL_init sp roe = (Some (ft, p4), Raised e))
  ∧ (o4 = Returned →
     (is_Some (schema p4) ∧ is_Some (namespaces p4)
      ∧ is_Some (contexts p4) ∧ is_Some (units p4))
     ∧ (∃ cands fs, nonnumeric_candidates tag_matches p4 = Ok cands
                    ∧ nonnumeric p4 = Some fs
                    ∧ (roe = true → length fs = length cands))
     ∧ ∀ p5 o, _get_numeric p4 = (p5, o) →
         IXBRL_init sp roe = (Some (ft, p5), o)
         ∧ is_Some (numeric p5)
         ∧ schema p5 = schema p4
         ∧ namespaces p5 = namespaces p4
         ∧ contexts p5 = contexts p4
         ∧ units p5 = units p4
         ∧ nonnumeric p5 = nonnumeric p4).
Proof.
  intros Hp Hpre.
  assert (Hp0 : numeric p0 = None ∧ raise_on_error p0 = roe).
  { revert Hp. unfold _get_parser.
    destruct (find _ sp); [by intros [= _ <-]|].
    destruct (find _ sp); [by intros [= _ <-] | done]. }
  destruct Hp0 as [Hn0 Hroe0].
  split.
  { pose proof (before_numeric_keeps_numeric p0) as F.
    rewrite Hpre in F. simpl in F. congruence. }
  split.
  { intros e ->. unfold IXBRL_init.
    by rewrite Hp, extract_numeric_last, Hpre. }
  intros ->.
  assert (Hinit : ∀ p5 o, _get_numeric p4 = (p5, o) →
                          IXBRL_init sp roe = (Some (ft, p5), o)).
  { intros p5 o Hnum. unfold IXBRL_init.
    by rewrite Hp, extract_numeric_last, Hpre, Hnum. }
  apply seq_Returned in Hpre as (p1 & H1 & Hpre).
  apply seq_Returned in Hpre as (p2 & H2 & Hpre).
  apply seq_Returned in Hpre as (p3 & H3 & H4).
  pose proof (get_schema_populates _ _ H1) as [Hs1 Hns1].
  pose proof (get_schema_preserves raise_on_error (fun _ _ => eq_refl)
                (fun _ _ => eq_refl) p0) as Fr1.
  pose proof (get_contexts_preserves schema (fun _ _ => eq_refl) p1) as Fs2.
  pose proof (get_contexts_preserves namespaces (fun _ _ => eq_refl) p1)
    as Fns2.
  pose proof (get_contexts_preserves raise_on_error (fun _ _ => eq_refl) p1)
    as Fr2.
  pose proof (get_contexts_populates p1) as Hc2.
  pose proof (get_units_preserves schema (fun _ _ => eq_refl) p2) as Fs3.
  pose proof (get_units_preserves namespaces (fun _ _ => eq_refl) p2)
    as Fns3.
  pose proof (get_units_preserves contexts (fun _ _ => eq_refl) p2) as Fc3.
  pose proof (get_units_preserves raise_on_error (fun _ _ => eq_refl) p2)
    as Fr3.
  pose proof (get_units_populates p2) as Hu3.
  pose proof (get_nonnumeric_resources p3)
    as (Fcls4 & Fsoup4 & Froe4 & Fs4 & Fns4 & Fc4 & Fu4).
  rewrite H1 in Fr1. rewrite H2 in Fs2, Fns2, Fr2, Hc2.
  rewrite H3 in Fs3, Fns3, Fc3, Fr3, Hu3.
  rewrite H4 in Fcls4, Fsoup4, Froe4, Fs4, Fns4, Fc4, Fu4. simpl in *.
  split; [repeat split; congruence|].
  split.
  - destruct (nonnumeric_candidates tag_matches p3) as [cands|e3] eqn:Hc.
    + pose proof (get_nonnumeric_replay p3 cands Hc) as Hrep.
      rewrite H4 in Hrep.
      destruct (replay (raise_on_error p3) _) as [[fs es] o] eqn:Hr.
      injection Hrep as -> <-.
      exists cands, fs. split; [|split; [done|]].
      * rewrite <- Hc. by apply nonnumeric_candidates_same.
      * intros ->.
        assert (Hroe3 : raise_on_error p3 = true) by congruence.
        rewrite Hroe3 in Hr.
        apply replay_raise_returned in Hr as [_ Hlen].
        by rewrite length_map in Hlen.
    + exfalso. revert H4 Hc.
      unfold _get_nonnumeric, nonnumeric_candidates.
      destruct (cls p3); [done|].
      by destruct (_get_elements tag_matches p3).
  - intros p5 o Hnum.
    pose proof (get_numeric_resources p4)
      as (_ & _ & _ & Fs5 & Fns5 & Fc5 & Fu5).
    pose proof (get_numeric_nonnumeric p4) as Fnn5.
    pose proof (get_numeric_assigns p4) as Hn5.
    rewrite Hnum in Fs5, Fns5, Fc5, Fu5, Fnn5, Hn5. simpl in *.
    split; [by apply Hinit|]. by repeat split.
Qed.

End Properties.

(** ** The sign of a normalized value *)

Section Normalization.

Variable tag_matches : name_filter -> Tag -> bool.
Variable registry : option string -> option Components.convention.

Local Abbreviation magnitude := (Components.magnitude registry).
Local Abbreviation parse_value := (Components.parse_value registry).
Local Abbreviation new_numeric := (Components.new_ixbrlNumeric registry).
Local Abbreviation normalized := (Components.normalized registry).

Lemma parse_magnitude_nonneg c t m :
  Components.parse_magnitude c t = Some m → (0 <= m)%Q.
Proof.
  unfold Components.parse_magnitude.
  destruct (from_option _ _ (Components.decimal_marker c))
    as [|i [|f [|x r]]]; [done| | |done].
  - destruct (Components.parse_digits i) as [n|]; simpl; [|done].
    intros [= <-]. unfold Qle; simpl. lia.
  - destruct (Components.parse_digits (i +++ f)) as [n|]; simpl; [|done].
    intros [= <-]. unfold Qle; simpl. lia.
Qed.

Lemma magnitude_nonneg raw format m :
  magnitude raw format = Ok m → (0 <= m)%Q.
Proof.
  unfold Components.magnitude.
  destruct (registry format) as [c|]; [|done].
  destruct c; try (intros [= <-]; done);
    (destruct (Components.parse_magnitude _ _) as [q|] eqn:Hq; [|done];
     intros [= <-]; by apply parse_magnitude_nonneg in Hq).
Qed.

Lemma ten_power_positive (scale : Z) : (0 < (10 # 1) ^ scale)%Q.
Proof. by apply Qpower_0_lt. Qed.

Lemma scaled_negative m scale :
  (0 <= m)%Q → ¬ (m == 0)%Q →
  (Components.apply_scale scale (Components.apply_sign "-" m) < 0)%Q.
Proof.
  intros Hm Hnz. unfold Components.apply_scale, Components.apply_sign.
  simpl.
  assert (Hpos : (0 < m)%Q).
  { apply Qle_lteq in Hm as [Hlt|Heq]; [done|]. destruct Hnz. by symmetry. }
  pose proof (Qmult_lt_0_compat _ _ Hpos (ten_power_positive scale)) as H.
  apply Qopp_lt_compat in H.
  assert (E : (- m * (10 # 1) ^ scale == - (m * (10 # 1) ^ scale))%Q)
    by ring.
  rewrite E. exact H.
Qed.

Lemma scaled_nonnegative sign m scale :
  sign ≠ "-" → (0 <= m)%Q →
  (0 <= Components.apply_scale scale (Components.apply_sign sign m))%Q.
Proof.
  intros Hs Hm. unfold Components.apply_scale, Components.apply_sign.
  destruct (String.eqb_spec sign "-") as [->|_]; [done|].
  apply Qmult_le_0_compat; [done|]. apply Qlt_le_weak, ten_power_positive.
Qed.

(** The normalizer on its four inputs. *)
Lemma parse_value_sign raw format sign scale v :
  parse_value raw format sign scale = Ok v →
  (sign = "-" → ∀ m, magnitude raw format = Ok m → ¬ (m == 0)%Q →
                     (v < 0)%Q)
  ∧ (sign ≠ "-" → (0 <= v)%Q).
Proof.
  unfold Components.parse_value.
  destruct (registry format) as [c|] eqn:Hreg.
  - destruct c;
      try (destruct (magnitude raw format) as [m|e] eqn:Hm; simpl; [|done];
           intros [= <-]; split;
           [ intros -> m' [= <-] Hnz;
             by apply scaled_negative; [eapply magnitude_nonneg|]
           | intros Hs; apply scaled_nonnegative; [done|];
             by eapply magnitude_nonneg ]).
    intros [= <-]. split; [|done].
    intros _ m. unfold Components.magnitude. rewrite Hreg.
    intros [= <-] Hnz. by destruct Hnz.
  - unfold Components.magnitude. by rewrite Hreg.
Qed.

Lemma new_ixbrlNumeric_normalized element f :
  new_numeric element = Ok f → normalized f.
Proof.
  unfold Components.new_ixbrlNumeric, Components.normalized.
  destruct (Components.split_name _) as [prefix local].
  match goal with |- context [mbind _ ?sc] =>
    destruct sc as [scale|e]; simpl; [|done] end.
  destruct (parse_value _ _ _ scale) as [v|e] eqn:Hv; simpl; [|done].
  by intros [= <-].
Qed.

Lemma get_numeric_normalized p :
  Forall normalized
    (default [] (numeric (_get_numeric tag_matches new_numeric p).1)).
Proof.
  pose (I := fun q => Forall normalized (default [] (numeric q))).
  assert (Hadd : ∀ c s, maintains I (add_numeric new_numeric c s)).
  { intros c s q Hq. unfold add_numeric, I in *.
    destruct (numeric_element c s q) as [el|e]; simpl; [|done].
    destruct (numeric q) as [l|] eqn:Hl; simpl;
      [|rewrite Hl; constructor].
    destruct (new_numeric el) as [f|e] eqn:Hf; simpl.
    - apply Forall_app. split; [done|].
      constructor; [|done]. by eapply new_ixbrlNumeric_normalized.
    - by rewrite Hl. }
  change (I (_get_numeric tag_matches new_numeric p).1).
  unfold _get_numeric. destruct (cls p).
  - apply (for_each_maintains I); [apply Hadd | by constructor].
  - destruct (_get_elements tag_matches p); [|by constructor].
    apply (for_each_maintains I); [|by constructor].
    intros s q Hq. unfold xbrl_numeric_step.
    destruct (skip_numeric s); [done | by apply Hadd].
Qed.

(** C2: for every numeric fact that [_get_numeric] extracts, a sign
    marker of ["-"] makes the value negative when the magnitude read
    from the text is not zero, and an empty sign marker (the default
    of an absent one) makes it non-negative, whatever the text is. *)
Theorem sign_marker_decides_sign p p' o fs f :
  _get_numeric tag_matches new_numeric p = (p', o) →
  numeric p' = Some fs → f ∈ fs →
  (num_sign f = "-" →
   ∀ m, magnitude (num_text f) (num_format f) = Ok m → ¬ (m == 0)%Q →
        (num_value f < 0)%Q)
  ∧ (num_sign f = "" → (0 <= num_value f)%Q).
Proof.
  intros Hrun Hfs Hf.
  pose proof (get_numeric_normalized p) as Hall.
  rewrite Hrun in Hall. simpl in Hall. rewrite Hfs in Hall. simpl in Hall.
  rewrite Forall_forall in Hall. specialize (Hall f Hf).
  apply parse_value_sign in Hall as [Hneg Hpos].
  split; [done|]. intros Hs. apply Hpos. by rewrite Hs.
Qed.

End Normalization.

(** ** The statements on the example documents *)

(** Scenario D with a format code outside the registry: two facts and
    one recorded error when errors are collected. *)
Lemma construction_failure_recorded_witness :
  ∃ fs,
    example_get_numeric (parser_bad_format false)
    = (set_errors
         (errors (parser_bad_format false)
          ++ [(FormatError "ten" (Some "ixt:numwordsen"), fact_bad_format)])
         (set_numeric fs (parser_bad_format false)),
       Returned)
    ∧ length fs = length ([fact_revenue ""] ++ [fact_costs]).
Proof.
  apply (proj1 (proj2 (proj2
           (construction_failure_recorded name_matches
              Components.new_ixbrlNonNumeric
              (Components.new_ixbrlNumeric example_registry))))).
  - vm_compute; reflexivity.
  - vm_compute; reflexivity.
  - repeat constructor; vm_compute; eexists; reflexivity.
  - vm_compute; reflexivity.
Defined.

(** Scenario D as the claim has it: the fact with no context reference
    ends the parse with [KeyError] although errors are collected; one of
    the two valid numeric facts was extracted and no error recorded. *)
Lemma missing_reference_not_collected :
  (example_init doc_missing_reference false).2
  = Raised (KeyError "contextRef")
  ∧ raise_on_error (example_parsed doc_missing_reference false) = false
  ∧ errors (example_parsed doc_missing_reference false) = []
  ∧ length <$> numeric (example_parsed doc_missing_reference false) = Some 1.
Proof. vm_compute. done. Qed.

(** A context element with no id ends context resolution. *)
Lemma context_without_id_raises_witness :
  ∃ p' e cs,
    example_get_contexts
      (Parser_init IXBRLParser doc_context_without_id false)
    = (p', Raised e)
    ∧ errors p'
      = errors (Parser_init IXBRLParser doc_context_without_id false)
    ∧ (Forall (fun t => ∃ x, context_entry name_matches
                               Components.new_ixbrlContext t = Ok x)
         [ctx_c1] →
       e = KeyError "id")
    ∧ contexts p' = Some cs
    ∧ ∀ i, is_Some (cs !! i) → ∃ t, t ∈ [ctx_c1] ∧ get t "id" = Some i.
Proof.
  apply (context_without_id_raises name_matches Components.new_ixbrlContext
           (Parser_init IXBRLParser doc_context_without_id false)
           [ctx_c1] ctx_no_id [ctx_c2]).
  - vm_compute; reflexivity.
  - vm_compute; reflexivity.
Defined.

(** The claim on a document whose second context element has no id: the
    parse ends there although errors are collected, nothing is recorded,
    the context after it is missing and no fact is extracted. *)
Lemma context_without_id_not_skipped :
  (example_init doc_context_without_id false).2 = Raised (KeyError "id")
  ∧ errors (example_parsed doc_context_without_id false) = []
  ∧ contexts (example_parsed doc_context_without_id false) ≫= (.!! "c2")
    = None
  ∧ nonnumeric (example_parsed doc_context_without_id false) = None.
Proof. vm_compute. done. Qed.

(** References that no definition has are carried as they are. *)
Lemma reference_resolved_or_raw_witness :
  ∃ el, numeric_element IXBRLParser fact_dangling
          (set_numeric [] parser_dangling) = Ok el
        ∧ el !! "context" = Some (VStr "c9")
        ∧ el !! "unit" = Some (VStr "u9").
Proof.
  destruct (proj2 (reference_resolved_or_raw Components.new_ixbrlNonNumeric
                     (Components.new_ixbrlNumeric example_registry))
              IXBRLParser fact_dangling (set_numeric [] parser_dangling)
              (default ∅ (contexts parser_dangling))
              (default ∅ (units parser_dangling)) "c9" "u9" [])
    as (el & Hel & Hcontext & Hunit & _).
  - vm_compute; reflexivity.
  - vm_compute; reflexivity.
  - vm_compute; reflexivity.
  - vm_compute; reflexivity.
  - vm_compute; reflexivity.
  - exists el. split; [exact Hel|]. split.
    + apply Hcontext. vm_compute; reflexivity.
    + apply Hunit. vm_compute; reflexivity.
Defined.

(** The claim on a numeric fact with an attribute named [context]: its
    context reference [c9] is in no definition, yet the entry the
    constructor receives, and the fact carries, is the attribute's value
    and not the reference. *)
Lemma shadowed_reference_not_carried :
  get fact_shadowed "contextRef" = Some "c9"
  ∧ contexts parser_shadowed ≫= (.!! "c9") = None
  ∧ (el ← numeric_element IXBRLParser fact_shadowed parser_shadowed;
     Ok (el !! "context")) = Ok (Some (VStr "elsewhere"))
  ∧ map num_context <$> numeric (example_parsed doc_shadowed false)
    = Some [VStr "elsewhere"].
Proof. vm_compute. done. Qed.

(** Classification of the three example documents. *)
Lemma get_parser_classification_witness :
  _get_parser name_matches doc_plain true
  = Ok (FILETYPE_IXBRL, Parser_init IXBRLParser doc_plain true)
  ∧ _get_parser name_matches doc_bare false
    = Ok (FILETYPE_XBRL, Parser_init XBRLParser doc_bare false)
  ∧ example_init doc_unrecognised false
    = (None, Raised (Exception_ "Filetype not recognised"))
  ∧ example_init doc_unrecognised true
    = (None, Raised (Exception_ "Filetype not recognised")).
Proof.
  split; [|split; [|split]].
  - apply (get_parser_classification name_matches Components.new_ixbrlContext
             Components.new_ixbrlNonNumeric
             (Components.new_ixbrlNumeric example_registry) doc_plain).
    apply find_is_Some. vm_compute. by eexists.
  - apply (get_parser_classification name_matches Components.new_ixbrlContext
             Components.new_ixbrlNonNumeric
             (Components.new_ixbrlNumeric example_registry) doc_bare).
    + apply find_None. vm_compute; reflexivity.
    + apply find_is_Some. vm_compute. by eexists.
  - apply (get_parser_classification name_matches Components.new_ixbrlContext
             Components.new_ixbrlNonNumeric
             (Components.new_ixbrlNumeric example_registry) doc_unrecognised).
    + apply find_None. vm_compute; reflexivity.
    + apply find_None. vm_compute; reflexivity.
  - apply (get_parser_classification name_matches Components.new_ixbrlContext
             Components.new_ixbrlNonNumeric
             (Components.new_ixbrlNumeric example_registry) doc_unrecognised).
    + apply find_None. vm_compute; reflexivity.
    + apply find_None. vm_compute; reflexivity.
Defined.

(** The three kinds of element of the bare example document, and the
    two loops on it: among the elements below its root the numeric loop
    constructs from the one with both references and the non-numeric
    loop from the one with a context reference only. *)
Lemma bare_classification_witness :
  (xbrl_numeric_step (Components.new_ixbrlNumeric example_registry)
     bare_number (example_resources XBRLParser doc_bare false)
   = add_numeric (Components.new_ixbrlNumeric example_registry) XBRLParser
       bare_number (example_resources XBRLParser doc_bare false))
  ∧ (xbrl_nonnumeric_step Components.new_ixbrlNonNumeric
       bare_text (example_resources XBRLParser doc_bare false)
     = add_nonnumeric Components.new_ixbrlNonNumeric XBRLParser
         bare_text (example_resources XBRLParser doc_bare false))
  ∧ (xbrl_numeric_step (Components.new_ixbrlNumeric example_registry)
       bare_other (example_resources XBRLParser doc_bare false)
     = (example_resources XBRLParser doc_bare false, Returned))
  ∧ example_get_numeric (example_resources XBRLParser doc_bare false)
    = for_each
        (add_numeric (Components.new_ixbrlNumeric example_registry)
           XBRLParser)
        [bare_number]
        (set_numeric [] (example_resources XBRLParser doc_bare false))
  ∧ example_get_nonnumeric (example_resources XBRLParser doc_bare false)
    = for_each (add_nonnumeric Components.new_ixbrlNonNumeric XBRLParser)
        [bare_text]
        (set_nonnumeric [] (example_resources XBRLParser doc_bare false))
  ∧ map num_name
      <$> numeric (example_get_numeric
                     (example_resources XBRLParser doc_bare false)).1
    = Some ["CashBankInHand"]
  ∧ map nn_name
      <$> nonnumeric (example_get_nonnumeric
                        (example_resources XBRLParser doc_bare false)).1
    = Some ["EntityName"].
Proof.
  pose proof (bare_classification name_matches Components.new_ixbrlNonNumeric
                (Components.new_ixbrlNumeric example_registry)) as H.
  destruct (proj1 (proj2 (proj2 (proj2
              (H bare_number (example_resources XBRLParser doc_bare false)))))
              eq_refl root_bare) as [Hnum Hnn].
  { vm_compute; reflexivity. }
  assert (Hnumeric :
    List.filter (fun t => get_truthy t "contextRef" && get_truthy t "unitRef")
      (descendants root_bare) = [bare_number]) by (vm_compute; reflexivity).
  assert (Hnonnumeric :
    List.filter (fun t => get_truthy t "contextRef"
                          && negb (get_truthy t "unitRef"))
      (descendants root_bare) = [bare_text]) by (vm_compute; reflexivity).
  rewrite Hnumeric in Hnum. rewrite Hnonnumeric in Hnn.
  split; [|split; [|split; [|split; [|split; [|split]]]]].
  - apply (proj1 (H bare_number _));
      apply get_truthy_carries; vm_compute; reflexivity.
  - apply (proj1 (proj2 (H bare_text _))).
    + apply get_truthy_carries; vm_compute; reflexivity.
    + apply get_truthy_not_carries; vm_compute; reflexivity.
  - apply (proj1 (proj2 (proj2 (H bare_other _)))).
    apply get_truthy_not_carries; vm_compute; reflexivity.
  - exact Hnum.
  - exact Hnn.
  - unfold example_get_numeric. rewrite Hnum. vm_compute; reflexivity.
  - unfold example_get_nonnumeric. rewrite Hnn. vm_compute; reflexivity.
Defined.

(** The later definition of context [c1] is the one the map holds. *)
Lemma duplicate_ids_last_wins_witness :
  ∃ p' cs,
    example_get_contexts (Parser_init IXBRLParser doc_duplicates false)
    = (p', Returned)
    ∧ contexts p' = Some cs
    ∧ cs !! "c1"
      = Some (mkContext "c1" None None None (Some (mkDate 2021 6 30))
                None None).
Proof.
  apply (proj1 (duplicate_ids_last_wins name_matches
                  Components.new_ixbrlContext)
           (Parser_init IXBRLParser doc_duplicates false)
           [ctx_c1] ctx_c1_again []).
  - vm_compute; reflexivity.
  - repeat constructor; vm_compute; eexists; reflexivity.
  - vm_compute; reflexivity.
  - constructor.
Defined.

(** The rows of the plain example document. *)
Lemma table_rows_flat_witness :
  ∃ values,
    table_values (example_parsed doc_plain false) "all" = Ok values
    ∧ Forall2 (flat_row (example_parsed doc_plain false)) values
        (rows_of (to_table (example_parsed doc_plain false) "all")).
Proof.
  apply (table_rows_flat (example_parsed doc_plain false) "all").
  vm_compute; reflexivity.
Defined.

(** The table of a document with an unresolved context reference. *)
Lemma to_table_needs_contexts_witness :
  to_table (example_parsed doc_dangling false) "all"
  = Raise (AttributeError "segments").
Proof.
  apply (to_table_needs_contexts (example_parsed doc_dangling false) "all"
           (map NonNumeric
              (default [] (nonnumeric (example_parsed doc_dangling false)))
            ++ map Numeric
                 (default [] (numeric (example_parsed doc_dangling false))))).
  - vm_compute; reflexivity.
  - vm_compute. by eexists.
  - vm_compute. apply Exists_cons_tl, Exists_cons_hd. by eexists.
Defined.

(** A numeric fact that fails, under each error policy: the parse
    raises at it under raise-on-error and returns under
    collect-on-error, after the non-numeric facts either way.  A text
    fact that raises after a valid numeric fact in document order ends
    the parse under collect-on-error with no numeric list. *)
Lemma numeric_failure_keeps_earlier_witness :
  (example_init doc_bad_format true
   = (Some (FILETYPE_IXBRL, (example_get_numeric (parser_bad_format true)).1),
      Raised (FormatError "ten" (Some "ixt:numwordsen")))
   ∧ numeric (parser_bad_format true) = None
   ∧ nonnumeric (example_get_numeric (parser_bad_format true)).1
     = nonnumeric (parser_bad_format true))
  ∧ (example_init doc_bad_format false
     = (Some (FILETYPE_IXBRL,
              (example_get_numeric (parser_bad_format false)).1),
        Returned)
     ∧ numeric (parser_bad_format false) = None
     ∧ nonnumeric (example_get_numeric (parser_bad_format false)).1
       = nonnumeric (parser_bad_format false))
  ∧ (example_init doc_text_missing_reference false
     = (Some (FILETYPE_IXBRL,
              example_before_numeric IXBRLParser doc_text_missing_reference
                false),
        Raised (KeyError "contextRef"))
     ∧ numeric (example_before_numeric IXBRLParser
                  doc_text_missing_reference false) = None).
Proof.
  split; [|split].
  - destruct (numeric_failure_keeps_earlier name_matches
                Components.new_ixbrlContext Components.new_ixbrlNonNumeric
                (Components.new_ixbrlNumeric example_registry)
                doc_bad_format true FILETYPE_IXBRL
                (Parser_init IXBRLParser doc_bad_format true)
                (parser_bad_format true) Returned)
      as (Hnone & _ & Hret).
    + vm_compute; reflexivity.
    + vm_compute; reflexivity.
    + destruct (Hret eq_refl) as (_ & _ & Hnum).
      destruct (Hnum (example_get_numeric (parser_bad_format true)).1
                  (Raised (FormatError "ten" (Some "ixt:numwordsen"))))
        as (Hinit & _ & _ & _ & _ & _ & Hnn).
      * vm_compute; reflexivity.
      * exact (conj Hinit (conj Hnone Hnn)).
  - destruct (numeric_failure_keeps_earlier name_matches
                Components.new_ixbrlContext Components.new_ixbrlNonNumeric
                (Components.new_ixbrlNumeric example_registry)
                doc_bad_format false FILETYPE_IXBRL
                (Parser_init IXBRLParser doc_bad_format false)
                (parser_bad_format false) Returned)
      as (Hnone & _ & Hret).
    + vm_compute; reflexivity.
    + vm_compute; reflexivity.
    + destruct (Hret eq_refl) as (_ & _ & Hnum).
      destruct (Hnum (example_get_numeric (parser_bad_format false)).1
                  Returned)
        as (Hinit & _ & _ & _ & _ & _ & Hnn).
      * vm_compute; reflexivity.
      * exact (conj Hinit (conj Hnone Hnn)).
  - destruct (numeric_failure_keeps_earlier name_matches
                Components.new_ixbrlContext Components.new_ixbrlNonNumeric
                (Components.new_ixbrlNumeric example_registry)
                doc_text_missing_reference false FILETYPE_IXBRL
                (Parser_init IXBRLParser doc_text_missing_reference false)
                (example_before_numeric IXBRLParser
                   doc_text_missing_reference false)
                (Raised (KeyError "contextRef")))
      as (Hnone & Hraise & _).
    + vm_compute; reflexivity.
    + vm_compute; reflexivity.
    + exact (conj (Hraise _ eq_refl) Hnone).
Defined.

(** Scenario B: the sign marker makes the value negative. *)
Lemma sign_marker_decides_sign_witness : (num_value revenue_negative < 0)%Q.
Proof.
  refine (proj1 (sign_marker_decides_sign name_matches example_registry
                   parser_plain (example_get_numeric parser_plain).1
                   Returned
                   (default [] (numeric (example_get_numeric parser_plain).1))
                   revenue_negative _ _ _)
            eq_refl (1234 # 1)%Q _ _).
  - vm_compute; reflexivity.
  - vm_compute; reflexivity.
  - vm_compute. apply list_elem_of_In. simpl. auto.
  - vm_compute; reflexivity.
  - vm_compute. discriminate.
Defined.

(** * Further properties of the parser *)

Section Schema.

Variable tag_matches : name_filter -> Tag -> bool.

Local Abbreviation find := (find tag_matches).
Local Abbreviation _get_schema := (_get_schema tag_matches).
Local Abbreviation _get_parser := (_get_parser tag_matches).

Lemma fold_namespaces_lookup (l : list (string * string))
  (m : gmap string (list string)) k :
  NoDup l.*1 →
  foldl (fun ns kv =>
           if is_namespace_key kv.1
           then <[kv.1 := PyStr.split_on " " kv.2]> ns
           else ns) m l !! k
  = match (list_to_map l : gmap string string) !! k with
    | Some v =>
        if is_namespace_key k then Some (PyStr.split_on " " v) else m !! k
    | None => m !! k
    end.
Proof.
  revert m. induction l as [|[k0 v0] l IH]; intros m Hnd; simpl; [done|].
  apply NoDup_cons in Hnd as [Hk0 Hnd]. rewrite IH by done.
  destruct (decide (k0 = k)) as [->|Hne].
  - rewrite lookup_insert_eq.
    rewrite (proj1 (not_elem_of_list_to_map l k)) by done.
    destruct (is_namespace_key k); [by rewrite lookup_insert_eq | done].
  - rewrite lookup_insert_ne by done.
    destruct (is_namespace_key k0); [by rewrite lookup_insert_ne | done].
Qed.

Lemma root_namespaces_lookup root k :
  root_namespaces root !! k
  = if is_namespace_key k then PyStr.split_on " " <$> get root k else None.
Proof.
  unfold root_namespaces.
  rewrite fold_namespaces_lookup by apply NoDup_fst_map_to_list.
  rewrite list_to_map_to_list, lookup_empty. unfold get.
  destruct (attrs root !! k); simpl; by destruct (is_namespace_key k).
Qed.

(** X1: when [_get_schema] returns, the schema is the [xlink:href]
    attribute of the first schema reference element, and the namespace
    map holds exactly the attributes of the root element whose name
    starts with [xmlns] or has a colon, each split at its spaces. *)
Theorem get_schema_namespaces p p' :
  _get_schema p = (p', Returned) →
  ∃ ref root ns,
    find (AnyOf ["link:schemaRef"; "schemaRef"]) (soup p) = Some ref
    ∧ find (Spelling (root_element (cls p))) (soup p) = Some root
    ∧ schema p' = Some (get ref "xlink:href")
    ∧ namespaces p' = Some ns
    ∧ ∀ k, ns !! k
           = if PyStr.startswith "xmlns" k || PyStr.contains_char ":" k
             then PyStr.split_on " " <$> get root k
             else None.
Proof.
  unfold _get_schema.
  destruct (find (AnyOf _) (soup p)) as [ref|]; [|done].
  destruct (find (Spelling _) (soup p)) as [root|]; [|done].
  intros [= <-]. exists ref, root, (root_namespaces root).
  repeat split. intros k. apply root_namespaces_lookup.
Qed.

(** X2: on the parser that classification creates, [_get_schema] returns
    exactly when the document has a schema reference element; when it
    has none the call raises an attribute error and assigns nothing. *)
Theorem get_schema_after_classification sp roe ft p :
  _get_parser sp roe = Ok (ft, p) →
  (is_Some (find (AnyOf ["link:schemaRef"; "schemaRef"]) sp) →
   ∃ p', _get_schema p = (p', Returned))
  ∧ (find (AnyOf ["link:schemaRef"; "schemaRef"]) sp = None →
     _get_schema p = (p, Raised (AttributeError "get"))
     ∧ schema p = None ∧ namespaces p = None).
Proof.
  unfold _get_parser, _get_schema.
  destruct (find (Spelling "html") sp) as [r|] eqn:Hh.
  - intros [= _ <-]. simpl. split.
    + intros [ref ->]. rewrite Hh. by eexists.
    + by intros ->.
  - destruct (find (Spelling "xbrl") sp) as [r|] eqn:Hx; [|done].
    intros [= _ <-]. simpl. split.
    + intros [ref ->]. rewrite Hx. by eexists.
    + by intros ->.
Qed.

End Schema.

(** ** Rows, column by column *)

Lemma split_on_nonempty c s : PyStr.split_on c s ≠ [].
Proof.
  destruct s as [|d r]; simpl; [done|].
  destruct (Ascii.eqb c d); [done|]. by destruct (PyStr.split_on c r).
Qed.

Lemma join_cons c w ws :
  ws ≠ [] →
  PyStr.join (String c EmptyString) (w :: ws)
  = w +++ String c (PyStr.join (String c EmptyString) ws).
Proof. destruct ws; [done|]. done. Qed.

(** Joining what a split gave with the separator gives the text back. *)
Lemma join_split c s :
  PyStr.join (String c EmptyString) (PyStr.split_on c s) = s.
Proof.
  induction s as [|d r IH]; simpl; [done|].
  destruct (Ascii.eqb_spec c d) as [->|Hne].
  - rewrite join_cons by apply split_on_nonempty. simpl. by rewrite IH.
  - pose proof (split_on_nonempty c r) as Hnil.
    destruct (PyStr.split_on c r) as [|w ws]; [done|].
    destruct ws as [|w' ws]; simpl in *; by rewrite <- IH.
Qed.

Lemma dict_set_fresh k v d : k ∉ d.*1 → dict_set k v d = d ++ [(k, v)].
Proof.
  induction d as [|[k' v'] d IH]; simpl; [done|].
  intros Hk. apply not_elem_of_cons in Hk as [Hne Hk].
  destruct (String.eqb_spec k k') as [->|_]; [done|]. by rewrite IH.
Qed.

Lemma dict_update_fresh d e :
  NoDup e.*1 → (∀ k, k ∈ e.*1 → k ∉ d.*1) → dict_update d e = d ++ e.
Proof.
  unfold dict_update. revert d.
  induction e as [|[k v] e IH]; intros d Hnd Hfresh; simpl.
  - by rewrite app_nil_r.
  - apply NoDup_cons in Hnd as [Hk Hnd].
    rewrite dict_set_fresh by (apply Hfresh; left).
    rewrite IH; [by rewrite <- app_assoc | done |].
    intros k' Hk'. rewrite fmap_app. simpl.
    intros [Hd|Hd%list_elem_of_singleton]%elem_of_app.
    + by apply (Hfresh k'); [right|].
    + by subst.
Qed.

Lemma segment_column_keys l :
  (imap segment_column l).*1
  = (fun i : nat => "segment:" +++ pretty i) <$> List.seq 0 (length l).
Proof.
  rewrite fmap_imap. unfold compose, segment_column. simpl.
  apply (imap_seq_0 l (fun i : nat => "segment:" +++ pretty i)).
Qed.

Lemma segment_column_keys_NoDup l : NoDup (imap segment_column l).*1.
Proof.
  rewrite segment_column_keys. apply NoDup_fmap_2_strong; [|apply NoDup_seq].
  intros i j _ _ H. simpl in H. apply (inj pretty). by simplify_eq.
Qed.

Lemma segment_key_not_fixed (i : nat) :
  "segment:" +++ pretty i ∉ fixed_columns.
Proof.
  unfold fixed_columns. simpl. intros H.
  repeat (apply elem_of_cons in H as [H|H]; [discriminate|]).
  by apply elem_of_nil in H.
Qed.

(** The segment columns of a context with members are one column per
    member, in the order of the members. *)
Lemma segment_columns_imap l : segment_columns l = imap segment_column l.
Proof.
  unfold segment_columns.
  change (fun (i : nat) (s : gmap string string) =>
            ("segment:" +++ pretty i, VStr (segment_label s)))
    with segment_column.
  rewrite dict_update_fresh; [done | apply segment_column_keys_NoDup |].
  intros k _ H. by apply elem_of_nil in H.
Qed.

Lemma fixed_cells_update (cells segs : pydict) :
  cells.*1 = fixed_columns →
  NoDup segs.*1 →
  (∀ k, k ∈ segs.*1 → ∃ i : nat, k = "segment:" +++ pretty i) →
  dict_update cells segs = cells ++ segs.
Proof.
  intros Hcells Hnd Hsegs. apply dict_update_fresh; [done|].
  intros k [i ->]%Hsegs. rewrite Hcells. apply segment_key_not_fixed.
Qed.

Lemma row_segments_keys c k :
  k ∈ (row_segments c).*1 → ∃ i : nat, k = "segment:" +++ pretty i.
Proof.
  unfold row_segments. destruct (segments c) as [[|s r]|].
  - intros ->%list_elem_of_singleton. by exists 0.
  - rewrite segment_columns_imap, segment_column_keys.
    intros (i & -> & _)%list_elem_of_fmap. by exists i.
  - intros ->%list_elem_of_singleton. by exists 0.
Qed.

Lemma row_segments_NoDup c : NoDup (row_segments c).*1.
Proof.
  unfold row_segments. destruct (segments c) as [[|s r]|].
  - apply NoDup_singleton.
  - rewrite segment_columns_imap. apply segment_column_keys_NoDup.
  - apply NoDup_singleton.
Qed.

Lemma fixed_columns_NoDup : NoDup fixed_columns.
Proof. apply (bool_decide_unpack _). by vm_compute. Qed.

(** X3: a row is the seven fixed columns, in their order, followed by
    the segment columns: one column [segment:i] per segment member of
    the context, in the order of the members, or the single column
    [segment:0] with the empty string when there are none; no column
    occurs twice. *)
Theorem table_row_columns p v row :
  table_row p v = Ok row →
  ∃ c, fact_context v = VContext c
       ∧ (take 7 row).*1 = fixed_columns
       ∧ drop 7 row
         = match segments c with
           | Some (s :: r) => imap segment_column (s :: r)
           | Some [] | None => [("segment:0", VStr "")]
           end
       ∧ NoDup row.*1.
Proof.
  unfold table_row.
  destruct (fact_context v) as [| | | |c]; try done.
  destruct (namespaces p) as [ns|]; simpl; [|done].
  rewrite fixed_cells_update;
    [|done | apply row_segments_NoDup | apply row_segments_keys].
  intros [= <-]. exists c. split; [done|]. split; [done|]. split.
  - simpl. unfold row_segments.
    destruct (segments c) as [[|s r]|]; [done| |done].
    by rewrite segment_columns_imap.
  - change (NoDup (fixed_columns ++ (row_segments c).*1)).
    apply NoDup_app. split; [apply fixed_columns_NoDup|].
    split; [|apply row_segments_NoDup].
    intros k Hk [i ->]%row_segments_keys.
    by apply (segment_key_not_fixed i).
Qed.

(** X4: the schema column of a row is the root element's attribute
    [xmlns:<prefix>] as it is written in the document when the root has
    one for the fact's prefix, and the prefix itself otherwise. *)
Theorem schema_column_expands tag_matches p0 p1 root p v c :
  _get_schema tag_matches p0 = (p1, Returned) →
  find tag_matches (Spelling (root_element (cls p0))) (soup p0) = Some root →
  namespaces p = namespaces p1 →
  fact_context v = VContext c →
  ∃ row, table_row p v = Ok row
         ∧ dict_get "schema" row
           = Some (VStr (default (fact_schema v)
                           (get root ("xmlns:" +++ fact_schema v)))).
Proof.
  unfold _get_schema. intros Hrun Hroot Hns Hc.
  destruct (find _ (AnyOf _) (soup p0)) as [ref|]; [|done].
  rewrite Hroot in Hrun. injection Hrun as <-. simpl in Hns.
  unfold table_row. rewrite Hc, Hns. simpl.
  rewrite fixed_cells_update;
    [|done | apply row_segments_NoDup | apply row_segments_keys].
  eexists. split; [done|]. simpl. do 3 f_equal.
  rewrite root_namespaces_lookup.
  change (is_namespace_key ("xmlns:" +++ fact_schema v)) with true.
  simpl. destruct (get root _) as [uri|]; simpl; [|done].
  apply (join_split " "%char).
Qed.

Lemma mapM_app_Ok {A B} (f : A -> result B) l1 l2 a b :
  mapM f l1 = Ok a → mapM f l2 = Ok b → mapM f (l1 ++ l2) = Ok (a ++ b).
Proof.
  revert a. induction l1 as [|x l1 IH]; intros a; simpl.
  - by intros [= <-].
  - destruct (f x) as [y|e]; simpl; [|done].
    destruct (mapM f l1) as [a'|e] eqn:H1; simpl; [|done].
    intros [= <-] H2. by rewrite (IH a' eq_refl H2).
Qed.

Lemma mapM_length {A B} (f : A -> result B) l k :
  mapM f l = Ok k → length k = length l.
Proof.
  revert k. induction l as [|x l IH]; intros k; simpl.
  - by intros [= <-].
  - destruct (f x) as [y|e]; simpl; [|done].
    destruct (mapM f l) as [k'|e]; simpl; [|done].
    intros [= <-]. simpl. by rewrite (IH k').
Qed.

(** X5: any selector other than ["nonnumeric"] and ["numeric"] selects
    both kinds of fact: the table is the rows of the non-numeric facts
    followed by the rows of the numeric facts, and each table has one
    row per fact of its kind. *)
Theorem to_table_all p fields a b :
  fields ≠ "nonnumeric" → fields ≠ "numeric" →
  to_table p "nonnumeric" = Ok a →
  to_table p "numeric" = Ok b →
  to_table p fields = Ok (a ++ b)
  ∧ Some (length a) = length <$> nonnumeric p
  ∧ Some (length b) = length <$> numeric p.
Proof.
  intros Hnn%String.eqb_neq Hnum%String.eqb_neq.
  unfold to_table, table_values. rewrite Hnn, Hnum. simpl.
  destruct (nonnumeric p) as [l|]; simpl; [|done].
  destruct (numeric p) as [k|]; simpl; [|done].
  intros Ha Hb. rewrite (mapM_app_Ok _ _ _ _ _ Ha Hb).
  apply mapM_length in Ha, Hb. rewrite length_map in Ha, Hb.
  by rewrite Ha, Hb.
Qed.

(** ** Contexts and units *)

(** A loop that returns has stored the entry of every element, and its
    keys are the keys that were there and the keys of the elements. *)
Lemma store_entries_returned {V} (entry : Tag -> result (string * V))
  l m m' :
  store_entries entry l m = (m', Returned) →
  Forall (fun t => ∃ x, entry t = Ok x) l
  ∧ ∀ i, is_Some (m' !! i)
         ↔ is_Some (m !! i) ∨ ∃ t x, t ∈ l ∧ entry t = Ok x ∧ x.1 = i.
Proof.
  revert m. induction l as [|t l IH]; intros m; simpl.
  - intros [= <-]. split; [constructor|]. intros i. split; [by left|].
    intros [H|(t & x & Ht & _)]; [done | by apply elem_of_nil in Ht].
  - destruct (entry t) as [[j w]|e] eqn:Ht; [|done].
    intros [Hall Hkeys]%IH. split; [constructor; [by eexists | done]|].
    intros i. rewrite Hkeys. split.
    + intros [Hm|(t' & x & Ht' & Hx & Hi)].
      * destruct (decide (j = i)) as [->|Hne].
        -- right. exists t, (i, w). repeat split; [left | done].
        -- left. by rewrite lookup_insert_ne in Hm.
      * right. exists t', x. repeat split; [by right | done..].
    + intros [Hm|(t' & x & Ht' & Hx & Hi)].
      * left. destruct (decide (j = i)) as [->|Hne].
        -- by rewrite lookup_insert_eq.
        -- by rewrite lookup_insert_ne.
      * apply elem_of_cons in Ht' as [->|Ht'].
        -- left. rewrite Ht in Hx. injection Hx as <-. simpl in Hi.
           subst. by rewrite lookup_insert_eq.
        -- right. by exists t', x.
Qed.

Section Resources.

Variable tag_matches : name_filter -> Tag -> bool.
Variable new_ixbrlContext : context_kwargs -> result ixbrlContext.

Local Abbreviation find := (find tag_matches).
Local Abbreviation _get_contexts := (_get_contexts tag_matches new_ixbrlContext).
Local Abbreviation _get_units := (_get_units tag_matches).
Local Abbreviation context_entry :=
  (context_entry tag_matches new_ixbrlContext).
Local Abbreviation unit_entry := (unit_entry tag_matches).

(** X6: when context resolution (unit resolution) returns, the ids in
    the contexts map (units map) are exactly the ids of the context
    (unit) elements it ran over: every element is in it under its id,
    and nothing else is. *)
Theorem resolved_ids_are_element_ids :
  (∀ p p' elems,
      _get_context_elements tag_matches (cls p) (soup p) = Ok elems →
      _get_contexts p = (p', Returned) →
      ∃ cs, contexts p' = Some cs
            ∧ Forall (fun t => is_Some (get t "id")) elems
            ∧ ∀ i, is_Some (cs !! i) ↔ ∃ t, t ∈ elems ∧ get t "id" = Some i)
  ∧ (∀ p p' elems,
      _get_unit_elements tag_matches (cls p) (soup p) = Ok elems →
      _get_units p = (p', Returned) →
      ∃ us, units p' = Some us
            ∧ Forall (fun t => is_Some (get t "id")) elems
            ∧ ∀ i, is_Some (us !! i) ↔ ∃ t, t ∈ elems ∧ get t "id" = Some i).
Proof.
  split.
  - intros p p' elems Hel. unfold _get_contexts. rewrite Hel.
    rewrite (contexts_loop _ _ _ _ ∅) by done.
    destruct (store_entries context_entry elems ∅) as [m o] eqn:Hst.
    intros [= <- ->]. apply store_entries_returned in Hst as [Hall Hkeys].
    exists m. split; [done|]. split.
    + eapply Forall_impl; [exact Hall|]. intros t [[i c] Hx].
      apply context_entry_id in Hx. by rewrite Hx.
    + intros i. rewrite Hkeys. split.
      * intros [Hm|(t & [j c] & Ht & Hx & <-)].
        -- rewrite lookup_empty in Hm. by destruct Hm.
        -- exists t. split; [done|]. by apply context_entry_id in Hx.
      * intros (t & Ht & Hi). right.
        rewrite Forall_forall in Hall. destruct (Hall t Ht) as [[j c] Hx].
        exists t, (j, c). repeat split; [done..|].
        apply context_entry_id in Hx. simpl. congruence.
  - intros p p' elems Hel. unfold _get_units. rewrite Hel.
    rewrite (units_loop _ _ _ ∅) by done.
    destruct (store_entries unit_entry elems ∅) as [m o] eqn:Hst.
    intros [= <- ->]. apply store_entries_returned in Hst as [Hall Hkeys].
    exists m. split; [done|]. split.
    + eapply Forall_impl; [exact Hall|]. intros t [[i c] Hx].
      apply unit_entry_id in Hx. by rewrite Hx.
    + intros i. rewrite Hkeys. split.
      * intros [Hm|(t & [j c] & Ht & Hx & <-)].
        -- rewrite lookup_empty in Hm. by destruct Hm.
        -- exists t. split; [done|]. by apply unit_entry_id in Hx.
      * intros (t & Ht & Hi). right.
        rewrite Forall_forall in Hall. destruct (Hall t Ht) as [[j c] Hx].
        exists t, (j, c). repeat split; [done..|].
        apply unit_entry_id in Hx. simpl. congruence.
Qed.

(** X7: the first unit element with no [id] attribute ends unit
    resolution with [KeyError], under either error policy; no error is
    recorded and the units map holds only units that come before it. *)
Theorem unit_without_id_raises p l1 s l2 :
  _get_unit_elements tag_matches (cls p) (soup p) = Ok (l1 ++ s :: l2) →
  Forall (fun t => is_Some (get t "id")) l1 →
  get s "id" = None →
  ∃ p' us,
    _get_units p = (p', Raised (KeyError "id"))
    ∧ errors p' = errors p
    ∧ units p' = Some us
    ∧ ∀ i, is_Some (us !! i) → ∃ t, t ∈ l1 ∧ get t "id" = Some i.
Proof.
  intros Hel Hl1 Hs. unfold _get_units. rewrite Hel.
  rewrite (units_loop _ _ _ ∅) by done.
  destruct (store_entries_raise unit_entry l1 s l2 (KeyError "id") ∅)
    as (m' & e' & -> & He & Hdom).
  { unfold unit_entry, getitem. by rewrite Hs. }
  rewrite He.
  2:{ eapply Forall_impl; [exact Hl1|]. intros t [i Hi].
      unfold unit_entry, getitem. rewrite Hi. by eexists. }
  exists (set_units m' (set_units ∅ p)), m'. repeat split.
  intros i Hi. destruct (Hdom i Hi) as [Hm|(t & [j c] & Ht & Hx & <-)].
  - rewrite lookup_empty in Hm. by destruct Hm.
  - exists t. split; [done|]. by apply unit_entry_id in Hx.
Qed.

(** X8: a context element whose identifier child has no [scheme]
    attribute ends context resolution with [KeyError] for [scheme],
    under either error policy and without recording an error, when the
    context elements before it were built. *)
Theorem identifier_without_scheme_raises p l1 s l2 i e :
  _get_context_elements tag_matches (cls p) (soup p) = Ok (l1 ++ s :: l2) →
  Forall (fun t => ∃ x, context_entry t = Ok x) l1 →
  get s "id" = Some i →
  find (AnyOf ["xbrli:identifier"; "identifier"]) s = Some e →
  get e "scheme" = None →
  ∃ p', _get_contexts p = (p', Raised (KeyError "scheme"))
        ∧ errors p' = errors p.
Proof.
  intros Hel Hl1 Hi He Hscheme. unfold _get_contexts. rewrite Hel.
  rewrite (contexts_loop _ _ _ _ ∅) by done.
  destruct (store_entries_raise context_entry l1 s l2 (KeyError "scheme") ∅)
    as (m' & e' & -> & Heq & _).
  { unfold context_entry, context_kwargs_of, getitem.
    by rewrite Hi, He, Hscheme. }
  rewrite (Heq Hl1). by eexists.
Qed.

End Resources.

(** ** The fact loops and the whole parse *)

Lemma replay_collect_all {F} (att : Tag -> attempt F) l :
  Forall (fun s => ∀ e, att s ≠ Escaped e) l →
  replay false (map (fun s => (s, att s)) l)
  = (built_facts att l, failed_pairs att l, Returned)
  ∧ length (built_facts att l) + length (failed_pairs att l) = length l.
Proof.
  unfold built_facts, failed_pairs.
  induction 1 as [|s l Hs _ [IH Hlen]]; [done|].
  cbn [map replay omap list_omap]. destruct (att s) as [f|e|e] eqn:Ha.
  - rewrite IH. split; [done|]. cbn [length]. lia.
  - rewrite IH. split; [done|]. cbn [length]. lia.
  - by destruct (Hs e).
Qed.

(** Under the raise-on-error policy a loop records nothing when it
    returns and one pair at most when it raises. *)
Lemma replay_raise_errors {F} (l : list (Tag * attempt F)) fs es o :
  replay true l = (fs, es, o) →
  match o with
  | Returned => es = []
  | Raised e => es = [] ∨ ∃ s, es = [(e, s)]
  end.
Proof.
  revert fs es o. induction l as [|[s [f|e|e]] l IH]; intros fs es o; simpl.
  - by intros [= <- <- <-].
  - destruct (replay true l) as [[fs' es'] o'].
    intros [= <- <- <-]. by apply (IH fs' es' o').
  - intros [= <- <- <-]. right. by exists s.
  - intros [= <- <- <-]. by left.
Qed.

Section Extraction.

Variable tag_matches : name_filter -> Tag -> bool.
Variable new_ixbrlContext : context_kwargs -> result ixbrlContext.
Variable new_ixbrlNonNumeric : nonnumeric_kwargs -> result ixbrlNonNumeric.
Variable new_ixbrlNumeric : gmap string pyval -> result ixbrlNumeric.

Local Abbreviation find := (find tag_matches).
Local Abbreviation _get_parser := (_get_parser tag_matches).
Local Abbreviation _get_schema := (_get_schema tag_matches).
Local Abbreviation _get_contexts := (_get_contexts tag_matches new_ixbrlContext).
Local Abbreviation _get_units := (_get_units tag_matches).
Local Abbreviation _get_nonnumeric :=
  (_get_nonnumeric tag_matches new_ixbrlNonNumeric).
Local Abbreviation _get_numeric := (_get_numeric tag_matches new_ixbrlNumeric).
Local Abbreviation nonnumeric_attempt :=
  (nonnumeric_attempt new_ixbrlNonNumeric).
Local Abbreviation numeric_attempt := (numeric_attempt new_ixbrlNumeric).
Local Abbreviation extract :=
  (extract tag_matches new_ixbrlContext new_ixbrlNonNumeric new_ixbrlNumeric).
Local Abbreviation IXBRL_init :=
  (IXBRL_init tag_matches new_ixbrlContext new_ixbrlNonNumeric
     new_ixbrlNumeric).

Lemma numeric_attempt_reaches_constructor p s :
  is_Some (contexts p) → is_Some (units p) →
  is_Some (get s "contextRef") → is_Some (get s "unitRef") →
  ∀ e, numeric_attempt p s ≠ Escaped e.
Proof.
  intros [cs Hcs] [us Hus] [r Hr] [u Hu] e.
  unfold numeric_attempt, attempt_of, numeric_element, getitem.
  rewrite Hcs, Hus, Hr, Hu. simpl.
  by destruct (new_ixbrlNumeric _).
Qed.

Lemma nonnumeric_attempt_reaches_constructor p s :
  is_Some (contexts p) → is_Some (get s "contextRef") →
  (cls p = IXBRLParser → is_Some (get s "name")) →
  ∀ e, nonnumeric_attempt p s ≠ Escaped e.
Proof.
  intros [cs Hcs] [r Hr] Hname e.
  unfold nonnumeric_attempt, attempt_of, nonnumeric_element, getitem.
  rewrite Hcs, Hr. simpl. destruct (cls p).
  - destruct Hname as [n ->]; [done|]. simpl.
    by destruct (new_ixbrlNonNumeric _).
  - simpl. by destruct (new_ixbrlNonNumeric _).
Qed.

(** X9: when errors are collected and every numeric candidate has its
    [contextRef] and [unitRef] attributes, [_get_numeric] returns: the
    numeric list is the facts of the candidates whose constructor call
    succeeded, in document order, the error list gains the pairs of the
    ones whose call failed, in document order, and every candidate is in
    one of the two. *)
Theorem get_numeric_collects p cands :
  raise_on_error p = false →
  is_Some (contexts p) → is_Some (units p) →
  numeric_candidates tag_matches p = Ok cands →
  Forall (fun s => is_Some (get s "contextRef") ∧ is_Some (get s "unitRef"))
    cands →
  _get_numeric p
  = (set_errors (errors p ++ failed_pairs (numeric_attempt p) cands)
       (set_numeric (built_facts (numeric_attempt p) cands) p),
     Returned)
  ∧ length (built_facts (numeric_attempt p) cands)
    + length (failed_pairs (numeric_attempt p) cands)
    = length cands.
Proof.
  intros Hroe Hcs Hus Hc Hattrs.
  rewrite (get_numeric_replay _ _ _ _ Hc), Hroe.
  destruct (replay_collect_all (numeric_attempt p) cands) as [-> Hlen];
    [|done].
  eapply Forall_impl; [exact Hattrs|]. intros s [Hr Hu].
  by apply numeric_attempt_reaches_constructor.
Qed.

(** X10: the same for [_get_nonnumeric], whose candidates need their
    [contextRef] attribute and, under the inline format, their [name]
    attribute. *)
Theorem get_nonnumeric_collects p cands :
  raise_on_error p = false →
  is_Some (contexts p) →
  nonnumeric_candidates tag_matches p = Ok cands →
  Forall (fun s => is_Some (get s "contextRef")
                   ∧ (cls p = IXBRLParser → is_Some (get s "name")))
    cands →
  _get_nonnumeric p
  = (set_errors (errors p ++ failed_pairs (nonnumeric_attempt p) cands)
       (set_nonnumeric (built_facts (nonnumeric_attempt p) cands) p),
     Returned)
  ∧ length (built_facts (nonnumeric_attempt p) cands)
    + length (failed_pairs (nonnumeric_attempt p) cands)
    = length cands.
Proof.
  intros Hroe Hcs Hc Hattrs.
  rewrite (get_nonnumeric_replay _ _ _ _ Hc), Hroe.
  destruct (replay_collect_all (nonnumeric_attempt p) cands) as [-> Hlen];
    [|done].
  eapply Forall_impl; [exact Hattrs|]. intros s [Hr Hn].
  by apply nonnumeric_attempt_reaches_constructor.
Qed.

Lemma get_truthy_is_Some s k : get_truthy s k = true → is_Some (get s k).
Proof. unfold get_truthy. by destruct (get s k). Qed.

(** X11: under the bare format, with errors collected and contexts and
    units resolved, fact extraction never raises: both fact loops
    return, whatever the elements below the root are. *)
Theorem bare_collecting_never_raises p root :
  cls p = XBRLParser → raise_on_error p = false →
  is_Some (contexts p) → is_Some (units p) →
  find (Spelling "xbrl") (soup p) = Some root →
  ∃ p1 p2, _get_nonnumeric p = (p1, Returned)
           ∧ _get_numeric p1 = (p2, Returned).
Proof.
  intros Hcls Hroe Hcs Hus Hroot.
  destruct (get_nonnumeric_collects p
              (List.filter (fun s => negb (skip_nonnumeric s))
                 (descendants root))) as [Hnn _]; [done..| | |].
  { unfold nonnumeric_candidates, _get_elements. rewrite Hcls. simpl.
    by rewrite Hroot. }
  { apply Forall_forall. intros s [_ Hs]%list_elem_of_In%filter_In.
    unfold skip_nonnumeric in Hs. split; [|by rewrite Hcls].
    apply get_truthy_is_Some. by destruct (get_truthy s "contextRef"). }
  eexists _, _. split; [exact Hnn|].
  match goal with |- _ ?q = _ => set (p1 := q) end.
  refine (proj1 (get_numeric_collects p1
                   (List.filter (fun s => negb (skip_numeric s))
                      (descendants root)) _ _ _ _ _)); try done.
  - unfold numeric_candidates, _get_elements. subst p1. simpl.
    rewrite Hcls. simpl. by rewrite Hroot.
  - apply Forall_forall. intros s [_ Hs]%list_elem_of_In%filter_In.
    unfold skip_numeric in Hs.
    split; apply get_truthy_is_Some;
      by destruct (get_truthy s "contextRef"), (get_truthy s "unitRef").
Qed.

Lemma fact_loops_preserve {A} (field : Parser -> A) :
  (∀ v p, field (set_nonnumeric v p) = field p) →
  (∀ v p, field (set_numeric v p) = field p) →
  (∀ v p, field (set_errors v p) = field p) →
  preserves field _get_nonnumeric ∧ preserves field _get_numeric.
Proof.
  intros Hnn Hnum Herr.
  assert (Hrec : ∀ e s, preserves field (record_error e s)).
  { intros e s p. unfold record_error. simpl. apply Herr. }
  assert (Ha : ∀ c s, preserves field (add_nonnumeric new_ixbrlNonNumeric c s)).
  { intros c s p. unfold add_nonnumeric.
    destruct (nonnumeric_element c s p) as [el|e]; [|done].
    match goal with |- context [match ?r with Ok _ => _ | Raise _ => _ end] =>
      destruct r end; [apply Hnn | apply Hrec]. }
  assert (Hb : ∀ c s, preserves field (add_numeric new_ixbrlNumeric c s)).
  { intros c s p. unfold add_numeric.
    destruct (numeric_element c s p) as [el|e]; [|done].
    match goal with |- context [match ?r with Ok _ => _ | Raise _ => _ end] =>
      destruct r end; [apply Hnum | apply Hrec]. }
  split; intros p.
  - unfold _get_nonnumeric. destruct (cls p).
    + rewrite for_each_preserves; [apply Hnn | apply Ha].
    + destruct (_get_elements tag_matches p); [|apply Hnn].
      rewrite for_each_preserves; [apply Hnn|].
      intros s q. unfold xbrl_nonnumeric_step.
      destruct (skip_nonnumeric s); [done | apply Ha].
  - unfold _get_numeric. destruct (cls p).
    + rewrite for_each_preserves; [apply Hnum | apply Hb].
    + destruct (_get_elements tag_matches p); [|apply Hnum].
      rewrite for_each_preserves; [apply Hnum|].
      intros s q. unfold xbrl_numeric_step.
      destruct (skip_numeric s); [done | apply Hb].
Qed.

Lemma seq_keeps {A} (field : Parser -> A) (m1 m2 : method) :
  preserves field m1 → preserves field m2 → preserves field (seq m1 m2).
Proof.
  intros H1 H2 p. unfold seq. specialize (H1 p).
  destruct (m1 p) as [p' [|e]]; simpl in *; [|done].
  by rewrite H2.
Qed.

(** A field no extraction call assigns is as it was after the parse. *)
Lemma extract_preserves {A} (field : Parser -> A) :
  (∀ v p, field (set_schema v p) = field p) →
  (∀ v p, field (set_namespaces v p) = field p) →
  (∀ v p, field (set_contexts v p) = field p) →
  (∀ v p, field (set_units v p) = field p) →
  (∀ v p, field (set_nonnumeric v p) = field p) →
  (∀ v p, field (set_numeric v p) = field p) →
  (∀ v p, field (set_errors v p) = field p) →
  preserves field extract.
Proof.
  intros H1 H2 H3 H4 H5 H6 H7. unfold extract.
  destruct (fact_loops_preserve field H5 H6 H7) as [Hnn Hnum].
  repeat apply seq_keeps;
    auto using get_schema_preserves, get_contexts_preserves,
      get_units_preserves.
Qed.

Lemma get_parser_creates sp roe ft p :
  _get_parser sp roe = Ok (ft, p) →
  soup p = sp ∧ raise_on_error p = roe ∧ errors p = []
  ∧ (ft = FILETYPE_IXBRL ∧ cls p = IXBRLParser
     ∨ ft = FILETYPE_XBRL ∧ cls p = XBRLParser).
Proof.
  unfold _get_parser.
  destruct (find (Spelling "html") sp);
    [intros ?; simplify_eq; repeat split; by left|].
  destruct (find (Spelling "xbrl") sp);
    [intros ?; simplify_eq; repeat split; by right | done].
Qed.

Lemma get_numeric_without_candidates p e :
  numeric_candidates tag_matches p = Raise e →
  _get_numeric p = (set_numeric [] p, Raised e).
Proof.
  unfold numeric_candidates, _get_numeric. destruct (cls p); [done|].
  destruct (_get_elements tag_matches p); [done | by intros [= ->]].
Qed.

Lemma get_nonnumeric_without_candidates p e :
  nonnumeric_candidates tag_matches p = Raise e →
  _get_nonnumeric p = (set_nonnumeric [] p, Raised e).
Proof.
  unfold nonnumeric_candidates, _get_nonnumeric. destruct (cls p); [done|].
  destruct (_get_elements tag_matches p); [done | by intros [= ->]].
Qed.

(** A fact loop only appends to the error list. *)
Lemma fact_loops_append_errors p :
  (∃ es, errors (_get_nonnumeric p).1 = errors p ++ es)
  ∧ (∃ es, errors (_get_numeric p).1 = errors p ++ es).
Proof.
  split.
  - destruct (nonnumeric_candidates tag_matches p) as [cands|e] eqn:Hc.
    + rewrite (get_nonnumeric_replay _ _ _ _ Hc).
      destruct (replay _ _) as [[fs es] o]. by exists es.
    + rewrite (get_nonnumeric_without_candidates _ _ Hc). exists [].
      simpl. by rewrite app_nil_r.
  - destruct (numeric_candidates tag_matches p) as [cands|e] eqn:Hc.
    + rewrite (get_numeric_replay _ _ _ _ Hc).
      destruct (replay _ _) as [[fs es] o]. by exists es.
    + rewrite (get_numeric_without_candidates _ _ Hc). exists [].
      simpl. by rewrite app_nil_r.
Qed.

(** Under the raise-on-error policy a fact loop that returns recorded
    nothing, and one that raises recorded the raised error at most. *)
Lemma get_nonnumeric_raising p p' o :
  raise_on_error p = true → _get_nonnumeric p = (p', o) →
  match o with
  | Returned => errors p' = errors p
  | Raised e => errors p' = errors p ∨ ∃ s, errors p' = errors p ++ [(e, s)]
  end.
Proof.
  intros Hroe.
  destruct (nonnumeric_candidates tag_matches p) as [cands|e0] eqn:Hc.
  - rewrite (get_nonnumeric_replay _ _ _ _ Hc), Hroe.
    destruct (replay true _) as [[fs es] o'] eqn:Hr.
    intros [= <- <-]. apply replay_raise_errors in Hr. simpl.
    destruct o' as [|e].
    + subst es. by rewrite app_nil_r.
    + destruct Hr as [->|[s ->]]; [left; by rewrite app_nil_r|].
      right. by exists s.
  - rewrite (get_nonnumeric_without_candidates _ _ Hc).
    intros [= <- <-]. by left.
Qed.

Lemma get_numeric_raising p p' o :
  raise_on_error p = true → _get_numeric p = (p', o) →
  match o with
  | Returned => errors p' = errors p
  | Raised e => errors p' = errors p ∨ ∃ s, errors p' = errors p ++ [(e, s)]
  end.
Proof.
  intros Hroe.
  destruct (numeric_candidates tag_matches p) as [cands|e0] eqn:Hc.
  - rewrite (get_numeric_replay _ _ _ _ Hc), Hroe.
    destruct (replay true _) as [[fs es] o'] eqn:Hr.
    intros [= <- <-]. apply replay_raise_errors in Hr. simpl.
    destruct o' as [|e].
    + subst es. by rewrite app_nil_r.
    + destruct Hr as [->|[s ->]]; [left; by rewrite app_nil_r|].
      right. by exists s.
  - rewrite (get_numeric_without_candidates _ _ Hc).
    intros [= <- <-]. by left.
Qed.

(** X12: under the raise-on-error policy a parse that returns has an
    empty error list, and a parse that raises has recorded nothing or
    just the error it raised. *)
Theorem raise_on_error_records_at_most_one sp ft p o :
  IXBRL_init sp true = (Some (ft, p), o) →
  match o with
  | Returned => errors p = []
  | Raised e => errors p = [] ∨ ∃ s, errors p = [(e, s)]
  end.
Proof.
  unfold IXBRL_init.
  destruct (_get_parser sp true) as [[ft0 p0]|e0] eqn:Hp; [|done].
  apply get_parser_creates in Hp as (_ & Hroe0 & Herr0 & _).
  destruct (extract p0) as [q o'] eqn:Hex. intros [= _ <- <-].
  revert Hex. unfold extract, seq.
  pose proof (get_schema_preserves tag_matches errors (fun _ _ => eq_refl)
                (fun _ _ => eq_refl) p0) as E1.
  pose proof (get_schema_preserves tag_matches raise_on_error
                (fun _ _ => eq_refl) (fun _ _ => eq_refl) p0) as R1.
  destruct (_get_schema p0) as [p1 [|e]]; simpl in *;
    [|intros [= <- <-]; left; congruence].
  pose proof (get_contexts_preserves tag_matches new_ixbrlContext errors
                (fun _ _ => eq_refl) p1) as E2.
  pose proof (get_contexts_preserves tag_matches new_ixbrlContext
                raise_on_error (fun _ _ => eq_refl) p1) as R2.
  destruct (_get_contexts p1) as [p2 [|e]]; simpl in *;
    [|intros [= <- <-]; left; congruence].
  pose proof (get_units_preserves tag_matches errors
                (fun _ _ => eq_refl) p2) as E3.
  pose proof (get_units_preserves tag_matches raise_on_error
                (fun _ _ => eq_refl) p2) as R3.
  destruct (_get_units p2) as [p3 [|e]]; simpl in *;
    [|intros [= <- <-]; left; congruence].
  assert (Hroe3 : raise_on_error p3 = true) by congruence.
  assert (Herr3 : errors p3 = []) by congruence.
  pose proof (get_nonnumeric_raising p3) as N.
  pose proof (proj1 (fact_loops_preserve raise_on_error
                       (fun _ _ => eq_refl) (fun _ _ => eq_refl)
                       (fun _ _ => eq_refl)) p3) as R4.
  destruct (_get_nonnumeric p3) as [p4 [|e]]; simpl in *.
  - specialize (N p4 Returned Hroe3 eq_refl). simpl in N.
    assert (Hroe4 : raise_on_error p4 = true) by congruence.
    intros Hnum. apply (get_numeric_raising p4) in Hnum; [|done].
    rewrite N, Herr3 in Hnum. exact Hnum.
  - specialize (N p4 (Raised e) Hroe3 eq_refl). simpl in N.
    intros [= <- <-]. by rewrite Herr3 in N.
Qed.

(** X13: whatever the outcome, a parse leaves the document, the error
    policy and the parser class as classification set them, and the file
    type names the class; a parse that returns has assigned the schema,
    the namespaces, the contexts, the units and both fact lists. *)
Theorem parse_assigns_everything sp roe ft p o :
  IXBRL_init sp roe = (Some (ft, p), o) →
  soup p = sp ∧ raise_on_error p = roe
  ∧ (ft = FILETYPE_IXBRL ∧ cls p = IXBRLParser
     ∨ ft = FILETYPE_XBRL ∧ cls p = XBRLParser)
  ∧ (o = Returned →
     is_Some (schema p) ∧ is_Some (namespaces p) ∧ is_Some (contexts p)
     ∧ is_Some (units p) ∧ is_Some (nonnumeric p) ∧ is_Some (numeric p)).
Proof.
  unfold IXBRL_init.
  destruct (_get_parser sp roe) as [[ft0 p0]|e0] eqn:Hp; [|done].
  apply get_parser_creates in Hp as (Hsoup & Hroe & _ & Hcls).
  destruct (extract p0) as [q o'] eqn:Hex. intros [= <- <- <-].
  pose proof (extract_preserves soup (fun _ _ => eq_refl)
                (fun _ _ => eq_refl) (fun _ _ => eq_refl)
                (fun _ _ => eq_refl) (fun _ _ => eq_refl)
                (fun _ _ => eq_refl) (fun _ _ => eq_refl) p0) as Fsoup.
  pose proof (extract_preserves raise_on_error (fun _ _ => eq_refl)
                (fun _ _ => eq_refl) (fun _ _ => eq_refl)
                (fun _ _ => eq_refl) (fun _ _ => eq_refl)
                (fun _ _ => eq_refl) (fun _ _ => eq_refl) p0) as Froe.
  pose proof (extract_preserves cls (fun _ _ => eq_refl)
                (fun _ _ => eq_refl) (fun _ _ => eq_refl)
                (fun _ _ => eq_refl) (fun _ _ => eq_refl)
                (fun _ _ => eq_refl) (fun _ _ => eq_refl) p0) as Fcls.
  rewrite Hex in Fsoup, Froe, Fcls. simpl in *.
  split; [congruence|]. split; [congruence|].
  split; [by rewrite Fcls|].
  intros ->. revert Hex. unfold extract. intros Hex.
  apply seq_Returned in Hex as (p1 & H1 & Hex).
  apply seq_Returned in Hex as (p2 & H2 & Hex).
  apply seq_Returned in Hex as (p3 & H3 & Hex).
  apply seq_Returned in Hex as (p4 & H4 & H5).
  pose proof (get_schema_populates _ _ _ H1) as [Hs1 Hns1].
  pose proof (get_contexts_preserves tag_matches new_ixbrlContext schema
                (fun _ _ => eq_refl) p1) as Fs2.
  pose proof (get_contexts_preserves tag_matches new_ixbrlContext namespaces
                (fun _ _ => eq_refl) p1) as Fns2.
  pose proof (get_contexts_populates tag_matches new_ixbrlContext p1) as Hc2.
  pose proof (get_units_preserves tag_matches schema (fun _ _ => eq_refl) p2)
    as Fs3.
  pose proof (get_units_preserves tag_matches namespaces
                (fun _ _ => eq_refl) p2) as Fns3.
  pose proof (get_units_preserves tag_matches contexts
                (fun _ _ => eq_refl) p2) as Fc3.
  pose proof (get_units_populates tag_matches p2) as Hu3.
  pose proof (get_nonnumeric_resources tag_matches new_ixbrlNonNumeric p3)
    as (_ & _ & _ & Fs4 & Fns4 & Fc4 & Fu4).
  pose proof (get_numeric_resources tag_matches new_ixbrlNumeric p4)
    as (_ & _ & _ & Fs5 & Fns5 & Fc5 & Fu5).
  pose proof (get_numeric_nonnumeric tag_matches new_ixbrlNumeric p4) as Fnn5.
  assert (Hnn4 : is_Some (nonnumeric p4)).
  { destruct (nonnumeric_candidates tag_matches p3) as [cands|e] eqn:Hc.
    - pose proof (get_nonnumeric_replay tag_matches new_ixbrlNonNumeric
                    _ _ Hc) as Hrep.
      rewrite H4 in Hrep. destruct (replay _ _) as [[fs es] o'].
      injection Hrep as -> _. by eexists.
    - rewrite (get_nonnumeric_without_candidates _ _ Hc) in H4. done. }
  assert (Hn5 : is_Some (numeric q)).
  { destruct (numeric_candidates tag_matches p4) as [cands|e] eqn:Hc.
    - pose proof (get_numeric_replay tag_matches new_ixbrlNumeric
                    _ _ Hc) as Hrep.
      rewrite H5 in Hrep. destruct (replay _ _) as [[fs es] o'].
      injection Hrep as -> _. by eexists.
    - rewrite (get_numeric_without_candidates _ _ Hc) in H5. done. }
  rewrite H2 in Fs2, Fns2, Hc2. rewrite H3 in Fs3, Fns3, Fc3, Hu3.
  rewrite H4 in Fs4, Fns4, Fc4, Fu4. rewrite H5 in Fs5, Fns5, Fc5, Fu5, Fnn5.
  simpl in *.
  repeat split; try done; congruence.
Qed.

(** X14: the extraction calls only append to the error list: the list
    after them is the list before them followed by further entries,
    whether the parse returned or raised. *)
Theorem extract_appends_errors p :
  ∃ es, errors (extract p).1 = errors p ++ es.
Proof.
  unfold extract, seq.
  pose proof (get_schema_preserves tag_matches errors (fun _ _ => eq_refl)
                (fun _ _ => eq_refl) p) as E1.
  destruct (_get_schema p) as [p1 [|e]]; simpl in *;
    [|exists []; by rewrite app_nil_r].
  pose proof (get_contexts_preserves tag_matches new_ixbrlContext errors
                (fun _ _ => eq_refl) p1) as E2.
  destruct (_get_contexts p1) as [p2 [|e]]; simpl in *;
    [|exists []; rewrite app_nil_r; congruence].
  pose proof (get_units_preserves tag_matches errors
                (fun _ _ => eq_refl) p2) as E3.
  destruct (_get_units p2) as [p3 [|e]]; simpl in *;
    [|exists []; rewrite app_nil_r; congruence].
  destruct (proj1 (fact_loops_append_errors p3)) as [es4 E4].
  destruct (_get_nonnumeric p3) as [p4 [|e]]; simpl in *;
    [|exists es4; congruence].
  destruct (proj2 (fact_loops_append_errors p4)) as [es5 E5].
  exists (es4 ++ es5). rewrite E5, E4, <- app_assoc. congruence.
Qed.

(** X15: an inline document with no resources element cannot be parsed:
    whatever the error policy, the parse raises an attribute error in
    context resolution, with an empty contexts map, no units, no facts
    and no recorded error. *)
Theorem inline_without_resources sp root ref roe :
  find (Spelling "html") sp = Some root →
  find (AnyOf ["link:schemaRef"; "schemaRef"]) sp = Some ref →
  find (AnyOf ["ix:resources"; "resources"]) sp = None →
  ∃ p, IXBRL_init sp roe
       = (Some (FILETYPE_IXBRL, p), Raised (AttributeError "find_all"))
       ∧ contexts p = Some ∅ ∧ units p = None
       ∧ nonnumeric p = None ∧ numeric p = None ∧ errors p = [].
Proof.
  intros Hroot Href Hres.
  unfold IXBRL_init, _get_parser, extract, seq, _get_schema, _get_contexts,
    _get_context_elements.
  rewrite Hroot. simpl. rewrite Href, Hroot. simpl. rewrite Hres.
  by eexists.
Qed.


End Extraction.

(** ** What the constructors receive *)

Lemma append_cons x r s : String x r +++ s = String x (r +++ s).
Proof. done. Qed.

Lemma append_nil_r s : s +++ EmptyString = s.
Proof.
  induction s as [|c r IH]; [done|]. rewrite append_cons. by f_equal.
Qed.

Lemma append_assoc a b c : (a +++ b) +++ c = a +++ (b +++ c).
Proof.
  induction a as [|x r IH]; [done|]. rewrite !append_cons. by f_equal.
Qed.

Lemma rev_onto_rev_onto a b c :
  PyStr.rev_onto (PyStr.rev_onto a b) c = PyStr.rev_onto b (a +++ c).
Proof.
  revert b. induction a as [|x r IH]; intros b; [done|].
  rewrite append_cons. simpl. by rewrite IH.
Qed.

Lemma rev_rev s : PyStr.rev (PyStr.rev s) = s.
Proof.
  unfold PyStr.rev. rewrite rev_onto_rev_onto. simpl. apply append_nil_r.
Qed.

Lemma rev_onto_acc a acc :
  PyStr.rev_onto a acc = PyStr.rev_onto a EmptyString +++ acc.
Proof.
  revert acc. induction a as [|x r IH]; intros acc; simpl; [done|].
  rewrite (IH (String x acc)), (IH (String x EmptyString)).
  by rewrite append_assoc.
Qed.

Lemma rev_onto_app a b acc :
  PyStr.rev_onto (a +++ b) acc = PyStr.rev_onto b (PyStr.rev_onto a acc).
Proof.
  revert acc. induction a as [|x r IH]; intros acc; [done|].
  rewrite append_cons. simpl. by rewrite IH.
Qed.

Lemma lstrip_no_space s : starts_with_space (PyStr.lstrip s) = false.
Proof.
  induction s as [|c r IH]; simpl; [done|].
  destruct (PyStr.isspace c) eqn:Hc; [done | simpl; by rewrite Hc].
Qed.

Lemma lstrip_keeps_last x c :
  PyStr.isspace c = false →
  ∃ y, PyStr.lstrip (x +++ String c EmptyString) = y +++ String c EmptyString.
Proof.
  intros Hc. induction x as [|d r [y IH]].
  - exists EmptyString. change (PyStr.lstrip (String c EmptyString)
                                = String c EmptyString).
    simpl. by rewrite Hc.
  - rewrite append_cons. simpl.
    destruct (PyStr.isspace d); [by exists y|].
    by exists (String d r).
Qed.

Lemma rstrip_keeps_first t :
  starts_with_space t = false → starts_with_space (PyStr.rstrip t) = false.
Proof.
  destruct t as [|c r]; simpl; [done|]. intros Hc.
  unfold PyStr.rstrip, PyStr.rev at 2. simpl. rewrite rev_onto_acc.
  destruct (lstrip_keeps_last (PyStr.rev_onto r EmptyString) c Hc)
    as [y ->].
  unfold PyStr.rev. rewrite rev_onto_app. simpl. done.
Qed.

Lemma strip_no_space s :
  starts_with_space (PyStr.strip s) = false
  ∧ starts_with_space (PyStr.rev (PyStr.strip s)) = false.
Proof.
  unfold PyStr.strip. split.
  - apply rstrip_keeps_first, lstrip_no_space.
  - unfold PyStr.rstrip. rewrite rev_rev. apply lstrip_no_space.
Qed.

Lemma remove_char_gone c s :
  PyStr.contains_char c (PyStr.remove_char c s) = false.
Proof.
  induction s as [|d r IH]; simpl; [done|].
  destruct (Ascii.eqb c d) eqn:E; [done|]. simpl. by rewrite E.
Qed.

Lemma remove_newline_keeps_first t :
  starts_with_space t = false →
  starts_with_space (PyStr.remove_char "010"%char t) = false.
Proof.
  destruct t as [|c r]; [done|].
  cbn [starts_with_space PyStr.remove_char]. intros Hc.
  destruct (Ascii.eqb_spec "010"%char c) as [<-|_]; [done|]. exact Hc.
Qed.

Lemma rev_onto_remove_char c a acc :
  PyStr.rev_onto (PyStr.remove_char c a) (PyStr.remove_char c acc)
  = PyStr.remove_char c (PyStr.rev_onto a acc).
Proof.
  revert acc. induction a as [|d r IH]; intros acc; simpl; [done|].
  rewrite <- IH. simpl. by destruct (Ascii.eqb c d).
Qed.

Lemma rev_remove_char c s :
  PyStr.rev (PyStr.remove_char c s) = PyStr.remove_char c (PyStr.rev s).
Proof. apply (rev_onto_remove_char c s EmptyString). Qed.

(** X16: the text value a non-numeric fact is built with is trimmed: it
    has no newline, and it neither begins nor ends with whitespace; its
    format is the [format] attribute of the element, if any. *)
Theorem nonnumeric_value_trimmed c s p kw :
  nonnumeric_element c s p = Ok kw →
  PyStr.contains_char "010"%char (kw_value kw) = false
  ∧ starts_with_space (kw_value kw) = false
  ∧ starts_with_space (PyStr.rev (kw_value kw)) = false
  ∧ kw_format_ kw = get s "format".
Proof.
  unfold nonnumeric_element.
  destruct (getattr "contexts" (contexts p)) as [cs|e]; simpl; [|done].
  destruct (getitem s "contextRef") as [r|e]; simpl; [|done].
  match goal with |- context [mbind _ ?n] =>
    destruct n as [n'|e]; simpl; [|done] end.
  intros [= <-]. simpl.
  destruct (strip_no_space (text s)) as [Hfirst Hlast].
  split; [apply remove_char_gone|].
  split; [by apply remove_newline_keeps_first|].
  split; [|done].
  rewrite rev_remove_char. by apply remove_newline_keeps_first.
Qed.

(** X17: the dictionary a numeric fact is built from holds every
    attribute of the element as it is written; the entries [text] and,
    under the bare format, [name] are the element's text and tag name
    unless an attribute has that name; and it has no keys but the
    attribute names, [text], [context], [unit] and [name]. *)
Theorem numeric_element_entries_verbatim c s p el :
  numeric_element c s p = Ok el →
  (∀ k v, get s k = Some v → el !! k = Some (VStr v))
  ∧ (get s "text" = None → el !! "text" = Some (VStr (text s)))
  ∧ (c = XBRLParser → get s "name" = None →
     el !! "name" = Some (VStr (name s)))
  ∧ (c = IXBRLParser → el !! "name" = VStr <$> get s "name")
  ∧ ∀ k, is_Some (el !! k) →
         is_Some (get s k) ∨ k ∈ ["text"; "context"; "unit"; "name"].
Proof.
  unfold numeric_element.
  destruct (getattr "contexts" (contexts p)) as [cs|e]; simpl; [|done].
  destruct (getitem s "contextRef") as [r|e]; simpl; [|done].
  destruct (getattr "units" (units p)) as [us|e]; simpl; [|done].
  destruct (getitem s "unitRef") as [u|e]; simpl; [|done].
  intros [= <-]. unfold get. repeat apply conj.
  - intros k v Hk. apply lookup_union_Some_l. by rewrite lookup_fmap, Hk.
  - intros Ht. rewrite lookup_union_r by (by rewrite lookup_fmap, Ht).
    destruct c; by simplify_map_eq.
  - intros -> Hn. rewrite lookup_union_r by (by rewrite lookup_fmap, Hn).
    by simplify_map_eq.
  - intros ->. rewrite lookup_union, lookup_fmap.
    destruct (attrs s !! "name"); by simplify_map_eq.
  - intros k [v Hv]. apply lookup_union_Some_raw in Hv as [Hv|[_ Hv]].
    + left. rewrite lookup_fmap in Hv.
      destruct (attrs s !! k); [by eexists | done].
    + right. destruct c.
      * apply lookup_insert_Some in Hv as [[<- _]|[_ Hv]]; [set_solver|].
        apply lookup_insert_Some in Hv as [[<- _]|[_ Hv]]; [set_solver|].
        apply lookup_singleton_Some in Hv as [<- _]. set_solver.
      * apply lookup_insert_Some in Hv as [[<- _]|[_ Hv]]; [set_solver|].
        apply lookup_insert_Some in Hv as [[<- _]|[_ Hv]]; [set_solver|].
        apply lookup_insert_Some in Hv as [[<- _]|[_ Hv]]; [set_solver|].
        apply lookup_singleton_Some in Hv as [<- _]. set_solver.
Qed.

(** ** Segment members *)

Lemma segment_member_lookup x :
  segment_member x !! "tag" = Some (default (name x) (get x "tag"))
  ∧ segment_member x !! "value"
    = Some (default (PyStr.strip (text x)) (get x "value"))
  ∧ segment_member x !! "dimension" = get x "dimension".
Proof.
  unfold segment_member, get. rewrite !lookup_union.
  destruct (attrs x !! "tag"), (attrs x !! "value"),
    (attrs x !! "dimension"); by simplify_map_eq.
Qed.

(** X18: a context with no segment child has no segments; one with a
    segment child has one member per element below it, nested ones
    included, in document order.  A member's tag and value are the
    element's name and trimmed text unless an attribute is named so,
    and its column text in a row is tag, dimension and value separated
    by spaces and trimmed, with the word [None] for a missing dimension
    attribute. *)
Theorem context_segment_members tag_matches s kw :
  context_kwargs_of tag_matches s = Ok kw →
  match find tag_matches (AnyOf ["xbrli:segment"; "segment"]) s with
  | None => kw_segments kw = None
  | Some g =>
      ∃ l, kw_segments kw = Some l
           ∧ length l = length (descendants g)
           ∧ ∀ n x, descendants g !! n = Some x →
                    ∃ m, l !! n = Some m
                         ∧ m !! "tag" = Some (default (name x) (get x "tag"))
                         ∧ m !! "dimension" = get x "dimension"
                         ∧ segment_label m
                           = PyStr.strip
                               (default (name x) (get x "tag") +++ " "
                                +++ default "None" (get x "dimension") +++ " "
                                +++ default (PyStr.strip (text x))
                                      (get x "value"))
  end.
Proof.
  unfold context_kwargs_of.
  destruct (getitem s "id") as [i|e]; simpl; [|done].
  match goal with |- context [mbind _ ?scheme] =>
    destruct scheme as [sch|e]; simpl; [|done] end.
  intros [= <-]. simpl.
  destruct (find tag_matches (AnyOf ["xbrli:segment"; "segment"]) s)
    as [g|]; [|done].
  eexists. split; [done|]. split; [by rewrite length_fmap|].
  intros n x Hx. exists (segment_member x).
  split; [by rewrite list_lookup_fmap, Hx|].
  destruct (segment_member_lookup x) as (Htag & Hvalue & Hdim).
  split; [done|]. split; [done|].
  unfold segment_label, format_value. by rewrite Htag, Hvalue, Hdim.
Qed.

(** ** The nested export *)

Lemma mapM_total {A B} (f : A -> result B) l :
  Forall (fun x => ∃ y, f x = Ok y) l → ∃ k, mapM f l = Ok k.
Proof.
  induction 1 as [|x l [y Hy] _ [k IH]]; [by exists []|].
  rewrite mapM_cons, Hy, IH. by eexists.
Qed.

Section ToJsonProperties.

Variable J : Type.
Variable context_to_json : ixbrlContext -> result J.
Variable nonnumeric_to_json : ixbrlNonNumeric -> result J.
Variable numeric_to_json : ixbrlNumeric -> result J.

Local Abbreviation contexts_to_json := (contexts_to_json J context_to_json).
Local Abbreviation to_json :=
  (to_json J context_to_json nonnumeric_to_json numeric_to_json).

Lemma contexts_to_json_lookup cs jcs :
  contexts_to_json cs = Ok jcs →
  ∀ c, match cs !! c with
       | Some ct => ∃ jc, context_to_json ct = Ok jc ∧ jcs !! c = Some jc
       | None => jcs !! c = None
       end.
Proof.
  unfold contexts_to_json.
  destruct (mapM _ (map_to_list cs)) as [entries|e] eqn:Hm; simpl; [|done].
  intros [= <-] c. apply mapM_Ok in Hm.
  assert (Hkeys : entries.*1 = (map_to_list cs).*1).
  { induction Hm as [|[k ct] en l l' Hx _ IH]; [done|].
    rewrite !fmap_cons. f_equal; [|exact IH]. simpl in Hx.
    destruct (context_to_json ct); simpl in Hx; [|done].
    by injection Hx as <-. }
  destruct (cs !! c) as [ct|] eqn:Hc.
  - apply elem_of_map_to_list in Hc.
    apply list_elem_of_lookup in Hc as [n Hn].
    destruct (Forall2_lookup_l _ _ _ _ _ Hm Hn) as (en & Hen & Hx).
    simpl in Hx. destruct (context_to_json ct) as [jc|]; simpl in Hx; [|done].
    injection Hx as <-. exists jc. split; [done|].
    apply elem_of_list_to_map_1.
    + rewrite Hkeys. apply NoDup_fst_map_to_list.
    + by apply list_elem_of_lookup_2 in Hen.
  - apply not_elem_of_list_to_map_1. rewrite Hkeys.
    intros ([k ct] & -> & Hin%elem_of_map_to_list)%list_elem_of_fmap.
    simpl in Hc. congruence.
Qed.

(** X19: when [to_json] returns, the parser had its schema, namespaces,
    contexts, units and both fact lists assigned; the document carries
    the schema, the namespaces and the units as they are, one serialized
    context under each context id and no other, one serialized fact per
    fact in the order of the lists, and of the errors only their
    number. *)
Theorem to_json_content p j :
  to_json p = Ok j →
  schema p = Some (json_schema J j)
  ∧ namespaces p = Some (json_namespaces J j)
  ∧ units p = Some (json_units J j)
  ∧ json_errors J j = length (errors p)
  ∧ (∃ cs, contexts p = Some cs
           ∧ ∀ c, match cs !! c with
                  | Some ct => ∃ jc, context_to_json ct = Ok jc
                                     ∧ json_contexts J j !! c = Some jc
                  | None => json_contexts J j !! c = None
                  end)
  ∧ (∃ nn, nonnumeric p = Some nn
           ∧ Forall2 (fun f jf => nonnumeric_to_json f = Ok jf) nn
               (json_nonnumeric J j))
  ∧ (∃ nu, numeric p = Some nu
           ∧ Forall2 (fun f jf => numeric_to_json f = Ok jf) nu
               (json_numeric J j)).
Proof.
  unfold to_json.
  destruct (schema p) as [sch|]; simpl; [|done].
  destruct (namespaces p) as [ns|]; simpl; [|done].
  destruct (contexts p) as [cs|]; simpl; [|done].
  destruct (contexts_to_json cs) as [jcs|e] eqn:Hcs; simpl; [|done].
  destruct (units p) as [us|]; simpl; [|done].
  destruct (nonnumeric p) as [nn|]; simpl; [|done].
  destruct (mapM nonnumeric_to_json nn) as [jnn|e] eqn:Hnn; simpl; [|done].
  destruct (numeric p) as [nu|]; simpl; [|done].
  destruct (mapM numeric_to_json nu) as [jnu|e] eqn:Hnu; simpl; [|done].
  intros [= <-]. simpl. repeat split.
  - exists cs. split; [done|]. by apply contexts_to_json_lookup.
  - exists nn. split; [done|]. by apply mapM_Ok.
  - exists nu. split; [done|]. by apply mapM_Ok.
Qed.

(** X20: [to_json] returns when the six attributes are assigned and
    every context and fact serializes; with the schema never assigned,
    as after a parse that stopped in [_get_schema], it raises an
    attribute error. *)
Theorem to_json_returns p :
  (is_Some (schema p) → is_Some (namespaces p) → is_Some (units p) →
   (∃ cs, contexts p = Some cs
          ∧ map_Forall (fun _ ct => ∃ jc, context_to_json ct = Ok jc) cs) →
   (∃ nn, nonnumeric p = Some nn
          ∧ Forall (fun f => ∃ jf, nonnumeric_to_json f = Ok jf) nn) →
   (∃ nu, numeric p = Some nu
          ∧ Forall (fun f => ∃ jf, numeric_to_json f = Ok jf) nu) →
   ∃ j, to_json p = Ok j)
  ∧ (schema p = None → to_json p = Raise (AttributeError "schema")).
Proof.
  split.
  - intros [sch Hs] [ns Hns] [us Hus] (cs & Hcs & Hall) (nn & Hnn & Hnnall)
      (nu & Hnu & Hnuall).
    unfold to_json. rewrite Hs, Hns, Hcs, Hus, Hnn, Hnu. simpl.
    destruct (mapM_total (fun kv => j ← context_to_json kv.2; Ok (kv.1, j))
                (map_to_list cs)) as [entries Hentries].
    { apply Forall_forall. intros [c ct] Hin%elem_of_map_to_list.
      destruct (Hall c ct Hin) as [jc Hjc]. simpl. rewrite Hjc. by eexists. }
    unfold contexts_to_json. rewrite Hentries. simpl.
    destruct (mapM_total _ _ Hnnall) as [jnn ->].
    destruct (mapM_total _ _ Hnuall) as [jnu ->]. simpl. by eexists.
  - intros Hs. unfold to_json. by rewrite Hs.
Qed.

End ToJsonProperties.

(** ** The further properties on the example documents *)

Lemma get_schema_namespaces_witness :
  ∃ ref root ns,
    find name_matches (AnyOf ["link:schemaRef"; "schemaRef"]) doc_namespaced
    = Some ref
    ∧ find name_matches (Spelling "html") doc_namespaced = Some root
    ∧ schema (_get_schema name_matches
                (Parser_init IXBRLParser doc_namespaced false)).1
      = Some (get ref "xlink:href")
    ∧ namespaces (_get_schema name_matches
                    (Parser_init IXBRLParser doc_namespaced false)).1
      = Some ns
    ∧ ∀ k, ns !! k
           = if PyStr.startswith "xmlns" k || PyStr.contains_char ":" k
             then PyStr.split_on " " <$> get root k
             else None.
Proof.
  apply (get_schema_namespaces name_matches
           (Parser_init IXBRLParser doc_namespaced false)).
  vm_compute; reflexivity.
Defined.

Lemma get_schema_after_classification_witness :
  _get_schema name_matches (Parser_init IXBRLParser doc_without_schema true)
  = (Parser_init IXBRLParser doc_without_schema true,
     Raised (AttributeError "get")).
Proof.
  apply (get_schema_after_classification name_matches doc_without_schema
           true FILETYPE_IXBRL).
  - vm_compute; reflexivity.
  - vm_compute; reflexivity.
Defined.

Lemma table_row_columns_witness :
  (take 7 (row_of (table_row (example_parsed doc_namespaced false)
                     entity_fact))).*1
  = fixed_columns
  ∧ drop 7 (row_of (table_row (example_parsed doc_namespaced false)
                      entity_fact))
    = [segment_column 0 (segment_member member_c2)].
Proof.
  destruct (table_row_columns (example_parsed doc_namespaced false)
              entity_fact
              (row_of (table_row (example_parsed doc_namespaced false)
                         entity_fact)))
    as (c & Hc & Hfixed & Hrest & _).
  - vm_compute; reflexivity.
  - injection Hc as <-. by split.
Defined.

Lemma schema_column_expands_witness :
  ∃ row,
    table_row (example_parsed doc_namespaced false) entity_fact = Ok row
    ∧ dict_get "schema" row
      = Some (VStr "http://example.org/core http://example.org/c2").
Proof.
  apply (schema_column_expands name_matches
           (Parser_init IXBRLParser doc_namespaced false)
           (_get_schema name_matches
              (Parser_init IXBRLParser doc_namespaced false)).1
           html_namespaced (example_parsed doc_namespaced false)
           entity_fact context_c2).
  - vm_compute; reflexivity.
  - vm_compute; reflexivity.
  - vm_compute; reflexivity.
  - reflexivity.
Defined.

Lemma to_table_all_witness :
  to_table (example_parsed doc_plain false) "all"
  = Ok (rows_of (to_table (example_parsed doc_plain false) "nonnumeric")
        ++ rows_of (to_table (example_parsed doc_plain false) "numeric"))
  ∧ Some (length (rows_of (to_table (example_parsed doc_plain false)
                             "nonnumeric")))
    = length <$> nonnumeric (example_parsed doc_plain false)
  ∧ Some (length (rows_of (to_table (example_parsed doc_plain false)
                             "numeric")))
    = length <$> numeric (example_parsed doc_plain false).
Proof.
  apply (to_table_all (example_parsed doc_plain false) "all").
  - discriminate.
  - discriminate.
  - vm_compute; reflexivity.
  - vm_compute; reflexivity.
Defined.

Lemma resolved_ids_are_element_ids_witness :
  ∃ cs, contexts (example_get_contexts
                    (Parser_init IXBRLParser doc_plain false)).1
        = Some cs
        ∧ Forall (fun t => is_Some (get t "id")) [ctx_c1; ctx_c2]
        ∧ ∀ i, is_Some (cs !! i)
               ↔ ∃ t, t ∈ [ctx_c1; ctx_c2] ∧ get t "id" = Some i.
Proof.
  apply (proj1 (resolved_ids_are_element_ids name_matches
                  Components.new_ixbrlContext)
           (Parser_init IXBRLParser doc_plain false)).
  - vm_compute; reflexivity.
  - vm_compute; reflexivity.
Defined.

Lemma unit_without_id_raises_witness :
  ∃ p' us,
    _get_units name_matches (Parser_init IXBRLParser doc_unit_without_id false)
    = (p', Raised (KeyError "id"))
    ∧ errors p' = errors (Parser_init IXBRLParser doc_unit_without_id false)
    ∧ units p' = Some us
    ∧ ∀ i, is_Some (us !! i) → ∃ t, t ∈ [unit_u1] ∧ get t "id" = Some i.
Proof.
  apply (unit_without_id_raises name_matches
           (Parser_init IXBRLParser doc_unit_without_id false)
           [unit_u1] unit_no_id [unit_u1_again]).
  - vm_compute; reflexivity.
  - repeat constructor. vm_compute. by eexists.
  - vm_compute; reflexivity.
Defined.

Lemma identifier_without_scheme_raises_witness :
  ∃ p',
    example_get_contexts
      (Parser_init IXBRLParser doc_identifier_without_scheme false)
    = (p', Raised (KeyError "scheme"))
    ∧ errors p'
      = errors (Parser_init IXBRLParser doc_identifier_without_scheme false).
Proof.
  apply (identifier_without_scheme_raises name_matches
           Components.new_ixbrlContext
           (Parser_init IXBRLParser doc_identifier_without_scheme false)
           [ctx_c1] ctx_no_scheme [ctx_c2] "c3" identifier_no_scheme).
  - vm_compute; reflexivity.
  - repeat constructor. vm_compute. by eexists.
  - vm_compute; reflexivity.
  - vm_compute; reflexivity.
  - vm_compute; reflexivity.
Defined.

Lemma get_numeric_collects_witness :
  example_get_numeric (parser_bad_format false)
  = (set_errors
       (errors (parser_bad_format false)
        ++ failed_pairs
             (numeric_attempt (Components.new_ixbrlNumeric example_registry)
                (parser_bad_format false))
             [fact_revenue ""; fact_bad_format; fact_costs])
       (set_numeric
          (built_facts
             (numeric_attempt (Components.new_ixbrlNumeric example_registry)
                (parser_bad_format false))
             [fact_revenue ""; fact_bad_format; fact_costs])
          (parser_bad_format false)),
     Returned)
  ∧ length (built_facts
              (numeric_attempt (Components.new_ixbrlNumeric example_registry)
                 (parser_bad_format false))
              [fact_revenue ""; fact_bad_format; fact_costs])
    + length (failed_pairs
                (numeric_attempt (Components.new_ixbrlNumeric example_registry)
                   (parser_bad_format false))
                [fact_revenue ""; fact_bad_format; fact_costs])
    = length [fact_revenue ""; fact_bad_format; fact_costs].
Proof.
  apply (get_numeric_collects name_matches
           (Components.new_ixbrlNumeric example_registry)
           (parser_bad_format false)).
  - vm_compute; reflexivity.
  - vm_compute. by eexists.
  - vm_compute. by eexists.
  - vm_compute; reflexivity.
  - repeat constructor; vm_compute; by eexists.
Defined.

Lemma get_nonnumeric_collects_witness :
  example_get_nonnumeric (example_resources IXBRLParser doc_plain false)
  = (set_errors
       (errors (example_resources IXBRLParser doc_plain false)
        ++ failed_pairs
             (nonnumeric_attempt Components.new_ixbrlNonNumeric
                (example_resources IXBRLParser doc_plain false))
             [fact_name_text])
       (set_nonnumeric
          (built_facts
             (nonnumeric_attempt Components.new_ixbrlNonNumeric
                (example_resources IXBRLParser doc_plain false))
             [fact_name_text])
          (example_resources IXBRLParser doc_plain false)),
     Returned)
  ∧ length (built_facts
              (nonnumeric_attempt Components.new_ixbrlNonNumeric
                 (example_resources IXBRLParser doc_plain false))
              [fact_name_text])
    + length (failed_pairs
                (nonnumeric_attempt Components.new_ixbrlNonNumeric
                   (example_resources IXBRLParser doc_plain false))
                [fact_name_text])
    = length [fact_name_text].
Proof.
  apply (get_nonnumeric_collects name_matches Components.new_ixbrlNonNumeric
           (example_resources IXBRLParser doc_plain false)).
  - vm_compute; reflexivity.
  - vm_compute. by eexists.
  - vm_compute; reflexivity.
  - repeat constructor; vm_compute; by eexists.
Defined.

Lemma bare_collecting_never_raises_witness :
  ∃ p1 p2,
    example_get_nonnumeric (example_resources XBRLParser doc_bare false)
    = (p1, Returned)
    ∧ example_get_numeric p1 = (p2, Returned).
Proof.
  apply (bare_collecting_never_raises name_matches
           Components.new_ixbrlNonNumeric
           (Components.new_ixbrlNumeric example_registry)
           (example_resources XBRLParser doc_bare false) root_bare).
  - vm_compute; reflexivity.
  - vm_compute; reflexivity.
  - vm_compute. by eexists.
  - vm_compute. by eexists.
  - vm_compute; reflexivity.
Defined.

Lemma raise_on_error_records_at_most_one_witness :
  errors (example_parsed doc_bad_format true) = []
  ∨ ∃ s, errors (example_parsed doc_bad_format true)
         = [(FormatError "ten" (Some "ixt:numwordsen"), s)].
Proof.
  apply (raise_on_error_records_at_most_one name_matches
           Components.new_ixbrlContext Components.new_ixbrlNonNumeric
           (Components.new_ixbrlNumeric example_registry)
           doc_bad_format FILETYPE_IXBRL
           (example_parsed doc_bad_format true)
           (Raised (FormatError "ten" (Some "ixt:numwordsen")))).
  vm_compute; reflexivity.
Defined.

Lemma parse_assigns_everything_witness :
  soup (example_parsed doc_plain false) = doc_plain
  ∧ is_Some (nonnumeric (example_parsed doc_plain false))
  ∧ is_Some (numeric (example_parsed doc_plain false)).
Proof.
  destruct (parse_assigns_everything name_matches
              Components.new_ixbrlContext Components.new_ixbrlNonNumeric
              (Components.new_ixbrlNumeric example_registry)
              doc_plain false FILETYPE_IXBRL
              (example_parsed doc_plain false) Returned)
    as (Hsoup & _ & _ & Hall).
  - vm_compute; reflexivity.
  - destruct (Hall eq_refl) as (_ & _ & _ & _ & Hnn & Hnum). by repeat split.
Defined.

Lemma inline_without_resources_witness :
  ∃ p,
    example_init doc_without_resources false
    = (Some (FILETYPE_IXBRL, p), Raised (AttributeError "find_all"))
    ∧ contexts p = Some ∅ ∧ units p = None
    ∧ nonnumeric p = None ∧ numeric p = None ∧ errors p = [].
Proof.
  apply (inline_without_resources name_matches Components.new_ixbrlContext
           Components.new_ixbrlNonNumeric
           (Components.new_ixbrlNumeric example_registry)
           doc_without_resources html_without_resources schema_ref false).
  - vm_compute; reflexivity.
  - vm_compute; reflexivity.
  - vm_compute; reflexivity.
Defined.

Lemma nonnumeric_value_trimmed_witness :
  PyStr.contains_char "010"%char (kw_value padded_kwargs) = false
  ∧ starts_with_space (kw_value padded_kwargs) = false
  ∧ starts_with_space (PyStr.rev (kw_value padded_kwargs)) = false
  ∧ kw_format_ padded_kwargs = get fact_padded "format".
Proof.
  apply (nonnumeric_value_trimmed IXBRLParser fact_padded
           (example_resources IXBRLParser doc_plain false)).
  vm_compute; reflexivity.
Defined.

Lemma numeric_element_entries_verbatim_witness :
  element_of (numeric_element IXBRLParser (fact_revenue "-") parser_plain)
    !! "sign" = Some (VStr "-")
  ∧ element_of (numeric_element IXBRLParser (fact_revenue "-") parser_plain)
      !! "text" = Some (VStr "1,234").
Proof.
  destruct (numeric_element_entries_verbatim IXBRLParser (fact_revenue "-")
              parser_plain
              (element_of (numeric_element IXBRLParser (fact_revenue "-")
                             parser_plain)))
    as (Hattr & Htext & _).
  - vm_compute; reflexivity.
  - split.
    + apply Hattr. vm_compute; reflexivity.
    + apply Htext. vm_compute; reflexivity.
Defined.

Lemma context_segment_members_witness :
  ∃ l, kw_segments kwargs_c2 = Some l
       ∧ length l = length (descendants segment_c2).
Proof.
  pose proof (context_segment_members name_matches ctx_c2 kwargs_c2) as H.
  assert (Hfind : find name_matches (AnyOf ["xbrli:segment"; "segment"]) ctx_c2
                  = Some segment_c2) by (vm_compute; reflexivity).
  rewrite Hfind in H. destruct H as (l & Hl & Hlen & _).
  - vm_compute; reflexivity.
  - by exists l.
Defined.

Lemma to_json_content_witness :
  json_errors string example_json
  = length (errors (example_parsed doc_bad_format false))
  ∧ units (example_parsed doc_bad_format false)
    = Some (json_units string example_json).
Proof.
  destruct (to_json_content string (fun c => Ok (context_id c))
              (fun f => Ok (nn_name f)) (fun f => Ok (num_name f))
              (example_parsed doc_bad_format false) example_json)
    as (_ & _ & Hunits & Herrors & _).
  - vm_compute; reflexivity.
  - by split.
Defined.

Lemma to_json_returns_witness :
  example_to_json (Parser_init IXBRLParser doc_plain true)
  = Raise (AttributeError "schema").
Proof.
  apply (proj2 (to_json_returns string (fun c => Ok (context_id c))
                  (fun f => Ok (nn_name f)) (fun f => Ok (num_name f))
                  (Parser_init IXBRLParser doc_plain true))).
  reflexivity.
Defined.
